(** * Archon task agent: decision engine and remote-operation client

    A shallow embedding of
    - [src/python/src/agents/task_agent.py] (project decomposition, task
      breakdown, task listing, status update, progress analysis and project
      health),
    - [src/python/src/server/services/agents_service_client.py] (HTTP client
      of the agents service),
    - the [select_assignee] policy and the simulations
      [detect_project_domain], [generate_tasks_for_domain],
      [parse_mcp_response] and [format_agent_response] of
      [src/python/tests/test_task_agent_simple.py],
    followed by the properties of these functions.

    Conventions.
    - Python [str] values are [string]s: the UTF-8 bytes of the text.
      Concatenation and the substring test [x in y] agree on code points and
      on their UTF-8 encoding.
    - [str.lower] is a method of the class [Lower]; every general statement
      holds for any lowering function.  [ascii_lower] is the instance used
      for concrete inputs; it agrees with [str.lower] on ASCII text.
    - Python exceptions are values of [exn]; code that may raise returns a
      [result].  Code that talks to a remote service runs in the monad [M],
      which threads the remote service, the requests sent so far and the
      records written by [logger.error].
    - Python floats are IEEE binary64 numbers, [spec_float] with precision 53
      and maximal exponent 1024. *)

From Stdlib Require Import String Ascii List ZArith Bool Lia DecimalString Permutation.
From Stdlib Require Import QArith Qround.
Close Scope Q_scope.
From Stdlib Require Import Floats.SpecFloat.
Import ListNotations.

Set Implicit Arguments.
Set Warnings "-register-all".
Local Open Scope string_scope.
Local Open Scope list_scope.

(** ** Text *)

Module Text.

(** [str.lower()]. *)
Class Lower := lower : string -> string.

(** [needle in hay] on strings: [needle] occurs as a contiguous substring. *)
Fixpoint contains (needle hay : string) : bool :=
  if String.prefix needle hay then true
  else match hay with
       | EmptyString => false
       | String _ rest => contains needle rest
       end.

(** [any(keyword in text for keyword in keywords)]. *)
Definition any_in (keywords : list string) (text : string) : bool :=
  existsb (fun keyword => contains keyword text) keywords.

Definition lower_char (c : ascii) : ascii :=
  let n := nat_of_ascii c in
  if (65 <=? n)%nat && (n <=? 90)%nat then ascii_of_nat (n + 32) else c.

Fixpoint ascii_lower (s : string) : string :=
  match s with
  | EmptyString => EmptyString
  | String c rest => String (lower_char c) (ascii_lower rest)
  end.

(** [f"{a} {b}"]. *)
Definition joined (a b : string) : string := a ++ " " ++ b.

End Text.
Export Text.

(** ** Task specifications and the decomposition templates *)

(** The dictionaries built by the template functions: every one has exactly
    the keys title, description, assignee, priority and feature. *)
Record TaskSpec := mkTask {
  title : string;
  description : string;
  assignee : string;
  priority : Z;
  feature : string
}.

Definition priorities (tasks : list TaskSpec) : list Z := map priority tasks.
Definition assignees (tasks : list TaskSpec) : list string := map assignee tasks.

Module Templates.

Definition _generate_auth_tasks : list TaskSpec :=
  [ mkTask "Design authentication flow"
      "Design the user authentication workflow including login, registration, and password reset flows"
      "User" 9 "authentication";
    mkTask "Implement user model and database schema"
      "Create user model with fields for authentication, set up database schema with proper indexing"
      "AI IDE Agent" 9 "authentication";
    mkTask "Build login API endpoint"
      "Implement secure login endpoint with JWT token generation and validation"
      "AI IDE Agent" 8 "authentication";
    mkTask "Create registration endpoint"
      "Build user registration with email verification and password hashing"
      "AI IDE Agent" 8 "authentication" ].

Definition _generate_api_tasks : list TaskSpec :=
  [ mkTask "Set up API framework and routing"
      "Initialize API framework, set up routing structure, and configure middleware"
      "AI IDE Agent" 9 "api";
    mkTask "Implement API authentication middleware"
      "Create middleware for API authentication and authorization"
      "AI IDE Agent" 8 "api";
    mkTask "Create API documentation"
      "Set up API documentation with OpenAPI/Swagger specifications"
      "Archon" 6 "api" ].

Definition _generate_frontend_tasks : list TaskSpec :=
  [ mkTask "Set up frontend framework and build system"
      "Initialize React/Vue/Angular project with build configuration and dev environment"
      "AI IDE Agent" 9 "frontend";
    mkTask "Design UI component library"
      "Create reusable UI components and establish design system"
      "User" 7 "frontend";
    mkTask "Implement responsive layouts"
      "Build responsive layouts for mobile and desktop views"
      "AI IDE Agent" 6 "frontend" ].

Definition _generate_database_tasks : list TaskSpec :=
  [ mkTask "Design database schema"
      "Create comprehensive database schema with relationships, indexes, and constraints"
      "User" 9 "database";
    mkTask "Set up database migrations"
      "Implement database migration system for schema versioning"
      "AI IDE Agent" 8 "database";
    mkTask "Create database access layer"
      "Implement ORM setup and database access patterns"
      "AI IDE Agent" 7 "database" ].

Definition _generate_generic_project_tasks (title : string) : list TaskSpec :=
  [ mkTask "Project initialization and setup"
      ("Initialize " ++ title ++ " project structure, dependencies, and development environment")
      "AI IDE Agent" 9 "setup";
    mkTask "Define project requirements"
      ("Analyze and document detailed requirements for " ++ title)
      "User" 8 "planning";
    mkTask "Create project architecture design"
      "Design system architecture and component interactions"
      "User" 7 "architecture" ].

(** The two dictionaries appended for every project
    ([_generate_project_tasks], "Add common tasks for all projects"). *)
Definition documentation_task (title : string) : TaskSpec :=
  mkTask "Create project documentation"
    ("Set up initial documentation for " ++ title ++
     " project including README, setup instructions, and architecture overview")
    "Archon" 7 "documentation".

Definition testing_task : TaskSpec :=
  mkTask "Set up testing framework"
    "Configure testing infrastructure and write initial test cases"
    "AI IDE Agent" 6 "testing".

Definition common_tasks (title : string) : list TaskSpec :=
  [ documentation_task title; testing_task ].

End Templates.
Export Templates.

(** ** Project decomposition: the task list of [_generate_project_tasks] *)

Section Decomposition.
Context {L : Lower}.

(** [if not tasks]: a list is falsy when it is empty. *)
Definition is_empty {A} (l : list A) : bool :=
  match l with [] => true | _ => false end.

(** [tasks.extend(more)] guarded by [if cond]. *)
Definition extend_if {A} (cond : bool) (more tasks : list A) : list A :=
  if cond then tasks ++ more else tasks.

(** The list [tasks] that [_generate_project_tasks] has built when it reaches
    "Create tasks via MCP": the four keyword tests in sequence, the generic
    fallback when nothing was added, then the common tasks. *)
Definition project_tasks (title description : string) : list TaskSpec :=
  let tasks := [] in
  let combined_text := lower (joined title description) in
  let tasks := extend_if (any_in ["auth"; "login"; "user"; "account"] combined_text)
                 _generate_auth_tasks tasks in
  let tasks := extend_if (any_in ["api"; "backend"; "server"; "endpoint"] combined_text)
                 _generate_api_tasks tasks in
  let tasks := extend_if (any_in ["ui"; "frontend"; "react"; "component"; "dashboard"] combined_text)
                 _generate_frontend_tasks tasks in
  let tasks := extend_if (any_in ["database"; "db"; "data"; "model"] combined_text)
                 _generate_database_tasks tasks in
  let tasks := extend_if (is_empty tasks) (_generate_generic_project_tasks title) tasks in
  tasks ++ common_tasks title.

(** ** Task breakdown: [_analyze_and_break_down_task] *)

Definition api_subtasks (task_title : string) : list TaskSpec :=
  [ mkTask ("Design " ++ task_title ++ " request/response schema")
      "Define API request parameters, response format, and data validation rules"
      "User" 8 "api_design";
    mkTask ("Implement " ++ task_title ++ " input validation")
      "Add input validation and sanitization for the endpoint"
      "AI IDE Agent" 9 "validation";
    mkTask ("Add " ++ task_title ++ " business logic")
      "Implement the core business logic for the endpoint functionality"
      "AI IDE Agent" 8 "business_logic";
    mkTask ("Create " ++ task_title ++ " error handling")
      "Implement comprehensive error handling and appropriate HTTP status codes"
      "AI IDE Agent" 7 "error_handling";
    mkTask ("Write tests for " ++ task_title)
      "Create unit and integration tests for the endpoint"
      "AI IDE Agent" 6 "testing" ].

Definition ui_subtasks (task_title : string) : list TaskSpec :=
  [ mkTask ("Design " ++ task_title ++ " wireframes")
      "Create wireframes and visual design for the component"
      "User" 8 "design";
    mkTask ("Implement " ++ task_title ++ " structure")
      "Build the basic component structure and layout"
      "AI IDE Agent" 8 "implementation";
    mkTask ("Add " ++ task_title ++ " interactivity")
      "Implement user interactions and event handling"
      "AI IDE Agent" 7 "functionality";
    mkTask ("Style " ++ task_title ++ " component")
      "Apply responsive styling and accessibility features"
      "AI IDE Agent" 6 "styling" ].

Definition generic_subtasks (task_title : string) : list TaskSpec :=
  [ mkTask ("Research and plan " ++ task_title)
      ("Research requirements and create detailed plan for " ++ task_title)
      "User" 8 "planning";
    mkTask ("Implement core " ++ task_title ++ " functionality")
      ("Build the main functionality for " ++ task_title)
      "AI IDE Agent" 7 "implementation";
    mkTask ("Test and validate " ++ task_title)
      ("Create tests and validate the implementation of " ++ task_title)
      "AI IDE Agent" 6 "testing" ].

Definition _analyze_and_break_down_task (task_title task_description : string)
  : list TaskSpec :=
  let subtasks := [] in
  let combined_text := lower (joined task_title task_description) in
  if contains "api" combined_text && contains "endpoint" combined_text then
    subtasks ++ api_subtasks task_title
  else if any_in ["component"; "ui"; "interface"; "form"] combined_text then
    subtasks ++ ui_subtasks task_title
  else
    subtasks ++ generic_subtasks task_title.

(** ** Assignee policy: [select_assignee] of [test_assignee_intelligence] *)

Definition planning_keywords := ["design"; "plan"; "strategy"; "requirements"; "review"].
Definition orchestration_keywords := ["coordinate"; "manage"; "orchestrate"; "workflow"].
Definition implementation_keywords := ["implement"; "code"; "create"; "build"; "develop"].

Definition select_assignee (task_title task_description : string) : string :=
  let text := lower (joined task_title task_description) in
  if any_in planning_keywords text then "User"
  else if any_in orchestration_keywords text then "Archon"
  else if any_in implementation_keywords text then "AI IDE Agent"
  else "User".

End Decomposition.

(** *** The decomposition as the specification words it

    The four domain tags, their keyword sets and templates, and the
    classifier that tests each keyword set independently. *)

Inductive domain := Authentication | Api | Frontend | Database.

Definition domain_order : list domain := [Authentication; Api; Frontend; Database].

Definition keywords (d : domain) : list string :=
  match d with
  | Authentication => ["auth"; "login"; "user"; "account"]
  | Api => ["api"; "backend"; "server"; "endpoint"]
  | Frontend => ["ui"; "frontend"; "react"; "component"; "dashboard"]
  | Database => ["database"; "db"; "data"; "model"]
  end.

Definition template (d : domain) : list TaskSpec :=
  match d with
  | Authentication => _generate_auth_tasks
  | Api => _generate_api_tasks
  | Frontend => _generate_frontend_tasks
  | Database => _generate_database_tasks
  end.

Definition classify (text : string) : list domain :=
  filter (fun d => any_in (keywords d) text) domain_order.

(** The three roles, by the strings the code uses for them. *)
Definition User := "User".
Definition AutomatedAgent := "AI IDE Agent".
Definition Orchestrator := "Archon".

#[export] Instance ascii_Lower : Lower := ascii_lower.


(** ** Python values, exceptions and results *)

Module Py.

(** The exception classes the modelled code can meet.  [HTTPError] stands for
    [httpx.HTTPError] and its subclasses (transport errors and the
    [HTTPStatusError] of [raise_for_status]); every class is a subclass of
    [Exception]. *)
Inductive exn_class :=
  | HTTPError | JSONDecodeError | AttributeError | TypeError
  | ValueError | OverflowError | ZeroDivisionError
  | OtherError (name : string).

Record exn := Exn { class_of : exn_class; str_exn : string (* str(e) *) }.

Definition is_http_error (e : exn) : bool :=
  match class_of e with HTTPError => true | _ => false end.

Inductive result (A : Type) :=
  | Ok (a : A)
  | Raise (e : exn).
Arguments Ok {A} a.
Arguments Raise {A} e.

(** What [json.loads] returns.  [JObj] lists the items of the decoded
    dictionary, whose keys are distinct. *)
Inductive json :=
  | JNull
  | JBool (b : bool)
  | JInt (n : Z)
  | JFloat (f : spec_float)
  | JStr (s : string)
  | JArr (items : list json)
  | JObj (fields : list (string * json)).

(** [type(x).__name__]. *)
Definition type_name (j : json) : string :=
  match j with
  | JNull => "NoneType"
  | JBool _ => "bool"
  | JInt _ => "int"
  | JFloat _ => "float"
  | JStr _ => "str"
  | JArr _ => "list"
  | JObj _ => "dict"
  end.

(** Truth value of an object, as tested by [if x] and [not x]. *)
Definition truthy (j : json) : bool :=
  match j with
  | JNull => false
  | JBool b => b
  | JInt n => negb (n =? 0)%Z
  | JFloat (S754_zero _) => false
  | JFloat _ => true
  | JStr s => negb (s =? "")%string
  | JArr items => negb (is_empty items)
  | JObj fields => negb (is_empty fields)
  end.

Definition no_attribute (j : json) (attr : string) : exn :=
  Exn AttributeError ("'" ++ type_name j ++ "' object has no attribute '" ++ attr ++ "'")%string.

Fixpoint lookup (key : string) (fields : list (string * json)) : option json :=
  match fields with
  | [] => None
  | (k, v) :: rest => if (k =? key)%string then Some v else lookup key rest
  end.

(** [x.get(key, default)]: only a dictionary has the method. *)
Definition get (x : json) (key : string) (default : json) : result json :=
  match x with
  | JObj fields =>
      Ok (match lookup key fields with Some v => v | None => default end)
  | _ => Raise (no_attribute x "get")
  end.

(** [x.lower()]: only a string has the method. *)
Definition lower_of {L : Lower} (x : json) : result string :=
  match x with
  | JStr s => Ok (lower s)
  | _ => Raise (no_attribute x "lower")
  end.

Fixpoint chars (s : string) : list json :=
  match s with
  | EmptyString => []
  | String c rest => JStr (String c EmptyString) :: chars rest
  end.

(** The elements a [for] loop or a comprehension visits: the items of a
    list, the keys of a dictionary, the characters of a string (here one per
    byte: every one is a [str]); anything else is not iterable. *)
Definition iterate (x : json) : result (list json) :=
  match x with
  | JArr items => Ok items
  | JObj fields => Ok (map (fun kv => JStr (fst kv)) fields)
  | JStr s => Ok (chars s)
  | _ => Raise (Exn TypeError ("'" ++ type_name x ++ "' object is not iterable")%string)
  end.

(** [str(n)] for an integer. *)
Definition decimal (n : Z) : string :=
  DecimalString.NilZero.string_of_int (Z.to_int n).

(** [repr] of the values whose rendering is not spelled out here: floats,
    lists and dictionaries. *)
Class Repr := repr : json -> string.

(** [str(x)], also the rendering of [{x}] in an f-string. *)
Definition py_str {R : Repr} (x : json) : string :=
  match x with
  | JNull => "None"
  | JBool true => "True"
  | JBool false => "False"
  | JInt n => decimal n
  | JStr s => s
  | _ => repr x
  end.

(** [a or b] for an optional string [a]: [None] and the empty string are
    falsy. *)
Definition or_else (a : option string) (b : json) : json :=
  match a with
  | Some s => if (s =? "")%string then b else JStr s
  | None => b
  end.

End Py.
Export Py.

(** ** The monad of code that may raise and acts on a world [W] *)

Section Monad.
Variable W : Type.

Definition M (A : Type) : Type := W -> result A * W.

Definition ret {A} (a : A) : M A := fun w => (Ok a, w).

Definition bind {A B} (m : M A) (k : A -> M B) : M B :=
  fun w => match m w with
           | (Ok a, w') => k a w'
           | (Raise e, w') => (Raise e, w')
           end.

(** A pure computation that may raise. *)
Definition lift {A} (r : result A) : M A := fun w => (r, w).

(** [try: body / except Exception as e: handler(e)]. *)
Definition try_except {A} (body : M A) (handler : exn -> M A) : M A :=
  fun w => match body w with
           | (Ok a, w') => (Ok a, w')
           | (Raise e, w') => handler e w'
           end.

End Monad.

Arguments ret {W A} a.
Arguments bind {W A B} m k.
Arguments lift {W A} r.
Arguments try_except {W A} body handler.

Notation "x <- m ;; k" := (bind m (fun x => k))
  (at level 100, m at next level, right associativity).
Notation "m ;;; k" := (bind m (fun _ => k))
  (at level 100, right associativity).

(** ** The remote task store and the agent tools *)

(** A textual payload, by what [json.loads] makes of it: it raises, or it
    returns a value. *)
Inductive wire :=
  | NotJson (e : exn)
  | Json (j : json).

Definition json_loads (text : wire) : result json :=
  match text with
  | NotJson e => Raise e
  | Json j => Ok j
  end.

(** The calls the task agent makes on the MCP client. *)
Inductive request :=
  | CreateProject (title description : string) (github_repo : option string)
      (* manage_project(action="create", title, description, github_repo) *)
  | CreateTask (project_id : json) (task : TaskSpec)
      (* manage_task(action="create", project_id, title, description,
                     assignee, task_order=priority, feature) *)
  | ListTasks (filter_by : string) (filter_value : json)
      (* manage_task(action="list", filter_by, filter_value) *)
  | UpdateTask (task_id : json) (update_fields : list (string * string)).
      (* manage_task(action="update", task_id, update_fields) *)

(** A call on the client raises or returns the response text. *)
Inductive reply :=
  | Raises (e : exn)
  | Returns (text : wire).

Section Agent.

Context {L : Lower} {R : Repr}.

(** The remote store: its state and how it serves one request.  The client
    module is not part of the modelled sources; obtaining the client
    ([get_mcp_client]) is taken not to raise. *)
Variable S : Type.
Variable serve : request -> S -> reply * S.

(** [ctx.deps.progress_callback], when there is one: called with the step
    and the log line, it returns or raises. *)
Variable progress_callback : option (string -> string -> result unit).

Record world := World {
  store : S;                 (* the remote store *)
  sent : list request;       (* the requests made so far, oldest first *)
  logged : list string;      (* the records of logger.error, oldest first *)
  deps_project_id : json     (* ctx.deps.project_id, None as JNull *)
}.

Definition logger_error (record : string) : M world unit :=
  fun w => (Ok tt, World (store w) (sent w) (logged w ++ [record]) (deps_project_id w)).

(** One awaited call on the client: the request is recorded, the store
    moves on, the reply is returned or raised. *)
Definition call (r : request) : M world wire :=
  fun w => let (answer, store') := serve r (store w) in
           let w' := World store' (sent w ++ [r]) (logged w) (deps_project_id w) in
           match answer with
           | Raises e => (Raise e, w')
           | Returns text => (Ok text, w')
           end.

Definition get_deps_project_id : M world json := fun w => (Ok (deps_project_id w), w).

Definition set_deps_project_id (project_id : json) : M world unit :=
  fun w => (Ok tt, World (store w) (sent w) (logged w) project_id).

(** [if ctx.deps.progress_callback: await ctx.deps.progress_callback(...)]. *)
Definition progress (step log : string) : M world unit :=
  match progress_callback with
  | Some callback => lift (callback step log)
  | None => ret tt
  end.

(** *** [_generate_project_tasks]: the creation loop *)

(** One turn of [for task in tasks] of [_generate_project_tasks], with its
    own [try]/[except] around the call and the decoding. *)
Definition create_guarded (project_id : json) (task : TaskSpec) (tasks_created : nat) : M world nat :=
  try_except
    (task_result <- call (CreateTask project_id task) ;;
     task_data <- lift (json_loads task_result) ;;
     success <- lift (get task_data "success" (JBool false)) ;;
     ret (if truthy success then tasks_created + 1 else tasks_created))
    (fun e =>
       logger_error ("Error creating task '" ++ title task ++ "': " ++ str_exn e)%string ;;;
       ret tasks_created).

Fixpoint create_each_guarded (project_id : json) (tasks : list TaskSpec) (tasks_created : nat)
  : M world nat :=
  match tasks with
  | [] => ret tasks_created
  | task :: rest =>
      tasks_created <- create_guarded project_id task tasks_created ;;
      create_each_guarded project_id rest tasks_created
  end.

Definition _generate_project_tasks (project_id : json) (title description : string) : M world nat :=
  let tasks := project_tasks title description in
  let tasks_created := 0 in
  create_each_guarded project_id tasks tasks_created.

(** *** [create_project_with_tasks] *)

Definition create_project_with_tasks (title description : string) (github_repo : option string)
  : M world string :=
  try_except
    (progress "project_creation" ("🚀 Creating project: " ++ title) ;;;
     project_result <- call (CreateProject title description github_repo) ;;
     project_data <- lift (json_loads project_result) ;;
     success <- lift (get project_data "success" (JBool false)) ;;
     if negb (truthy success) then
       error <- lift (get project_data "error" (JStr "Unknown error")) ;;
       ret ("Failed to create project: " ++ py_str error)%string
     else
       project_id <- lift (get project_data "project_id" JNull) ;;
       set_deps_project_id project_id ;;;
       progress "task_generation" "🧠 Analyzing requirements and generating tasks..." ;;;
       tasks_created <- _generate_project_tasks project_id title description ;;
       ret ("✅ Successfully created project '" ++ title ++ "' with "
            ++ decimal (Z.of_nat tasks_created) ++ " initial tasks. Project ID: "
            ++ py_str project_id)%string)
    (fun e =>
       logger_error ("Error creating project with tasks: " ++ str_exn e)%string ;;;
       ret ("Error creating project: " ++ str_exn e)%string).

(** *** [break_down_task] *)

(** One turn of [for i, subtask in enumerate(subtasks, 1)] of
    [break_down_task]: nothing is caught here. *)
Definition create_unguarded (project_id : json) (subtask : TaskSpec) (tasks_created : nat)
  : M world nat :=
  task_result <- call (CreateTask project_id subtask) ;;
  task_data <- lift (json_loads task_result) ;;
  success <- lift (get task_data "success" (JBool false)) ;;
  ret (if truthy success then tasks_created + 1 else tasks_created).

Fixpoint create_each_unguarded (project_id : json) (subtasks : list TaskSpec) (tasks_created : nat)
  : M world nat :=
  match subtasks with
  | [] => ret tasks_created
  | subtask :: rest =>
      tasks_created <- create_unguarded project_id subtask tasks_created ;;
      create_each_unguarded project_id rest tasks_created
  end.

Definition no_project_specified : string :=
  "No project specified. Please provide a project_id or ensure you're in a project context.".

Definition broke_down (task_title : string) (tasks_created : nat) : string :=
  ("✅ Successfully broke down '" ++ task_title ++ "' into "
   ++ decimal (Z.of_nat tasks_created)
   ++ " actionable sub-tasks with appropriate assignments and priorities.")%string.

Definition break_down_task (task_title task_description : string) (project_id : option string)
  : M world string :=
  try_except
    (deps_id <- get_deps_project_id ;;
     let target_project_id := or_else project_id deps_id in
     if negb (truthy target_project_id) then ret no_project_specified
     else
       let subtasks := _analyze_and_break_down_task task_title task_description in
       let tasks_created := 0 in
       tasks_created <- create_each_unguarded target_project_id subtasks tasks_created ;;
       ret (broke_down task_title tasks_created))
    (fun e =>
       logger_error ("Error breaking down task: " ++ str_exn e)%string ;;;
       ret ("Error breaking down task: " ++ str_exn e)%string).

(** *** [update_task_status] *)

Definition valid_statuses : list string := ["todo"; "doing"; "review"; "done"].

(** [x in valid_statuses]. *)
Definition in_list (x : string) (l : list string) : bool :=
  existsb (fun y => (y =? x)%string) l.

(** [{"todo": "⏳", "doing": "🔄", "review": "👀", "done": "✅"}.get(status, "❓")]. *)
Definition status_emoji (status : string) : string :=
  if (status =? "todo")%string then "⏳"
  else if (status =? "doing")%string then "🔄"
  else if (status =? "review")%string then "👀"
  else if (status =? "done")%string then "✅"
  else "❓".

(** The condition of the comprehension:
    [task_title.lower() in task.get("title", "").lower()]. *)
Definition title_matches (task_title : string) (task : json) : result bool :=
  match get task "title" (JStr "") with
  | Raise e => Raise e
  | Ok t => match lower_of t with
            | Raise e => Raise e
            | Ok lowered => Ok (contains (lower task_title) lowered)
            end
  end.

(** [[task for task in tasks if cond(task)]]: the first element whose
    condition raises ends the comprehension. *)
Fixpoint comprehension (cond : json -> result bool) (tasks : list json) : result (list json) :=
  match tasks with
  | [] => Ok []
  | task :: rest =>
      match cond task with
      | Raise e => Raise e
      | Ok keep =>
          match comprehension cond rest with
          | Raise e => Raise e
          | Ok kept => Ok (if keep then task :: kept else kept)
          end
      end
  end.

(** "Update the task status": the call on the first match and the message
    built from its reply. *)
Definition update_first_match (task : json) (new_status : string) : M world string :=
  task_id <- lift (get task "id" JNull) ;;
  update_result <- call (UpdateTask task_id [("status", new_status)]) ;;
  update_data <- lift (json_loads update_result) ;;
  success <- lift (get update_data "success" (JBool false)) ;;
  if truthy success then
    shown <- lift (get task "title" JNull) ;;
    ret ("✅ Updated '" ++ py_str shown ++ "' status to "
         ++ status_emoji new_status ++ " " ++ new_status)%string
  else
    error <- lift (get update_data "error" (JStr "Unknown error")) ;;
    ret ("Failed to update task status: " ++ py_str error)%string.

(** The [except Exception] clause of [update_task_status]. *)
Definition update_task_status_failed (e : exn) : M world string :=
  logger_error ("Error updating task status: " ++ str_exn e)%string ;;;
  ret ("Error updating task status: " ++ str_exn e)%string.

Definition update_task_status (task_title new_status : string) (project_id : option string)
  : M world string :=
  try_except
    (deps_id <- get_deps_project_id ;;
     let target_project_id := or_else project_id deps_id in
     if negb (truthy target_project_id) then ret no_project_specified
     else if negb (in_list new_status valid_statuses) then
       ret ("Invalid status '" ++ new_status ++ "'. Valid statuses are: "
            ++ String.concat ", " valid_statuses)%string
     else
       tasks_result <- call (ListTasks "project" target_project_id) ;;
       tasks_data <- lift (json_loads tasks_result) ;;
       success <- lift (get tasks_data "success" (JBool false)) ;;
       if negb (truthy success) then
         ret "Error retrieving tasks to find the specified task."
       else
         tasks <- lift (get tasks_data "tasks" (JArr [])) ;;
         elements <- lift (iterate tasks) ;;
         matching_tasks <- lift (comprehension (title_matches task_title) elements) ;;
         match matching_tasks with
         | [] => ret ("No task found matching '" ++ task_title ++ "' in this project.")%string
         | task :: _ => update_first_match task new_status
         end)
    update_task_status_failed.

End Agent.

Arguments World {S} store sent logged deps_project_id.

(** A store that answers from a script, one reply per request, whatever the
    request; used for concrete runs. *)
Definition scripted (r : request) (script : list reply) : reply * list reply :=
  match script with
  | [] => (Raises (Exn (OtherError "ConnectionError") "connection closed"), [])
  | answer :: rest => (answer, rest)
  end.

Definition start (script : list reply) (project_id : json) : world (list reply) :=
  World script [] [] project_id.

(** For concrete runs: a rendering of floats and containers. *)
#[export] Instance plain_Repr : Repr := fun x => ("<" ++ type_name x ++ ">")%string.

Definition success_envelope : reply :=
  Returns (Json (JObj [("success", JBool true); ("task_id", JStr "t")])).

Definition failure_envelope (error : string) : reply :=
  Returns (Json (JObj [("success", JBool false); ("error", JStr error)])).

(** ** The agents service client: [AgentsServiceClient] *)

Module AgentsServiceClient.

(** One HTTP request of the client: [client.post(url, json=...)] or
    [client.get(url)]. *)
Record http_request := Http {
  method : string;
  path : string;          (* appended to self.agents_url *)
  payload : json          (* the json= argument, JNull when there is none *)
}.

(** What sending a request does: it raises (connection failure, timeout, or
    anything else), or a response arrives.  A response has the exception
    that [raise_for_status] raises for it, if any (an [HTTPStatusError],
    which is an [HTTPError]), and its body, by what [response.json()] makes
    of it. *)
Inductive http_reply :=
  | Fails (e : exn)
  | Responds (status_error : option string) (content : wire).

(** [d[key] = value] on the items of a dictionary. *)
Fixpoint dict_set (key : string) (value : json) (fields : list (string * json))
  : list (string * json) :=
  match fields with
  | [] => [(key, value)]
  | (k, v) :: rest =>
      if (k =? key)%string then (k, value) :: rest
      else (k, v) :: dict_set key value rest
  end.

(** [{**fields, **more}]. *)
Definition dict_merge (fields more : list (string * json)) : list (string * json) :=
  fold_left (fun acc kv => dict_set (fst kv) (snd kv) acc) more fields.

(** An optional string as a value: [None] is [JNull]. *)
Definition opt_str (s : option string) : json :=
  match s with Some s => JStr s | None => JNull end.

(** [context or {}]. *)
Definition or_empty (context : option (list (string * json))) : list (string * json) :=
  match context with Some c => c | None => [] end.

Section Client.

(** The agents service behind [self.agents_url]. *)
Variable H : Type.
Variable transport : http_request -> H -> http_reply * H.

Record world := World {
  service : H;
  requests : list http_request;   (* the requests sent so far, oldest first *)
  errors : list string            (* the records of logger.error *)
}.

Definition logger_error (record : string) : M world unit :=
  fun w => (Ok tt, World (service w) (requests w) (errors w ++ [record])).

(** [response = await client.post(...)] or [client.get(...)], then
    [response.raise_for_status()]; gives the body. *)
Definition send (r : http_request) : M world wire :=
  fun w => let (answer, service') := transport r (service w) in
           let w' := World service' (requests w ++ [r]) (errors w) in
           match answer with
           | Fails e => (Raise e, w')
           | Responds (Some status) _ => (Raise (Exn HTTPError status), w')
           | Responds None content => (Ok content, w')
           end.

(** The two [except] clauses of the agent calls, in their order:
    [except httpx.HTTPError] first, [except Exception] second. *)
Definition agent_handlers (name : string) (e : exn) : M world json :=
  if is_http_error e then
    logger_error ("HTTP error calling " ++ name ++ " agent: " ++ str_exn e)%string ;;;
    ret (JObj [("success", JBool false);
               ("error", JStr ("HTTP error: " ++ str_exn e));
               ("result", JNull)])
  else
    logger_error ("Error calling " ++ name ++ " agent: " ++ str_exn e)%string ;;;
    ret (JObj [("success", JBool false);
               ("error", JStr ("Unexpected error: " ++ str_exn e));
               ("result", JNull)]).

(** The body of the [try] after [request_data] is built; the records of
    [logger.info] are not kept, the [result.get('success')] of the second
    one is evaluated. *)
Definition run_agent (request_data : json) : M world json :=
  content <- send (Http "POST" "/agents/run" request_data) ;;
  result <- lift (json_loads content) ;;
  _ <- lift (get result "success" JNull) ;;
  ret result.

Definition document_request (prompt project_id : string) (user_id : option string)
    (context : option (list (string * json))) : json :=
  JObj [("agent_type", JStr "document");
        ("prompt", JStr prompt);
        ("context", JObj (dict_merge [("project_id", JStr project_id);
                                      ("user_id", opt_str user_id)]
                                     (or_empty context)))].

Definition call_document_agent (prompt project_id : string) (user_id : option string)
    (context : option (list (string * json))) : M world json :=
  try_except
    (run_agent (document_request prompt project_id user_id context))
    (agent_handlers "document").

Definition rag_request (prompt : string) (project_id source_filter : option string)
    (match_count : Z) (context : option (list (string * json))) : json :=
  JObj [("agent_type", JStr "rag");
        ("prompt", JStr prompt);
        ("context", JObj (dict_merge [("project_id", opt_str project_id);
                                      ("source_filter", opt_str source_filter);
                                      ("match_count", JInt match_count)]
                                     (or_empty context)))].

Definition call_rag_agent (prompt : string) (project_id source_filter : option string)
    (match_count : Z) (context : option (list (string * json))) : M world json :=
  try_except
    (run_agent (rag_request prompt project_id source_filter match_count context))
    (agent_handlers "RAG").

Definition health_check : M world json :=
  try_except
    (content <- send (Http "GET" "/health" JNull) ;;
     lift (json_loads content))
    (fun e =>
       logger_error ("Agents service health check failed: " ++ str_exn e)%string ;;;
       ret (JObj [("status", JStr "unhealthy"); ("error", JStr (str_exn e))])).

End Client.

Arguments World {H} service requests errors.

(** A service that answers every request with the same reply. *)
Definition always (answer : http_reply) (r : http_request) (h : unit) : http_reply * unit :=
  (answer, h).

Definition fresh : world unit := World tt [] [].

End AgentsServiceClient.

(** ** Python floats: IEEE binary64 *)

Module Float64.

Definition prec : Z := 53.
Definition emax : Z := 1024.

(** Rounding to nearest, ties to even, of [m * 2^e] located by [l]. *)
Definition round (sign : bool) (m e : Z) (l : location) : spec_float :=
  binary_round_aux prec emax sign m e l.

(** The binary64 number nearest to the quotient [a / b] of two positive
    integers. *)
Definition nearest_quotient (sign : bool) (a b : Z) : spec_float :=
  let '(q, e, l) := SFdiv_core_binary prec emax a 0 b 0 in
  round sign q e l.

(** [a / b] on two [int]s: true division, correctly rounded. *)
Definition truediv (a b : Z) : result spec_float :=
  if (b =? 0)%Z then Raise (Exn ZeroDivisionError "division by zero")
  else
    let sign := xorb (a <? 0)%Z (b <? 0)%Z in
    if (a =? 0)%Z then Ok (S754_zero sign)
    else match nearest_quotient sign (Z.abs a) (Z.abs b) with
         | S754_infinity _ =>
             Raise (Exn OverflowError "integer division result too large for a float")
         | x => Ok x
         end.

(** The float an [int] operand of a mixed operation is converted to; exact
    below [2^53] in magnitude. *)
Definition of_int (n : Z) : spec_float := binary_normalize prec emax n 0 false.

(** A decimal literal such as [0.8], given as a fraction: the nearest
    binary64 number. *)
Definition literal (num den : Z) : spec_float := nearest_quotient false num den.

Definition mul (x y : spec_float) : spec_float := SFmul prec emax x y.
Definition add (x y : spec_float) : spec_float := SFadd prec emax x y.

(** [x > y]. *)
Definition gt (x y : spec_float) : bool := SFltb y x.

(** [int(x)]: truncation toward zero. *)
Definition int_of (x : spec_float) : result Z :=
  match x with
  | S754_zero _ => Ok 0%Z
  | S754_finite sign m e => Ok (cond_Zopp sign (Z.shiftl (Zpos m) e))
  | S754_infinity _ => Raise (Exn OverflowError "cannot convert float infinity to integer")
  | S754_nan => Raise (Exn ValueError "cannot convert float NaN to integer")
  end.

End Float64.

(** ** Project health: [_analyze_project_health] *)

Module Health.
Import Float64.

Record HealthReport := Report {
  health_score : Z;
  completed : nat;
  in_progress : nat;
  todo : nat;
  review : nat;
  insights : list string;
  recommendations : list string;
  next_actions : list string
}.

(** A dictionary of counters with string keys.  The counters under other
    hashable keys (None, booleans, numbers) are never read and are not
    kept. *)
Definition counters := list (string * nat).

(** [c[key]], 0 for an absent key (the keys read are all initialised). *)
Fixpoint counter (key : string) (c : counters) : nat :=
  match c with
  | [] => 0
  | (k, n) :: rest => if (k =? key)%string then n else counter key rest
  end.

(** [c[key] = c.get(key, 0) + 1] for a string key. *)
Fixpoint bump (key : string) (c : counters) : counters :=
  match c with
  | [] => [(key, 1)]
  | (k, n) :: rest =>
      if (k =? key)%string then (k, n + 1) :: rest else (k, n) :: bump key rest
  end.

(** [c[key] = c.get(key, 0) + 1] for any key: lists and dictionaries are
    unhashable. *)
Definition count (key : json) (c : counters) : result counters :=
  match key with
  | JStr s => Ok (bump s c)
  | JArr _ | JObj _ =>
      Raise (Exn TypeError ("unhashable type: '" ++ type_name key ++ "'")%string)
  | _ => Ok c
  end.

(** The loop [for task in tasks] over both dictionaries. *)
Fixpoint count_all (tasks : list json) (status_counts assignee_counts : counters)
  : result (counters * counters) :=
  match tasks with
  | [] => Ok (status_counts, assignee_counts)
  | task :: rest =>
      match get task "status" (JStr "todo") with
      | Raise e => Raise e
      | Ok status =>
          match get task "assignee" (JStr "User") with
          | Raise e => Raise e
          | Ok assignee =>
              match count status status_counts with
              | Raise e => Raise e
              | Ok status_counts =>
                  match count assignee assignee_counts with
                  | Raise e => Raise e
                  | Ok assignee_counts => count_all rest status_counts assignee_counts
                  end
              end
          end
      end
  end.

(** [completion_rate * 6 + activity_rate * 4], the bracketed term. *)
Definition weighted (completion_rate activity_rate : spec_float) : spec_float :=
  add (mul completion_rate (of_int 6)) (mul activity_rate (of_int 4)).

(** [min(10, int((completion_rate * 6 + activity_rate * 4) * 10))]. *)
Definition score (completion_rate activity_rate : spec_float) : result Z :=
  match int_of (mul (weighted completion_rate activity_rate) (of_int 10)) with
  | Raise e => Raise e
  | Ok n => Ok (Z.min 10 n)
  end.

Definition first_insight (completion_rate activity_rate : spec_float) : string :=
  if gt completion_rate (literal 8 10) then "🎉 Project is near completion!"
  else if gt completion_rate (literal 5 10) then "✅ Good progress - over half the tasks completed"
  else if gt activity_rate (literal 3 10) then "🔄 Active development - many tasks in progress"
  else "⚠️ Project may need attention - low activity".

(** [xs.append(x)] guarded by [if cond]. *)
Definition append_if (cond : bool) (x : string) (xs : list string) : list string :=
  if cond then xs ++ [x] else xs.

Definition of_nat (n : nat) : string := decimal (Z.of_nat n).

Definition _analyze_project_health (tasks : list json) : result HealthReport :=
  let total_tasks := length tasks in
  if (total_tasks =? 0)%nat then
    Ok (Report 0 0 0 0 0 ["No tasks in project"] ["Add tasks to get started"]
          ["Create initial project tasks"])
  else
    match count_all tasks [("done", 0); ("doing", 0); ("todo", 0); ("review", 0)]
                          [("User", 0); ("AI IDE Agent", 0); ("Archon", 0)] with
    | Raise e => Raise e
    | Ok (status_counts, assignee_counts) =>
        let done := counter "done" status_counts in
        let doing := counter "doing" status_counts in
        let todo := counter "todo" status_counts in
        let review := counter "review" status_counts in
        match truediv (Z.of_nat done) (Z.of_nat total_tasks) with
        | Raise e => Raise e
        | Ok completion_rate =>
            match truediv (Z.of_nat (doing + review)) (Z.of_nat total_tasks) with
            | Raise e => Raise e
            | Ok activity_rate =>
                match score completion_rate activity_rate with
                | Raise e => Raise e
                | Ok health_score =>
                    let insights := [first_insight completion_rate activity_rate] in
                    let insights :=
                      append_if (doing <? review)%nat
                        "👀 Many tasks in review - consider prioritizing reviews" insights in
                    let recommendations := [] in
                    let recommendations :=
                      append_if (doing * 3 <? todo)%nat
                        "📋 Consider breaking down large tasks or increasing capacity"
                        recommendations in
                    let recommendations :=
                      append_if (counter "AI IDE Agent" assignee_counts * 2
                                 <? counter "User" assignee_counts)%nat
                        "🤖 More tasks could be automated with AI IDE Agent"
                        recommendations in
                    let recommendations :=
                      append_if (3 <? review)%nat
                        "⚡ Focus on completing reviews to unblock progress"
                        recommendations in
                    let next_actions := [] in
                    let next_actions :=
                      append_if (0 <? todo)%nat
                        ("⏳ Start working on " ++ of_nat todo ++ " pending tasks")%string
                        next_actions in
                    let next_actions :=
                      append_if (0 <? review)%nat
                        ("👀 Review " ++ of_nat review ++ " completed tasks")%string
                        next_actions in
                    let next_actions :=
                      append_if (gt completion_rate (literal 8 10))
                        "🚀 Plan project completion and release tasks" next_actions in
                    Ok (Report health_score done doing todo review
                          insights recommendations next_actions)
                end
            end
        end
    end.

(** *** The score as the specification words it *)

(** The number of tasks whose status, "todo" when the task has none, is
    [s]. *)
Definition has_status (s : string) (task : json) : bool :=
  match get task "status" (JStr "todo") with
  | Ok (JStr s') => (s' =? s)%string
  | _ => false
  end.

Definition number_with (s : string) (tasks : list json) : nat :=
  length (filter (has_status s) tasks).


(** A task the analysis accepts: a dictionary whose status and assignee,
    when present, are hashable. *)
Definition hashable (x : json) : bool :=
  match x with JArr _ | JObj _ => false | _ => true end.

Definition well_formed (task : json) : bool :=
  match task with
  | JObj fields =>
      match lookup "status" fields, lookup "assignee" fields with
      | Some s, Some a => hashable s && hashable a
      | Some s, None => hashable s
      | None, Some a => hashable a
      | None, None => true
      end
  | _ => false
  end.

(** A task with the given status and assignee. *)
Definition a_task (status assignee : string) : json :=
  JObj [("status", JStr status); ("assignee", JStr assignee)].

End Health.

(** ** Notions used to state the properties of the agent tools *)

Section Replies.

Variable S : Type.
Variable serve : request -> S -> reply * S.

(** The replies of the store to a sequence of requests made one after the
    other, and the store afterwards. *)
Fixpoint answers (rs : list request) (s : S) : list reply * S :=
  match rs with
  | [] => ([], s)
  | r :: rest =>
      let (answer, s') := serve r s in
      let (more, s'') := answers rest s' in
      (answer :: more, s'')
  end.

End Replies.

(** What a creation reply amounts to: an exception (raised by the call, by
    the decoding, or by [.get] on a payload that is not an object), or an
    envelope whose success field is truthy or not. *)
Definition outcome (answer : reply) : result bool :=
  match answer with
  | Raises e => Raise e
  | Returns text =>
      match json_loads text with
      | Raise e => Raise e
      | Ok data =>
          match get data "success" (JBool false) with
          | Raise e => Raise e
          | Ok success => Ok (truthy success)
          end
      end
  end.

Definition confirmed (answer : reply) : bool :=
  match outcome answer with Ok true => true | _ => false end.

Definition raising (answer : reply) : bool :=
  match outcome answer with Raise _ => true | Ok _ => false end.

(** The number of creations whose envelope had a true success field. *)
Definition confirmed_count (replies : list reply) : nat :=
  length (filter confirmed replies).

(** The records [_generate_project_tasks] writes: one for each task whose
    creation raised, none for an envelope without success. *)
Fixpoint error_records (tasks : list TaskSpec) (replies : list reply) : list string :=
  match tasks, replies with
  | task :: tasks', answer :: replies' =>
      match outcome answer with
      | Raise e =>
          ("Error creating task '" ++ title task ++ "': " ++ str_exn e)%string
          :: error_records tasks' replies'
      | Ok _ => error_records tasks' replies'
      end
  | _, _ => []
  end.

(** The title a listed task is matched on: [task.get("title", "")]. *)
Definition title_of (task : json) : string :=
  match get task "title" (JStr "") with
  | Ok (JStr s) => s
  | _ => ""
  end.

(** A listed task the matching accepts: a dictionary whose title, when
    present, is a string. *)
Definition listed (task : json) : bool :=
  match task with
  | JObj fields =>
      match lookup "title" fields with
      | Some (JStr _) | None => true
      | Some _ => false
      end
  | _ => false
  end.

(** The case-insensitive substring test of the given text against a task's
    title. *)
Definition title_contains {L : Lower} (task_title : string) (task : json) : bool :=
  contains (lower task_title) (lower (title_of task)).

(** [task.get("id")]. *)
Definition id_of (task : json) : json :=
  match get task "id" JNull with
  | Ok v => v
  | Raise _ => JNull
  end.

(** The progress callback, when there is one, returns for this step. *)
Definition returns_for (progress_callback : option (string -> string -> result unit))
    (step log : string) : Prop :=
  match progress_callback with
  | Some callback => callback step log = Ok tt
  | None => True
  end.

(** The failure envelope of the agent calls. *)
Definition agent_failure (error : string) : json :=
  JObj [("success", JBool false); ("error", JStr error); ("result", JNull)].

(** The error text of the agent calls for an exception: which of the two
    [except] clauses it reaches. *)
Definition agent_error (e : exn) : string :=
  ((if is_http_error e then "HTTP error: " else "Unexpected error: ") ++ str_exn e)%string.

(** A decoded payload is an object (a dictionary) or it is malformed. *)
Definition is_object (data : json) : bool :=
  match data with JObj _ => true | _ => false end.

(** What an agent call returns for a reply of the service. *)
Definition answer_for (answer : AgentsServiceClient.http_reply) : json :=
  match answer with
  | AgentsServiceClient.Fails e => agent_failure (agent_error e)
  | AgentsServiceClient.Responds (Some status) _ => agent_failure ("HTTP error: " ++ status)%string
  | AgentsServiceClient.Responds None (NotJson e) => agent_failure (agent_error e)
  | AgentsServiceClient.Responds None (Json (JObj fields)) => JObj fields
  | AgentsServiceClient.Responds None (Json other) =>
      agent_failure ("Unexpected error: '" ++ type_name other
                     ++ "' object has no attribute 'get'")%string
  end.

(** [1] for a confirmed creation, [0] otherwise. *)
Definition one_if (b : bool) : nat := if b then 1 else 0.

(** The record one creation leaves in the log of [_generate_project_tasks]. *)
Definition record_of (task : TaskSpec) (answer : reply) : list string :=
  match outcome answer with
  | Raise e => [("Error creating task '" ++ title task ++ "': " ++ str_exn e)%string]
  | Ok _ => []
  end.

(** A listing of three tasks, two of which contain "design". *)
Definition listing_example : reply :=
  Returns (Json (JObj
    [("success", JBool true);
     ("tasks", JArr
        [JObj [("id", JStr "t-1"); ("title", JStr "Set up API framework")];
         JObj [("id", JStr "t-2"); ("title", JStr "Design database schema")];
         JObj [("id", JStr "t-3"); ("title", JStr "DESIGN UI component library")]])])).

(** The mantissa [m] and exponent [e] denote a number below [2^K]. *)
Definition fits (K m e : Z) : Prop := (0 <= m /\ e < K /\ m < 2 ^ (K - e))%Z.

(** A float that is zero or positive, finite, and below [2^K]. *)
Definition small (K : Z) (x : spec_float) : Prop :=
  match x with
  | S754_zero false => True
  | S754_finite false m e => fits K (Zpos m) e
  | _ => False
  end.

(** The value of a float that is zero or positive, counted in units of
    [2^-L]; an integer as soon as the exponent is at least [-L]. *)
Definition units (L : Z) (x : spec_float) : Z :=
  match x with
  | S754_finite false m e => (Zpos m * 2 ^ (e + L))%Z
  | _ => 0%Z
  end.


Definition value (x : spec_float) : Z := units 1074 x.


(** Four tasks with statuses done, doing, todo, todo. *)
Definition mix : list json :=
  [Health.a_task "done" "User"; Health.a_task "doing" "AI IDE Agent";
   Health.a_task "todo" "User"; Health.a_task "todo" "User"].


(** ** Further notions: aborted batches, roles, messages *)

(** The position and exception of the first reply that raises. *)
Fixpoint first_failure (replies : list reply) : option (nat * exn) :=
  match replies with
  | [] => None
  | answer :: rest =>
      match outcome answer with
      | Raise e => Some (0, e)
      | Ok _ =>
          match first_failure rest with
          | Some (k, e) => Some (S k, e)
          | None => None
          end
      end
  end.

Definition is_create_task (r : request) : bool :=
  match r with CreateTask _ _ => true | _ => false end.

(** The three roles a task can be assigned to. *)
Definition is_role (a : string) : bool :=
  (a =? "User")%string || (a =? "AI IDE Agent")%string || (a =? "Archon")%string.

(** The message of [create_project_with_tasks] on success. *)
Definition project_created {R : Repr} (title : string) (tasks_created : nat) (project_id : json)
  : string :=
  ("✅ Successfully created project '" ++ title ++ "' with "
   ++ decimal (Z.of_nat tasks_created) ++ " initial tasks. Project ID: "
   ++ py_str project_id)%string.

(** Replies to a project creation and five task creations: one envelope
    without success and one exception among them. *)
Definition project_script : list reply :=
  [Returns (Json (JObj [("success", JBool true); ("project_id", JStr "p-7")]));
   success_envelope; failure_envelope "quota"; success_envelope;
   Raises (Exn HTTPError "timeout"); success_envelope].

(** The exception an agent call meets for a reply of the service, if any:
    raised by the request, by [raise_for_status], by the decoding, or by
    [result.get] on a body that is not an object. *)
Definition failure_of (answer : AgentsServiceClient.http_reply) : option exn :=
  match answer with
  | AgentsServiceClient.Fails e => Some e
  | AgentsServiceClient.Responds (Some status) _ => Some (Exn HTTPError status)
  | AgentsServiceClient.Responds None (NotJson e) => Some e
  | AgentsServiceClient.Responds None (Json (JObj _)) => None
  | AgentsServiceClient.Responds None (Json other) => Some (no_attribute other "get")
  end.

(** The records an agent call leaves in the error log. *)
Definition agent_records (name : string) (answer : AgentsServiceClient.http_reply)
  : list string :=
  match failure_of answer with
  | None => []
  | Some e =>
      [((if is_http_error e then "HTTP error calling " else "Error calling ")
        ++ name ++ " agent: " ++ str_exn e)%string]
  end.

(** A caller's context that overrides the project and adds a key. *)
Definition context_example : list (string * json) :=
  [("project_id", JStr "other"); ("depth", JInt 2)].

(** The number of tasks whose assignee, "User" when the task has none, is
    [a]. *)
Definition is_assigned (a : string) (task : json) : bool :=
  match get task "assignee" (JStr "User") with
  | Ok (JStr a') => (a' =? a)%string
  | _ => false
  end.

Definition number_assigned (a : string) (tasks : list json) : nat :=
  length (filter (is_assigned a) tasks).

(** The counters as [_analyze_project_health] initialises them. *)
Definition no_status_counts : Health.counters :=
  [("done", 0); ("doing", 0); ("todo", 0); ("review", 0)].

Definition no_assignee_counts : Health.counters :=
  [("User", 0); ("AI IDE Agent", 0); ("Archon", 0)].

(** The report [_analyze_project_health] builds once the tasks are counted,
    as a function of the counts it reads. *)
Definition report_from (total_tasks done doing todo review agent user : nat)
  : result Health.HealthReport :=
  match Float64.truediv (Z.of_nat done) (Z.of_nat total_tasks) with
  | Raise e => Raise e
  | Ok completion_rate =>
      match Float64.truediv (Z.of_nat (doing + review)) (Z.of_nat total_tasks) with
      | Raise e => Raise e
      | Ok activity_rate =>
          match Health.score completion_rate activity_rate with
          | Raise e => Raise e
          | Ok health_score =>
              Ok (Health.Report health_score done doing todo review
                    (Health.append_if (doing <? review)%nat
                       "👀 Many tasks in review - consider prioritizing reviews"
                       [Health.first_insight completion_rate activity_rate])
                    (Health.append_if (3 <? review)%nat
                       "⚡ Focus on completing reviews to unblock progress"
                       (Health.append_if (agent * 2 <? user)%nat
                          "🤖 More tasks could be automated with AI IDE Agent"
                          (Health.append_if (doing * 3 <? todo)%nat
                             "📋 Consider breaking down large tasks or increasing capacity"
                             [])))
                    (Health.append_if
                       (Float64.gt completion_rate (Float64.literal 8 10))
                       "🚀 Plan project completion and release tasks"
                       (Health.append_if (0 <? review)%nat
                          ("👀 Review " ++ Health.of_nat review ++ " completed tasks")%string
                          (Health.append_if (0 <? todo)%nat
                             ("⏳ Start working on " ++ Health.of_nat todo
                              ++ " pending tasks")%string
                             []))))
          end
      end
  end.

(** A list with a task that is not a dictionary after two that are. *)
Definition broken_listing : list json :=
  [Health.a_task "done" "User"; Health.a_task "doing" "Archon"; JStr "t-3";
   Health.a_task "todo" "User"].

(** A task dictionary that has no status. *)
Definition lacks_status (task : json) : bool :=
  match task with
  | JObj fields => match lookup "status" fields with None => true | Some _ => false end
  | _ => false
  end.

(** ** The listing tools: [list_project_tasks] and [analyze_project_progress] *)

Module Listing.

(** The listing calls these two tools make on the MCP client. *)
Inductive list_request :=
  | ListByStatus (filter_value : string) (project_id : json)
      (* manage_task(action="list", filter_by="status", filter_value, project_id) *)
  | ListByProject (filter_value : json)
      (* manage_task(action="list", filter_by="project", filter_value) *)
  | ListWithClosed (filter_value : json).
      (* manage_task(action="list", filter_by="project", filter_value,
                     include_closed=True) *)

(** The line feed, ["\n"] and [chr(10)]. *)
Definition nl : string := String (ascii_of_nat 10) EmptyString.

(** [x >= n] for an [int] literal [n]: numbers compare by value, a NaN is
    not above anything, and the other types do not compare with an [int].
    The literals used are 8 and 5, which are exact as floats. *)
Definition ge_int (x : json) (n : Z) : result bool :=
  match x with
  | JInt m => Ok (n <=? m)%Z
  | JBool b => Ok (n <=? (if b then 1 else 0))%Z
  | JFloat f => Ok (SFleb (Float64.of_int n) f)
  | _ => Raise (Exn TypeError ("'>=' not supported between instances of '"
                               ++ type_name x ++ "' and 'int'")%string)
  end.

(** [{"User": "👤", "AI IDE Agent": "🤖", "Archon": "👑"}.get(assignee, "❓")]
    on a string. *)
Definition assignee_emoji (assignee : string) : string :=
  if (assignee =? "User")%string then "👤"
  else if (assignee =? "AI IDE Agent")%string then "🤖"
  else if (assignee =? "Archon")%string then "👑"
  else "❓".

(** [table.get(key, "❓")] for a dictionary with string keys: a key that is
    not a string is not found, and a list or a dictionary is unhashable. *)
Definition indicator (table : string -> string) (key : json) : result string :=
  match key with
  | JStr s => Ok (table s)
  | JArr _ | JObj _ =>
      Raise (Exn TypeError ("unhashable type: '" ++ type_name key ++ "'")%string)
  | _ => Ok "❓"
  end.

(** [len(x)]; a string has one element per code point, that is per byte that
    does not continue a UTF-8 sequence. *)
Definition is_continuation (c : ascii) : bool :=
  let n := nat_of_ascii c in (128 <=? n)%nat && (n <? 192)%nat.

Definition len (x : json) : result nat :=
  match x with
  | JArr items => Ok (length items)
  | JObj fields => Ok (length fields)
  | JStr s => Ok (length (filter (fun c => negb (is_continuation c)) (list_ascii_of_string s)))
  | _ => Raise (Exn TypeError ("object of type '" ++ type_name x ++ "' has no len()")%string)
  end.

Section Tools.

Context {R : Repr}.

(** One turn of [for task in tasks] of [list_project_tasks]: the four
    lookups, the counting, the three indicators and the line. *)
Definition format_task (task : json) (status_counts : Health.counters)
  : result (string * Health.counters) :=
  match get task "status" (JStr "unknown") with
  | Raise e => Raise e
  | Ok status =>
  match get task "assignee" (JStr "unassigned") with
  | Raise e => Raise e
  | Ok assignee =>
  match get task "title" (JStr "Untitled") with
  | Raise e => Raise e
  | Ok title =>
  match get task "task_order" (JInt 0) with
  | Raise e => Raise e
  | Ok task_order =>
  match Health.count status status_counts with
  | Raise e => Raise e
  | Ok status_counts =>
  match ge_int task_order 8 with
  | Raise e => Raise e
  | Ok at_least_8 =>
  match (if at_least_8 then Ok "🔥"
         else match ge_int task_order 5 with
              | Raise e => Raise e
              | Ok at_least_5 => Ok (if at_least_5 then "⭐" else "📋")
              end) with
  | Raise e => Raise e
  | Ok priority_indicator =>
  match indicator status_emoji status with
  | Raise e => Raise e
  | Ok status_indicator =>
  match indicator assignee_emoji assignee with
  | Raise e => Raise e
  | Ok assignee_indicator =>
      Ok ((priority_indicator ++ " " ++ status_indicator ++ " **" ++ py_str title
           ++ "** (" ++ assignee_indicator ++ " " ++ py_str assignee ++ ")")%string,
          status_counts)
  end end end end end end end end end.

(** The loop: [task_list.append(...)] for every task, in order. *)
Fixpoint format_each (tasks : list json) (task_list : list string)
    (status_counts : Health.counters) : result (list string * Health.counters) :=
  match tasks with
  | [] => Ok (task_list, status_counts)
  | task :: rest =>
      match format_task task status_counts with
      | Raise e => Raise e
      | Ok (line, status_counts) => format_each rest (task_list ++ [line]) status_counts
      end
  end.

(** The text [list_project_tasks] returns for the lines and the counts. *)
Definition summary (total : nat) (status_counts : Health.counters) (task_list : list string)
  : string :=
  ("**Project Tasks Summary:**" ++ nl
   ++ "📊 Total: " ++ Health.of_nat total
   ++ " | ⏳ Todo: " ++ Health.of_nat (Health.counter "todo" status_counts)
   ++ " | 🔄 Doing: " ++ Health.of_nat (Health.counter "doing" status_counts)
   ++ " | 👀 Review: " ++ Health.of_nat (Health.counter "review" status_counts)
   ++ " | ✅ Done: " ++ Health.of_nat (Health.counter "done" status_counts)
   ++ nl ++ nl
   ++ String.concat nl task_list)%string.

(** [self._analyze_project_health(tasks)] on whatever the listing holds
    under "tasks": [len] needs a sized object, the loop visits the keys of a
    dictionary and the characters of a string. *)
Definition analyze_health (tasks : json) : result Health.HealthReport :=
  match len tasks with
  | Raise e => Raise e
  | Ok _ =>
      match iterate tasks with
      | Raise e => Raise e
      | Ok elements => Health._analyze_project_health elements
      end
  end.

(** The text [analyze_project_progress] returns for a report. *)
Definition progress_report (analysis : Health.HealthReport) : string :=
  String.concat nl
    ["📊 **Project Progress Analysis**";
     "";
     "**Overall Health:** " ++ decimal (Health.health_score analysis) ++ "/10";
     "";
     "**Status Breakdown:**";
     "- ✅ Completed: " ++ Health.of_nat (Health.completed analysis) ++ " tasks  ";
     "- 🔄 In Progress: " ++ Health.of_nat (Health.in_progress analysis) ++ " tasks";
     "- ⏳ Todo: " ++ Health.of_nat (Health.todo analysis) ++ " tasks";
     "- 👀 In Review: " ++ Health.of_nat (Health.review analysis) ++ " tasks";
     "";
     "**Key Insights:**";
     String.concat nl (Health.insights analysis);
     "";
     "**Recommendations:**";
     String.concat nl (Health.recommendations analysis);
     "";
     "**Next Actions:**";
     String.concat nl (Health.next_actions analysis)]%string.

(** The remote store behind the client, as far as these tools use it. *)
Variable S : Type.
Variable serve : list_request -> S -> reply * S.

Record world := World {
  store : S;
  sent : list list_request;   (* the requests made so far, oldest first *)
  logged : list string;       (* the records of logger.error, oldest first *)
  deps_project_id : json      (* ctx.deps.project_id, None as JNull *)
}.

Definition logger_error (record : string) : M world unit :=
  fun w => (Ok tt, World (store w) (sent w) (logged w ++ [record]) (deps_project_id w)).

Definition call (r : list_request) : M world wire :=
  fun w => let (answer, store') := serve r (store w) in
           let w' := World store' (sent w ++ [r]) (logged w) (deps_project_id w) in
           match answer with
           | Raises e => (Raise e, w')
           | Returns text => (Ok text, w')
           end.

Definition get_deps_project_id : M world json := fun w => (Ok (deps_project_id w), w).

(** [if status_filter:] chooses between the two listing calls. *)
Definition listing_request (target_project_id : json) (status_filter : option string)
  : list_request :=
  match status_filter with
  | Some wanted =>
      if (wanted =? "")%string then ListByProject target_project_id
      else ListByStatus wanted target_project_id
  | None => ListByProject target_project_id
  end.

Definition list_project_tasks (project_id status_filter : option string) : M world string :=
  try_except
    (deps_id <- get_deps_project_id ;;
     let target_project_id := or_else project_id deps_id in
     if negb (truthy target_project_id) then ret no_project_specified
     else
       tasks_result <- call (listing_request target_project_id status_filter) ;;
       tasks_data <- lift (json_loads tasks_result) ;;
       success <- lift (get tasks_data "success" (JBool false)) ;;
       if negb (truthy success) then
         error <- lift (get tasks_data "error" (JStr "Unknown error")) ;;
         ret ("Error retrieving tasks: " ++ py_str error)%string
       else
         tasks <- lift (get tasks_data "tasks" (JArr [])) ;;
         if negb (truthy tasks) then ret "No tasks found in this project."
         else
           elements <- lift (iterate tasks) ;;
           formatted <- lift (format_each elements []
                                [("todo", 0); ("doing", 0); ("review", 0); ("done", 0)]) ;;
           total <- lift (len tasks) ;;
           ret (summary total (snd formatted) (fst formatted)))
    (fun e =>
       logger_error ("Error listing project tasks: " ++ str_exn e)%string ;;;
       ret ("Error retrieving tasks: " ++ str_exn e)%string).

Definition analyze_project_progress (project_id : option string) : M world string :=
  try_except
    (deps_id <- get_deps_project_id ;;
     let target_project_id := or_else project_id deps_id in
     if negb (truthy target_project_id) then ret no_project_specified
     else
       tasks_result <- call (ListWithClosed target_project_id) ;;
       tasks_data <- lift (json_loads tasks_result) ;;
       success <- lift (get tasks_data "success" (JBool false)) ;;
       if negb (truthy success) then ret "Error retrieving tasks for analysis."
       else
         tasks <- lift (get tasks_data "tasks" (JArr [])) ;;
         if negb (truthy tasks) then ret "No tasks found to analyze in this project."
         else
           analysis <- lift (analyze_health tasks) ;;
           ret (progress_report analysis))
    (fun e =>
       logger_error ("Error analyzing project progress: " ++ str_exn e)%string ;;;
       ret ("Error analyzing project progress: " ++ str_exn e)%string).

End Tools.

Arguments World {S} store sent logged deps_project_id.

(** A store that gives the same reply to every request. *)
Definition always (answer : reply) (r : list_request) (s : unit) : reply * unit := (answer, s).

Definition start (project_id : json) : world unit := World tt [] [] project_id.

(** *** Notions used to state the properties of the listing tools *)

(** A task the listing can show: a dictionary with a hashable status and
    assignee, and a task order that is a number. *)
Definition is_number (x : json) : bool :=
  match x with JInt _ | JBool _ | JFloat _ => true | _ => false end.

Definition listable (task : json) : bool :=
  match task with
  | JObj fields =>
      (match lookup "status" fields with Some s => Health.hashable s | None => true end)
      && (match lookup "assignee" fields with Some a => Health.hashable a | None => true end)
      && (match lookup "task_order" fields with Some n => is_number n | None => true end)
  | _ => false
  end.

(** The number of tasks whose status is the string [s]; a task without
    status has the status "unknown" here. *)
Definition shows_status (s : string) (task : json) : bool :=
  match get task "status" (JStr "unknown") with
  | Ok (JStr s') => (s' =? s)%string
  | _ => false
  end.

Definition number_showing (s : string) (tasks : list json) : nat :=
  length (filter (shows_status s) tasks).

(** The line of a task. *)
Definition line_of {R : Repr} (task : json) : string :=
  match format_task task [] with
  | Ok (line, _) => line
  | Raise _ => ""
  end.

(** The exception that ends a listing, if any: raised by the call, by the
    decoding, by [.get] on a payload that is not an object or, for an
    envelope with success and tasks, by the loop over the tasks. *)
Definition listing_exception {R : Repr} (answer : reply) : option exn :=
  match answer with
  | Raises e => Some e
  | Returns (NotJson e) => Some e
  | Returns (Json (JObj fields)) =>
      let success := match lookup "success" fields with Some v => v | None => JBool false end in
      let tasks := match lookup "tasks" fields with Some v => v | None => JArr [] end in
      if truthy success && truthy tasks then
        match iterate tasks with
        | Raise e => Some e
        | Ok elements =>
            match format_each elements []
                    [("todo", 0); ("doing", 0); ("review", 0); ("done", 0)] with
            | Raise e => Some e
            | Ok _ => None
            end
        end
      else None
  | Returns (Json other) => Some (no_attribute other "get")
  end.

(** A listing envelope with the given tasks. *)
Definition listing (tasks : list json) : reply :=
  Returns (Json (JObj [("success", JBool true); ("tasks", JArr tasks)])).

(** Three tasks; the last one has neither status nor assignee. *)
Definition three_tasks : list json :=
  [JObj [("title", JStr "Design schema"); ("status", JStr "done");
         ("assignee", JStr "User"); ("task_order", JInt 9)];
   JObj [("title", JStr "Write migrations"); ("status", JStr "doing");
         ("assignee", JStr "AI IDE Agent"); ("task_order", JInt 5)];
   JObj [("title", JStr "Backups")]].

End Listing.

(** ** The simulations of [tests/test_task_agent_simple.py] *)

Module Simulation.

(** [json.dumps(x, indent=2)]. *)
Class Dumps := dumps : json -> string.

Section Detection.
Context {L : Lower}.

Definition auth_keywords := ["oauth"; "jwt"; "auth"; "login"; "session"; "token"].
Definition api_keywords := ["api"; "rest"; "endpoint"; "crud"; "service"].
Definition frontend_keywords := ["react"; "vue"; "frontend"; "ui"; "component"].
Definition database_keywords := ["database"; "sql"; "schema"; "migration"; "postgres"].

Definition detect_project_domain (title description : string) : string :=
  let text := lower (joined title description) in
  if any_in auth_keywords text then "authentication"
  else if any_in api_keywords text then "api"
  else if any_in frontend_keywords text then "frontend"
  else if any_in database_keywords text then "database"
  else "generic".

End Detection.

(** [{"title": title, "assignee": assignee}]. *)
Definition task_dict (title assignee : string) : json :=
  JObj [("title", JStr title); ("assignee", JStr assignee)].

Definition base_tasks : list json :=
  [task_dict "Setup project structure" "User";
   task_dict "Write documentation" "User";
   task_dict "Set up testing" "AI IDE Agent"].

Definition generate_tasks_for_domain (domain title description : string) : list json :=
  if (domain =? "authentication")%string then
    base_tasks ++ [task_dict "Implement OAuth2 flow" "AI IDE Agent";
                   task_dict "Setup JWT tokens" "AI IDE Agent";
                   task_dict "Create login endpoints" "AI IDE Agent";
                   task_dict "Add session management" "AI IDE Agent"]
  else if (domain =? "api")%string then
    base_tasks ++ [task_dict "Design API endpoints" "User";
                   task_dict "Implement CRUD operations" "AI IDE Agent";
                   task_dict "Add input validation" "AI IDE Agent";
                   task_dict "Setup API documentation" "AI IDE Agent"]
  else if (domain =? "frontend")%string then
    base_tasks ++ [task_dict "Setup component structure" "AI IDE Agent";
                   task_dict "Implement routing" "AI IDE Agent";
                   task_dict "Add state management" "AI IDE Agent";
                   task_dict "Style components" "User"]
  else if (domain =? "database")%string then
    base_tasks ++ [task_dict "Design database schema" "User";
                   task_dict "Create migrations" "AI IDE Agent";
                   task_dict "Add indexes" "AI IDE Agent";
                   task_dict "Setup backup strategy" "User"]
  else
    base_tasks ++ [task_dict "Implement core functionality" "AI IDE Agent";
                   task_dict "Add error handling" "AI IDE Agent"].

(** [x is True]. *)
Definition is_True (x : json) : bool :=
  match x with JBool true => true | _ => false end.

(** The body of the [try] of [parse_mcp_response]. *)
Definition parse_body (response : json) : result json :=
  if negb (is_object response) then
    Ok (JObj [("success", JBool false); ("error", JStr "Invalid response format")])
  else
    match get response "success" JNull with
    | Raise e => Raise e
    | Ok success =>
        if is_True success then
          match get response "data" (JObj []) with
          | Raise e => Raise e
          | Ok data =>
              match get response "message" (JStr "Operation successful") with
              | Raise e => Raise e
              | Ok message =>
                  Ok (JObj [("success", JBool true); ("data", data); ("message", message)])
              end
          end
        else
          match get response "error" (JStr "Unknown error occurred") with
          | Raise e => Raise e
          | Ok error => Ok (JObj [("success", JBool false); ("error", error)])
          end
    end.

Definition parse_mcp_response (response : json) : json :=
  match parse_body response with
  | Ok parsed => parsed
  | Raise e =>
      JObj [("success", JBool false);
            ("error", JStr ("Response parsing failed: " ++ str_exn e))]
  end.

(** The dictionary [format_agent_response] serialises: [response.update(data)]
    when the call succeeded and there is data, the error when it failed and
    there is one. *)
Definition response_fields (success : bool) (data : option (list (string * json)))
    (error : option string) : list (string * json) :=
  let response := [("success", JBool success); ("timestamp", JStr "2024-01-01T00:00:00Z")] in
  if success && negb (is_empty (AgentsServiceClient.or_empty data)) then
    AgentsServiceClient.dict_merge response (AgentsServiceClient.or_empty data)
  else if negb success && truthy (AgentsServiceClient.opt_str error) then
    AgentsServiceClient.dict_set "error" (AgentsServiceClient.opt_str error) response
  else response.

Definition format_agent_response {D : Dumps} (success : bool)
    (data : option (list (string * json))) (error : option string) : string :=
  dumps (JObj (response_fields success data error)).

(** For concrete runs: a serialisation that only names the type. *)
#[export] Instance plain_Dumps : Dumps := fun x => ("<" ++ type_name x ++ ">")%string.

End Simulation.

(** * Properties *)

(** ** Decomposition and assignee policy *)

Section DecompositionFacts.
Context {L : Lower}.

(** The sequence of guarded [extend] calls is the concatenation of the
    templates of the matched domains, in the order of the tests. *)
Lemma matched_templates (text : string) :
  extend_if (any_in (keywords Database) text) _generate_database_tasks
    (extend_if (any_in (keywords Frontend) text) _generate_frontend_tasks
       (extend_if (any_in (keywords Api) text) _generate_api_tasks
          (extend_if (any_in (keywords Authentication) text) _generate_auth_tasks [])))
  = flat_map template (classify text).
Proof.
  unfold classify, domain_order; cbn [filter].
  destruct (any_in (keywords Authentication) text),
           (any_in (keywords Api) text),
           (any_in (keywords Frontend) text),
           (any_in (keywords Database) text); reflexivity.
Qed.

Lemma classify_spec (text : string) (d : domain) :
  In d (classify text) <-> any_in (keywords d) text = true.
Proof.
  unfold classify. rewrite filter_In. split.
  - intros [_ H]; exact H.
  - intros H; split; [destruct d; simpl; tauto | exact H].
Qed.

Lemma flat_map_template_empty (ds : list domain) :
  is_empty (flat_map template ds) = is_empty ds.
Proof. destruct ds as [|d ds]; [reflexivity | destruct d; reflexivity]. Qed.

Lemma project_tasks_eq (t d : string) :
  project_tasks t d =
  (match classify (lower (joined t d)) with
   | [] => _generate_generic_project_tasks t
   | matched => flat_map template matched
   end) ++ common_tasks t.
Proof.
  unfold project_tasks.
  change ["auth"; "login"; "user"; "account"] with (keywords Authentication).
  change ["api"; "backend"; "server"; "endpoint"] with (keywords Api).
  change ["ui"; "frontend"; "react"; "component"; "dashboard"] with (keywords Frontend).
  change ["database"; "db"; "data"; "model"] with (keywords Database).
  cbv zeta. rewrite matched_templates.
  generalize (flat_map_template_empty (classify (lower (joined t d)))).
  destruct (classify (lower (joined t d))) as [|d0 ds] eqn:E.
  - reflexivity.
  - intros H. unfold extend_if. rewrite H. reflexivity.
Qed.

End DecompositionFacts.

(** C1. Project decomposition emits, for the domains whose keyword set
    matches the lower-cased "title description" text, their complete
    templates in the order authentication, api, frontend, database (the
    generic template when no domain matches), and then always the two
    closing tasks, documentation (Archon, priority 7) and testing (AI IDE
    Agent, priority 6), as the last two specs.  The templates have 4, 3, 3
    and 3 specs with priorities 9,9,8,8 / 9,8,6 / 9,7,6 / 9,8,7. *)
Theorem project_decomposition_templates :
  forall (L : Lower) (t d : string),
    let text := lower (joined t d) in
    (forall dom, In dom (classify text) <-> any_in (keywords dom) text = true)
    /\ classify text = filter (fun dom => any_in (keywords dom) text)
                              [Authentication; Api; Frontend; Database]
    /\ project_tasks t d =
       (match classify text with
        | [] => _generate_generic_project_tasks t
        | matched => flat_map template matched
        end) ++ [documentation_task t; testing_task]
    /\ priorities (template Authentication) = [9; 9; 8; 8]%Z
    /\ priorities (template Api) = [9; 8; 6]%Z
    /\ priorities (template Frontend) = [9; 7; 6]%Z
    /\ priorities (template Database) = [9; 8; 7]%Z
    /\ title (documentation_task t) = "Create project documentation"
    /\ assignee (documentation_task t) = Orchestrator
    /\ priority (documentation_task t) = 7%Z
    /\ title testing_task = "Set up testing framework"
    /\ assignee testing_task = AutomatedAgent
    /\ priority testing_task = 6%Z.
Proof.
  intros L t d text. split; [|split; [|split]].
  - intros dom. apply classify_spec.
  - reflexivity.
  - apply project_tasks_eq.
  - repeat split; reflexivity.
Qed.

(** C2. Task breakdown takes the first matching branch only: the 5-step API
    template when the lower-cased text contains both "api" and "endpoint",
    else the 4-step UI template when it contains one of "component", "ui",
    "interface", "form", else the 3-step generic template; with the stated
    priorities and assignees, and on the two named inputs. *)
Theorem task_breakdown_first_match :
  (forall (L : Lower) (t d : string),
     let text := lower (joined t d) in
     _analyze_and_break_down_task t d =
       if contains "api" text && contains "endpoint" text then api_subtasks t
       else if any_in ["component"; "ui"; "interface"; "form"] text then ui_subtasks t
       else generic_subtasks t)
  /\ (forall t,
        priorities (api_subtasks t) = [8; 9; 8; 7; 6]%Z
        /\ assignees (api_subtasks t)
           = [User; AutomatedAgent; AutomatedAgent; AutomatedAgent; AutomatedAgent]
        /\ priorities (ui_subtasks t) = [8; 8; 7; 6]%Z
        /\ priorities (generic_subtasks t) = [8; 7; 6]%Z)
  /\ _analyze_and_break_down_task (L := ascii_Lower) "Build user API endpoint" ""
     = api_subtasks "Build user API endpoint"
  /\ _analyze_and_break_down_task (L := ascii_Lower) "Design login form" ""
     = ui_subtasks "Design login form".
Proof.
  split; [|split; [|split]].
  - intros L t d text. unfold _analyze_and_break_down_task. fold text.
    destruct (contains "api" text && contains "endpoint" text); [reflexivity|].
    destruct (any_in ["component"; "ui"; "interface"; "form"] text); reflexivity.
  - intros t. repeat split; reflexivity.
  - vm_compute. reflexivity.
  - vm_compute. reflexivity.
Qed.

(** C6. When the lower-cased text contains no keyword of any of the four
    domains, project decomposition emits exactly five specs: the generic
    template (priorities 9, 8, 7) followed by the two closing tasks. *)
Theorem project_decomposition_generic :
  forall (L : Lower) (t d : string),
    (forall dom, any_in (keywords dom) (lower (joined t d)) = false) ->
    project_tasks t d = _generate_generic_project_tasks t ++ common_tasks t
    /\ length (project_tasks t d) = 5
    /\ priorities (_generate_generic_project_tasks t) = [9; 8; 7]%Z
    /\ priorities (project_tasks t d) = [9; 8; 7; 7; 6]%Z.
Proof.
  intros L t d Hnone.
  assert (E : project_tasks t d = _generate_generic_project_tasks t ++ common_tasks t).
  { rewrite project_tasks_eq. unfold classify, domain_order. cbn [filter].
    rewrite !Hnone. reflexivity. }
  rewrite E. repeat split; reflexivity.
Qed.

Lemma project_decomposition_generic_witness :
  (forall dom, any_in (keywords dom)
                 (lower (Lower := ascii_Lower)
                    (joined "Custom Project" "Unique business logic with special features"))
               = false)
  /\ length (project_tasks (L := ascii_Lower) "Custom Project"
               "Unique business logic with special features") = 5.
Proof.
  assert (H : forall dom, any_in (keywords dom)
                 (lower (Lower := ascii_Lower)
                    (joined "Custom Project" "Unique business logic with special features"))
               = false)
    by (intros []; vm_compute; reflexivity).
  split; [exact H|].
  exact (proj1 (proj2 (@project_decomposition_generic ascii_Lower "Custom Project"
                         "Unique business logic with special features" H))).
Defined.

(** C7. [select_assignee] tests the lower-cased text for the planning
    keywords first (User), then the orchestration keywords (Archon), then
    the implementation keywords (AI IDE Agent), and answers User
    otherwise; with the three named inputs, and a text that has both a
    planning and an orchestration keyword. *)
Theorem select_assignee_precedence :
  (forall (L : Lower) (t d : string),
     let text := lower (joined t d) in
     select_assignee t d =
       if any_in ["design"; "plan"; "strategy"; "requirements"; "review"] text then User
       else if any_in ["coordinate"; "manage"; "orchestrate"; "workflow"] text then Orchestrator
       else if any_in ["implement"; "code"; "create"; "build"; "develop"] text then AutomatedAgent
       else User)
  /\ select_assignee (L := ascii_Lower) "Design API architecture" "" = User
  /\ select_assignee (L := ascii_Lower) "Implement OAuth flow" "" = AutomatedAgent
  /\ select_assignee (L := ascii_Lower) "Coordinate team workflow" "" = Orchestrator
  /\ (let text := lower (Lower := ascii_Lower) (joined "Manage the design Workflow" "") in
      any_in planning_keywords text = true
      /\ any_in orchestration_keywords text = true
      /\ select_assignee (L := ascii_Lower) "Manage the design Workflow" "" = User).
Proof.
  split; [|repeat split; vm_compute; reflexivity].
  intros L t d text. reflexivity.
Qed.

(** ** Batches of task creations *)

Section BatchFacts.
Context {L : Lower} {R : Repr}.
Variable S : Type.
Variable serve : request -> S -> reply * S.

(** One guarded turn: the request is sent, the count grows by one exactly
    for a confirmed creation, a record is written exactly for an
    exception, and the turn itself never raises. *)
Lemma create_guarded_step (pid : json) (task : TaskSpec) (n : nat) (w : world S)
    (answer : reply) (s' : S) :
  serve (CreateTask pid task) (store w) = (answer, s') ->
  create_guarded serve pid task n w
  = (Ok (n + one_if (confirmed answer)),
     World s' (sent w ++ [CreateTask pid task])
              (logged w ++ record_of task answer) (deps_project_id w)).
Proof.
  intros Hserve.
  unfold create_guarded, try_except, bind, call, lift, ret, logger_error.
  rewrite Hserve. unfold confirmed, record_of, outcome.
  destruct answer as [e | [e | data]]; simpl.
  - rewrite Nat.add_0_r. reflexivity.
  - rewrite Nat.add_0_r. reflexivity.
  - destruct (get data "success" (JBool false)) as [success | e]; simpl.
    + rewrite app_nil_r. destruct (truthy success); simpl; rewrite ?Nat.add_0_r; reflexivity.
    + rewrite Nat.add_0_r. reflexivity.
Qed.

Lemma error_records_cons (task : TaskSpec) (tasks : list TaskSpec)
    (answer : reply) (replies : list reply) :
  error_records (task :: tasks) (answer :: replies)
  = record_of task answer ++ error_records tasks replies.
Proof. unfold record_of. simpl. destruct (outcome answer); reflexivity. Qed.

Lemma confirmed_count_cons (answer : reply) (replies : list reply) :
  confirmed_count (answer :: replies) = one_if (confirmed answer) + confirmed_count replies.
Proof. unfold confirmed_count. simpl. destruct (confirmed answer); reflexivity. Qed.

(** The guarded loop attempts every task in order, whatever the replies. *)
Lemma create_each_guarded_run (pid : json) (tasks : list TaskSpec) :
  forall (n : nat) (w : world S),
    create_each_guarded serve pid tasks n w
    = (Ok (n + confirmed_count (fst (answers serve (map (CreateTask pid) tasks) (store w)))),
       World (snd (answers serve (map (CreateTask pid) tasks) (store w)))
             (sent w ++ map (CreateTask pid) tasks)
             (logged w ++ error_records tasks
                            (fst (answers serve (map (CreateTask pid) tasks) (store w))))
             (deps_project_id w)).
Proof.
  induction tasks as [|task rest IH]; intros n w.
  - simpl. unfold ret, confirmed_count. simpl.
    rewrite Nat.add_0_r, !app_nil_r. destruct w; reflexivity.
  - cbn [create_each_guarded map answers]. unfold bind.
    destruct (serve (CreateTask pid task) (store w)) as [answer s'] eqn:Hserve.
    rewrite (@create_guarded_step pid task n w answer s' Hserve).
    rewrite IH. cbn [store sent logged deps_project_id].
    destruct (answers serve (map (CreateTask pid) rest) s') as [more s''].
    cbn [fst snd].
    rewrite error_records_cons, confirmed_count_cons.
    rewrite <- !app_assoc. cbn [app].
    f_equal. f_equal. lia.
Qed.

(** One unguarded turn whose reply does not raise. *)
Lemma create_unguarded_step (pid : json) (task : TaskSpec) (n : nat) (w : world S)
    (answer : reply) (s' : S) :
  serve (CreateTask pid task) (store w) = (answer, s') ->
  raising answer = false ->
  create_unguarded serve pid task n w
  = (Ok (n + one_if (confirmed answer)),
     World s' (sent w ++ [CreateTask pid task]) (logged w) (deps_project_id w)).
Proof.
  intros Hserve Hquiet.
  unfold create_unguarded, bind, call, lift, ret.
  rewrite Hserve. unfold raising, confirmed, outcome in *.
  destruct answer as [e | [e | data]]; simpl in *; try discriminate.
  destruct (get data "success" (JBool false)) as [success | e]; simpl in *;
    try discriminate.
  destruct (truthy success); simpl; rewrite ?Nat.add_0_r; reflexivity.
Qed.

(** The unguarded loop, when no reply raises. *)
Lemma create_each_unguarded_run (pid : json) (tasks : list TaskSpec) :
  forall (n : nat) (w : world S),
    forallb (fun a => negb (raising a))
      (fst (answers serve (map (CreateTask pid) tasks) (store w))) = true ->
    create_each_unguarded serve pid tasks n w
    = (Ok (n + confirmed_count (fst (answers serve (map (CreateTask pid) tasks) (store w)))),
       World (snd (answers serve (map (CreateTask pid) tasks) (store w)))
             (sent w ++ map (CreateTask pid) tasks) (logged w) (deps_project_id w)).
Proof.
  induction tasks as [|task rest IH]; intros n w Hquiet.
  - simpl. unfold ret, confirmed_count. simpl.
    rewrite Nat.add_0_r, !app_nil_r. destruct w; reflexivity.
  - cbn [create_each_unguarded map answers] in *. unfold bind.
    destruct (serve (CreateTask pid task) (store w)) as [answer s'] eqn:Hserve.
    destruct (answers serve (map (CreateTask pid) rest) s') as [more s''] eqn:Hmore.
    cbn [fst snd forallb] in *.
    apply andb_prop in Hquiet. destruct Hquiet as [Hfirst Hrest].
    apply negb_true_iff in Hfirst.
    rewrite (@create_unguarded_step pid task n w answer s' Hserve Hfirst).
    rewrite IH; cbn [store sent logged deps_project_id]; rewrite Hmore; cbn [fst snd].
    + rewrite confirmed_count_cons. rewrite <- !app_assoc. cbn [app].
      f_equal. f_equal. lia.
    + exact Hrest.
Qed.

End BatchFacts.

(** C3, against the claim as stated.  In project decomposition an envelope
    without success is skipped but nothing is logged for it; and in task
    breakdown an exception on the second creation ends the batch: the
    remaining three subtasks are never attempted and no count is reported. *)
Lemma batch_failure_not_logged_or_fatal :
  (let run := _generate_project_tasks scripted (JStr "p-1") "Custom Project" "Unique logic"
                (start [success_envelope; failure_envelope "quota exceeded";
                        success_envelope; success_envelope; success_envelope] JNull) in
   fst run = Ok 4 /\ logged (snd run) = [])
  /\ (let run := break_down_task scripted "Build user API endpoint" "" (Some "p-1")
                   (start [success_envelope; Raises (Exn HTTPError "timeout");
                           success_envelope; success_envelope; success_envelope] JNull) in
      fst run = Ok "Error breaking down task: timeout"
      /\ length (sent (snd run)) = 2
      /\ length (_analyze_and_break_down_task "Build user API endpoint" "") = 5).
Proof. vm_compute. repeat split; reflexivity. Qed.

(** C3, amended.  In project decomposition every task of the batch is
    submitted in order whatever the replies; a creation that raises is
    logged and skipped, an envelope without success is skipped without a
    log record; the count returned is the number of replies whose envelope
    had a true success field.  In task breakdown, when no creation raises,
    every subtask is submitted in order, envelopes without success are
    skipped without a log record, and the count in the message is the
    number of replies whose envelope had a true success field. *)
Theorem batch_creation_counts_confirmed :
  forall (L : Lower) (R : Repr) (S : Type) (serve : request -> S -> reply * S),
    (forall (pid : json) (t d : string) (w : world S),
       let requests := map (CreateTask pid) (project_tasks t d) in
       let replies := fst (answers serve requests (store w)) in
       _generate_project_tasks serve pid t d w
       = (Ok (confirmed_count replies),
          World (snd (answers serve requests (store w)))
                (sent w ++ requests)
                (logged w ++ error_records (project_tasks t d) replies)
                (deps_project_id w)))
    /\ (forall (t d : string) (project_id : option string) (w : world S),
          let pid := or_else project_id (deps_project_id w) in
          let requests := map (CreateTask pid) (_analyze_and_break_down_task t d) in
          let replies := fst (answers serve requests (store w)) in
          truthy pid = true ->
          forallb (fun a => negb (raising a)) replies = true ->
          break_down_task serve t d project_id w
          = (Ok (broke_down t (confirmed_count replies)),
             World (snd (answers serve requests (store w)))
                   (sent w ++ requests) (logged w) (deps_project_id w))).
Proof.
  intros L R S serve. split.
  - intros pid t d w requests replies.
    unfold _generate_project_tasks. rewrite create_each_guarded_run. reflexivity.
  - intros t d project_id w pid requests replies Hpid Hquiet.
    unfold break_down_task, try_except, bind, get_deps_project_id.
    fold pid. rewrite Hpid. cbn [negb].
    rewrite create_each_unguarded_run by exact Hquiet.
    reflexivity.
Qed.

Lemma batch_creation_counts_confirmed_witness :
  fst (break_down_task scripted "Design login form" "" (Some "p-1")
         (start [success_envelope; failure_envelope "quota exceeded";
                 success_envelope; success_envelope] JNull))
  = Ok (broke_down "Design login form" 3).
Proof.
  pose proof (proj2 (@batch_creation_counts_confirmed ascii_Lower plain_Repr
                       (list reply) scripted)
                "Design login form" "" (Some "p-1")
                (start [success_envelope; failure_envelope "quota exceeded";
                        success_envelope; success_envelope] JNull)
                eq_refl eq_refl) as H.
  rewrite H. reflexivity.
Defined.

(** ** Single responses: project creation and status update *)

Section ResponseFacts.
Context {L : Lower} {R : Repr}.
Variable S : Type.
Variable serve : request -> S -> reply * S.
Variable progress_callback : option (string -> string -> result unit).

Lemma get_non_object (data : json) (key : string) (default : json) :
  is_object data = false -> get data key default = Raise (no_attribute data "get").
Proof. destruct data; simpl; intros H; try reflexivity; discriminate. Qed.

Lemma title_matches_listed (t : string) (task : json) :
  listed task = true -> title_matches t task = Ok (title_contains t task).
Proof.
  unfold listed, title_matches, title_contains, title_of.
  destruct task as [| | | | |items|fields]; try discriminate. simpl.
  destruct (lookup "title" fields) as [[| | | |s| |]|]; try discriminate; reflexivity.
Qed.

Lemma comprehension_listed (t : string) (items : list json) :
  forallb listed items = true ->
  comprehension (title_matches t) items = Ok (filter (title_contains t) items).
Proof.
  induction items as [|task rest IH]; intros H; [reflexivity|].
  cbn [forallb] in H. apply andb_prop in H. destruct H as [Htask Hrest].
  cbn [comprehension filter]. rewrite (title_matches_listed t task Htask), (IH Hrest).
  reflexivity.
Qed.

Lemma find_first {A} (f : A -> bool) (l : list A) (x : A) :
  find f l = Some x ->
  exists before after,
    l = before ++ x :: after /\ forallb (fun y => negb (f y)) before = true /\ f x = true.
Proof.
  induction l as [|y l IH]; [discriminate|]. simpl.
  destruct (f y) eqn:Hy.
  - intros E; injection E as <-. exists [], l. repeat split; assumption.
  - intros E. destruct (IH E) as (before & after & -> & Hb & Hx).
    exists (y :: before), after. simpl. rewrite Hy. repeat split; assumption.
Qed.

(** [update_task_status] once the listing has succeeded with well-formed
    tasks: nothing more happens without a match, and the update step runs
    on the first match. *)
Lemma update_task_status_listing (t st : string) (project_id : option string)
    (w : world S) (data succ : json) (items : list json) (s1 : S) :
  let pid := or_else project_id (deps_project_id w) in
  let w1 := World s1 (sent w ++ [ListTasks "project" pid]) (logged w) (deps_project_id w) in
  truthy pid = true ->
  in_list st valid_statuses = true ->
  serve (ListTasks "project" pid) (store w) = (Returns (Json data), s1) ->
  get data "success" (JBool false) = Ok succ ->
  truthy succ = true ->
  get data "tasks" (JArr []) = Ok (JArr items) ->
  forallb listed items = true ->
  update_task_status serve t st project_id w
  = match find (title_contains t) items with
    | None => (Ok ("No task found matching '" ++ t ++ "' in this project.")%string, w1)
    | Some task =>
        try_except (update_first_match serve task st)
                   (update_task_status_failed (S := S)) w1
    end.
Proof.
  intros pid w1 Hpid Hvalid Hserve Hsucc Htruthy Htasks Hlisted.
  unfold update_task_status.
  unfold try_except at 1. unfold bind at 1. unfold get_deps_project_id.
  fold pid. rewrite Hpid, Hvalid. cbn [negb].
  unfold bind at 1. unfold call. rewrite Hserve. fold w1.
  unfold bind at 1. unfold lift at 1. cbn [json_loads].
  unfold bind at 1. unfold lift at 1. rewrite Hsucc, Htruthy. cbn [negb].
  unfold bind at 1. unfold lift at 1. rewrite Htasks.
  unfold bind at 1. unfold lift at 1. cbn [iterate].
  unfold bind at 1. unfold lift at 1.
  rewrite (comprehension_listed t items Hlisted).
  induction items as [|task rest _]; [reflexivity|].
  cbn [filter find]. destruct (title_contains t task) eqn:Hm.
  - reflexivity.
  - clear Htasks Hlisted.
    induction rest as [|task' rest' IH]; [reflexivity|].
    cbn [filter find]. destruct (title_contains t task'); [reflexivity | exact IH].
Qed.

(** The update step: exactly one request, and a message in every case. *)
Lemma update_first_match_sends_one (task : json) (st : string) (w1 : world S) :
  is_object task = true ->
  exists message log,
    try_except (update_first_match serve task st) (update_task_status_failed (S := S)) w1
    = (Ok message,
       World (snd (serve (UpdateTask (id_of task) [("status", st)]) (store w1)))
             (sent w1 ++ [UpdateTask (id_of task) [("status", st)]])
             log (deps_project_id w1)).
Proof.
  intros Hobj. destruct task as [| | | | |items|fields]; try discriminate.
  unfold try_except, update_first_match, update_task_status_failed, id_of.
  unfold bind, lift, call, ret, logger_error. cbn [get].
  destruct (serve _ (store w1)) as [[e | [e | data]] s2]; cbn [snd json_loads].
  - eexists _, _; reflexivity.
  - eexists _, _; reflexivity.
  - destruct (get data "success" (JBool false)) as [succ | e]; cbn.
    + destruct (truthy succ); cbn.
      * eexists _, _; reflexivity.
      * destruct data; cbn in *; eexists _, _; reflexivity.
    + eexists _, _; reflexivity.
Qed.

Lemma listed_is_object (task : json) : listed task = true -> is_object task = true.
Proof. destruct task; simpl; intros H; try discriminate; reflexivity. Qed.

Lemma find_In_listed (f : json -> bool) (items : list json) (task : json) :
  forallb listed items = true -> find f items = Some task -> listed task = true.
Proof.
  intros Hall Hfind. apply find_some in Hfind. destruct Hfind as [Hin _].
  rewrite forallb_forall in Hall. exact (Hall _ Hin).
Qed.

(** The update step on a decoded reply: a payload that is not an object
    ends in the [except] clause, an envelope without success gives the
    message with its error. *)
Lemma update_first_match_responses (task : json) (st : string) (w1 : world S)
    (data : json) (s2 : S) :
  is_object task = true ->
  serve (UpdateTask (id_of task) [("status", st)]) (store w1) = (Returns (Json data), s2) ->
  (is_object data = false ->
   fst (try_except (update_first_match serve task st)
                   (update_task_status_failed (S := S)) w1)
   = Ok ("Error updating task status: '" ++ type_name data
         ++ "' object has no attribute 'get'")%string)
  /\ (forall succ error,
        get data "success" (JBool false) = Ok succ ->
        truthy succ = false ->
        get data "error" (JStr "Unknown error") = Ok (JStr error) ->
        fst (try_except (update_first_match serve task st)
                        (update_task_status_failed (S := S)) w1)
        = Ok ("Failed to update task status: " ++ error)%string).
Proof.
  intros Hobj Hserve.
  destruct task as [| | | | |items|fields]; try discriminate.
  unfold id_of in Hserve. cbn [get] in Hserve. split.
  - intros Hmalformed.
    unfold try_except, update_first_match.
    unfold bind at 1. unfold lift at 1. cbn [get].
    unfold bind at 1. unfold call. rewrite Hserve.
    unfold bind at 1. unfold lift at 1. cbn [json_loads].
    unfold bind at 1. unfold lift at 1.
    rewrite get_non_object by exact Hmalformed. reflexivity.
  - intros succ error Hsucc Hfalse Herror.
    unfold try_except, update_first_match.
    unfold bind at 1. unfold lift at 1. cbn [get].
    unfold bind at 1. unfold call. rewrite Hserve.
    unfold bind at 1. unfold lift at 1. cbn [json_loads].
    unfold bind at 1. unfold lift at 1. rewrite Hsucc, Hfalse.
    unfold bind, lift. rewrite Herror. reflexivity.
Qed.

End ResponseFacts.

(** C10. With a project in context and a valid status, when the listing
    succeeds with well-formed tasks, [update_task_status] locates the task by
    the case-insensitive substring test of the given text against each
    listed title and sends exactly one update, for the first match in the
    returned order; without a match it sends no update, answers that no
    task was found, and leaves the store as the listing left it. *)
Theorem update_task_status_first_match :
  forall (L : Lower) (R : Repr) (S : Type) (serve : request -> S -> reply * S)
         (t st : string) (project_id : option string) (w : world S)
         (data succ : json) (items : list json) (s1 : S),
    let pid := or_else project_id (deps_project_id w) in
    truthy pid = true ->
    in_list st ["todo"; "doing"; "review"; "done"] = true ->
    serve (ListTasks "project" pid) (store w) = (Returns (Json data), s1) ->
    get data "success" (JBool false) = Ok succ ->
    truthy succ = true ->
    get data "tasks" (JArr []) = Ok (JArr items) ->
    forallb listed items = true ->
    match find (fun task => contains (lower t) (lower (title_of task))) items with
    | None =>
        update_task_status serve t st project_id w
        = (Ok ("No task found matching '" ++ t ++ "' in this project.")%string,
           World s1 (sent w ++ [ListTasks "project" pid]) (logged w) (deps_project_id w))
    | Some task =>
        let update := UpdateTask (id_of task) [("status", st)] in
        (exists before after,
            items = before ++ task :: after
            /\ forallb (fun other => negb (title_contains t other)) before = true
            /\ title_contains t task = true)
        /\ (exists message log,
              update_task_status serve t st project_id w
              = (Ok message,
                 World (snd (serve update s1))
                       (sent w ++ [ListTasks "project" pid; update])
                       log (deps_project_id w)))
    end.
Proof.
  intros L R S serve t st project_id w data succ items s1 pid
         Hpid Hvalid Hserve Hsucc Htruthy Htasks Hlisted.
  rewrite (@update_task_status_listing L R S serve t st project_id w data succ items s1
             Hpid Hvalid Hserve Hsucc Htruthy Htasks Hlisted).
  change (fun task => contains (lower t) (lower (title_of task))) with (title_contains t).
  destruct (find (title_contains t) items) as [task|] eqn:Hfind; [|reflexivity].
  cbv beta iota zeta. split.
  - exact (@find_first _ _ _ _ Hfind).
  - pose proof (@listed_is_object task (@find_In_listed _ items task Hlisted Hfind)) as Hobj.
    destruct (@update_first_match_sends_one R S serve task st
                (World s1 (sent w ++ [ListTasks "project" pid]) (logged w)
                   (deps_project_id w)) Hobj) as (message & log & E).
    exists message, log. etransitivity; [exact E|].
    cbn [store sent deps_project_id]. rewrite <- app_assoc. reflexivity.
Qed.

Lemma update_task_status_first_match_witness :
  exists message log,
    update_task_status scripted "Design" "doing" (Some "p-1")
      (start [listing_example; success_envelope] JNull)
    = (Ok message,
       World [] [ListTasks "project" (JStr "p-1");
                 UpdateTask (JStr "t-2") [("status", "doing")]]
             log JNull).
Proof.
  exact (proj2 (@update_task_status_first_match ascii_Lower plain_Repr (list reply) scripted
                  "Design" "doing" (Some "p-1")
                  (start [listing_example; success_envelope] JNull)
                  _ _ _ _ eq_refl eq_refl eq_refl eq_refl eq_refl eq_refl eq_refl)).
Defined.

(** C9, against the claim as stated.  The listing step of
    [update_task_status] receives a well-formed envelope with success false
    and an error field; the operation answers with a fixed message that
    does not carry the error. *)
Lemma listing_error_not_surfaced :
  let run := update_task_status scripted "Design" "doing" (Some "p-1")
               (start [failure_envelope "database offline"] JNull) in
  fst run = Ok "Error retrieving tasks to find the specified task."
  /\ contains "database offline" "Error retrieving tasks to find the specified task." = false.
Proof. vm_compute. split; reflexivity. Qed.

(** C9, amended.  For the response to the project creation of
    [create_project_with_tasks] and for the listing and update responses of
    [update_task_status]: a payload that decodes to something other than an
    object makes the operation return an error message, without raising;
    an envelope without success whose error field is a string has that
    exact string in the returned message for the project creation and for
    the update, while for the listing the operation returns a fixed message
    without it. *)
Theorem malformed_and_failed_responses :
  forall (L : Lower) (R : Repr) (S : Type) (serve : request -> S -> reply * S)
         (progress_callback : option (string -> string -> result unit)),
    (* project creation *)
    (forall (t d : string) (repo : option string) (w : world S) (data : json) (s1 : S),
       returns_for progress_callback "project_creation" ("🚀 Creating project: " ++ t) ->
       serve (CreateProject t d repo) (store w) = (Returns (Json data), s1) ->
       (is_object data = false ->
        fst (create_project_with_tasks serve progress_callback t d repo w)
        = Ok ("Error creating project: '" ++ type_name data
              ++ "' object has no attribute 'get'")%string)
       /\ (forall succ error,
             get data "success" (JBool false) = Ok succ ->
             truthy succ = false ->
             get data "error" (JStr "Unknown error") = Ok (JStr error) ->
             fst (create_project_with_tasks serve progress_callback t d repo w)
             = Ok ("Failed to create project: " ++ error)%string))
    (* listing of update_task_status *)
    /\ (forall (t st : string) (project_id : option string) (w : world S)
               (data : json) (s1 : S),
          let pid := or_else project_id (deps_project_id w) in
          truthy pid = true ->
          in_list st valid_statuses = true ->
          serve (ListTasks "project" pid) (store w) = (Returns (Json data), s1) ->
          (is_object data = false ->
           fst (update_task_status serve t st project_id w)
           = Ok ("Error updating task status: '" ++ type_name data
                 ++ "' object has no attribute 'get'")%string)
          /\ (forall succ,
                get data "success" (JBool false) = Ok succ ->
                truthy succ = false ->
                fst (update_task_status serve t st project_id w)
                = Ok "Error retrieving tasks to find the specified task."))
    (* update of update_task_status, on the located task *)
    /\ (forall (t st : string) (project_id : option string) (w : world S)
               (data succ task data2 : json) (items : list json) (s1 s2 : S),
          let pid := or_else project_id (deps_project_id w) in
          truthy pid = true ->
          in_list st valid_statuses = true ->
          serve (ListTasks "project" pid) (store w) = (Returns (Json data), s1) ->
          get data "success" (JBool false) = Ok succ ->
          truthy succ = true ->
          get data "tasks" (JArr []) = Ok (JArr items) ->
          forallb listed items = true ->
          find (title_contains t) items = Some task ->
          serve (UpdateTask (id_of task) [("status", st)]) s1 = (Returns (Json data2), s2) ->
          (is_object data2 = false ->
           fst (update_task_status serve t st project_id w)
           = Ok ("Error updating task status: '" ++ type_name data2
                 ++ "' object has no attribute 'get'")%string)
          /\ (forall succ2 error,
                get data2 "success" (JBool false) = Ok succ2 ->
                truthy succ2 = false ->
                get data2 "error" (JStr "Unknown error") = Ok (JStr error) ->
                fst (update_task_status serve t st project_id w)
                = Ok ("Failed to update task status: " ++ error)%string)).
Proof.
  intros L R S serve progress_callback. split; [|split].
  - intros t d repo w data s1 Hcb Hserve.
    assert (Hprogress :
              progress progress_callback "project_creation" ("🚀 Creating project: " ++ t) w
              = (Ok tt, w)).
    { unfold progress, returns_for in *. destruct progress_callback as [cb|].
      - unfold lift. rewrite Hcb. reflexivity.
      - reflexivity. }
    split.
    + intros Hmalformed.
      unfold create_project_with_tasks, try_except.
      unfold bind at 1. rewrite Hprogress.
      unfold bind at 1. unfold call. rewrite Hserve.
      unfold bind at 1. unfold lift at 1. cbn [json_loads].
      unfold bind at 1. unfold lift at 1.
      rewrite get_non_object by exact Hmalformed. reflexivity.
    + intros succ error Hsucc Hfalse Herror.
      unfold create_project_with_tasks, try_except.
      unfold bind at 1. rewrite Hprogress.
      unfold bind at 1. unfold call. rewrite Hserve.
      unfold bind at 1. unfold lift at 1. cbn [json_loads].
      unfold bind at 1. unfold lift at 1. rewrite Hsucc, Hfalse. cbn [negb].
      unfold bind, lift. rewrite Herror. reflexivity.
  - intros t st project_id w data s1 pid Hpid Hvalid Hserve. split.
    + intros Hmalformed.
      unfold update_task_status, try_except.
      unfold bind at 1. unfold get_deps_project_id. fold pid.
      rewrite Hpid, Hvalid. cbn [negb].
      unfold bind at 1. unfold call. rewrite Hserve.
      unfold bind at 1. unfold lift at 1. cbn [json_loads].
      unfold bind at 1. unfold lift at 1.
      rewrite get_non_object by exact Hmalformed. reflexivity.
    + intros succ Hsucc Hfalse.
      unfold update_task_status, try_except.
      unfold bind at 1. unfold get_deps_project_id. fold pid.
      rewrite Hpid, Hvalid. cbn [negb].
      unfold bind at 1. unfold call. rewrite Hserve.
      unfold bind at 1. unfold lift at 1. cbn [json_loads].
      unfold bind at 1. unfold lift at 1. rewrite Hsucc, Hfalse. reflexivity.
  - intros t st project_id w data succ task data2 items s1 s2 pid
           Hpid Hvalid Hserve Hsucc Htruthy Htasks Hlisted Hfind Hupdate.
    rewrite (@update_task_status_listing L R S serve t st project_id w data succ items s1
               Hpid Hvalid Hserve Hsucc Htruthy Htasks Hlisted).
    rewrite Hfind.
    apply (@update_first_match_responses R S serve task st _ data2 s2).
    + exact (@listed_is_object task (@find_In_listed _ items task Hlisted Hfind)).
    + exact Hupdate.
Qed.

Lemma malformed_and_failed_responses_witness :
  fst (create_project_with_tasks scripted None "Shop" "Online shop" None
         (start [failure_envelope "title already taken"] JNull))
  = Ok "Failed to create project: title already taken"
  /\ fst (create_project_with_tasks scripted None "Shop" "Online shop" None
            (start [Returns (Json (JArr []))] JNull))
     = Ok "Error creating project: 'list' object has no attribute 'get'".
Proof.
  pose proof (proj1 (@malformed_and_failed_responses ascii_Lower plain_Repr
                       (list reply) scripted None)) as H.
  split.
  - exact (proj2 (H "Shop" "Online shop" None
                    (start [failure_envelope "title already taken"] JNull)
                    _ _ I eq_refl)
                 (JBool false) "title already taken" eq_refl eq_refl eq_refl).
  - exact (proj1 (H "Shop" "Online shop" None
                    (start [Returns (Json (JArr []))] JNull)
                    _ _ I eq_refl)
                 eq_refl).
Defined.

(** ** The agents service client *)

Module AgentsServiceFacts.
Import AgentsServiceClient.

Section ClientFacts.
Variable H : Type.
Variable transport : http_request -> H -> http_reply * H.

(** One run of the shared body under the two handlers: one request, and a
    value in every case. *)
Lemma run_agent_handled (name : string) (request_data : json) (w : world H) :
  let r := Http "POST" "/agents/run" request_data in
  exists errs,
    try_except (run_agent transport request_data) (agent_handlers (H := H) name) w
    = (Ok (answer_for (fst (transport r (service w)))),
       World (snd (transport r (service w))) (requests w ++ [r]) errs).
Proof.
  intros r. unfold try_except, run_agent, bind, send, lift, ret. fold r.
  destruct (transport r (service w)) as [[e | [status|] content] h']; cbn [fst snd].
  - unfold agent_handlers, answer_for, agent_error, bind, logger_error, ret.
    destruct (is_http_error e); eexists; reflexivity.
  - unfold agent_handlers, bind, logger_error, ret. cbn. eexists; reflexivity.
  - destruct content as [e | data]; cbn [json_loads].
    + unfold agent_handlers, answer_for, agent_error, bind, logger_error, ret.
      destruct (is_http_error e); eexists; reflexivity.
    + destruct data; cbn; eexists; reflexivity.
Qed.

End ClientFacts.

(** C8, against the claim as stated.  [health_check] is a remote call of the
    service client; on a transport failure it returns an envelope that has
    no success field, and an error string that is the bare exception
    text. *)
Lemma health_check_failure_envelope :
  let run := health_check (always (Fails (Exn HTTPError "connection refused"))) fresh in
  fst run = Ok (JObj [("status", JStr "unhealthy"); ("error", JStr "connection refused")])
  /\ lookup "success" [("status", JStr "unhealthy"); ("error", JStr "connection refused")]
     = None.
Proof. vm_compute. split; reflexivity. Qed.

(** C8, amended.  The two agent calls, [call_document_agent] and
    [call_rag_agent], never raise and send exactly one request: an
    [httpx.HTTPError] (transport failure or error status) gives the envelope
    with success false and the error "HTTP error: ...", any other exception
    (also a body that is not JSON or not an object) gives the envelope with
    success false and the error "Unexpected error: ...", and an object body
    is returned as it is.  [health_check] never raises and sends exactly one
    request too, but its failure envelope is status "unhealthy" with the
    bare error text, for every exception alike. *)
Theorem service_calls_never_raise_nor_retry :
  forall (H : Type) (transport : http_request -> H -> http_reply * H) (w : world H),
    (forall (prompt project_id : string) (user_id : option string)
            (context : option (list (string * json))),
       let r := Http "POST" "/agents/run"
                  (document_request prompt project_id user_id context) in
       exists errs,
         call_document_agent transport prompt project_id user_id context w
         = (Ok (answer_for (fst (transport r (service w)))),
            World (snd (transport r (service w))) (requests w ++ [r]) errs))
    /\ (forall (prompt : string) (project_id source_filter : option string)
               (match_count : Z) (context : option (list (string * json))),
          let r := Http "POST" "/agents/run"
                     (rag_request prompt project_id source_filter match_count context) in
          exists errs,
            call_rag_agent transport prompt project_id source_filter match_count context w
            = (Ok (answer_for (fst (transport r (service w)))),
               World (snd (transport r (service w))) (requests w ++ [r]) errs))
    /\ (let r := Http "GET" "/health" JNull in
        exists errs,
          health_check transport w
          = (Ok (match fst (transport r (service w)) with
                 | Fails e => JObj [("status", JStr "unhealthy"); ("error", JStr (str_exn e))]
                 | Responds (Some status) _ =>
                     JObj [("status", JStr "unhealthy"); ("error", JStr status)]
                 | Responds None (NotJson e) =>
                     JObj [("status", JStr "unhealthy"); ("error", JStr (str_exn e))]
                 | Responds None (Json data) => data
                 end),
             World (snd (transport r (service w))) (requests w ++ [r]) errs))
    /\ (forall e,
          answer_for (Fails e)
          = JObj [("success", JBool false);
                  ("error", JStr ((if is_http_error e then "HTTP error: "
                                   else "Unexpected error: ") ++ str_exn e));
                  ("result", JNull)]).
Proof.
  intros H transport w. split; [|split; [|split]].
  - intros prompt project_id user_id context r.
    apply (run_agent_handled transport "document").
  - intros prompt project_id source_filter match_count context r.
    apply (run_agent_handled transport "RAG").
  - intros r. unfold health_check, try_except, bind, send, lift, ret, logger_error.
    fold r.
    destruct (transport r (service w)) as [[e | [status|] content] h']; cbn [fst snd].
    + eexists; reflexivity.
    + eexists; reflexivity.
    + destruct content as [e | data]; cbn; eexists; reflexivity.
  - intros e. reflexivity.
Qed.

End AgentsServiceFacts.

(** ** Project health *)

Import Float64 Health.

Section FloatFacts.
Local Open Scope Z_scope.

(** *** Magnitudes through rounding

    No real numbers are needed to see that the analysis never overflows: it
    is enough to carry, through every operation, a power of two above the
    value.  [fits K m e] bounds a mantissa and exponent, [small K x] a
    float. *)

(** A positive with [d] binary digits is at least [2^(d-1)]. *)
Lemma digits_lower (p : positive) : 2 ^ (Zpos (digits2_pos p) - 1) <= Zpos p.
Proof.
  induction p as [p IH | p IH |]; cbn [digits2_pos].
  - rewrite Pos2Z.inj_succ. replace (Z.succ (Zpos (digits2_pos p)) - 1) with (Z.succ (Zpos (digits2_pos p) - 1)) by lia.
    rewrite Z.pow_succ_r by lia. lia.
  - rewrite Pos2Z.inj_succ. replace (Z.succ (Zpos (digits2_pos p)) - 1) with (Z.succ (Zpos (digits2_pos p) - 1)) by lia.
    rewrite Z.pow_succ_r by lia. lia.
  - reflexivity.
Qed.

Lemma digits_bound (m K e : Z) :
  0 < m -> m < 2 ^ (K - e) -> Zdigits2 m + e <= K.
Proof.
  intros Hm Hlt. destruct m as [|p|p]; try lia. cbn [Zdigits2].
  pose proof (digits_lower p) as Hd.
  assert (2 ^ (Zpos (digits2_pos p) - 1) < 2 ^ (K - e)) by lia.
  destruct (Z.le_gt_cases (K - e) (Zpos (digits2_pos p) - 1)) as [Hle|Hgt]; [|lia].
  apply (Z.pow_le_mono_r 2) in Hle; lia.
Qed.

(** A right shift by one bit halves the mantissa, rounding down. *)
Lemma shr_1_m (mrs : shr_record) :
  0 <= shr_m mrs -> 0 <= shr_m (shr_1 mrs) /\ 2 * shr_m (shr_1 mrs) <= shr_m mrs.
Proof.
  destruct mrs as [m r s]. cbn [shr_m]. intros Hm.
  destruct m as [|[p|p|]|p]; cbn; lia.
Qed.

Lemma iter_shr_1_m (p : positive) :
  forall mrs, 0 <= shr_m mrs ->
    0 <= shr_m (iter_pos shr_1 p mrs)
    /\ 2 ^ Zpos p * shr_m (iter_pos shr_1 p mrs) <= shr_m mrs.
Proof.
  induction p as [p IH | p IH |]; intros mrs Hm; cbn [iter_pos].
  - destruct (shr_1_m mrs Hm) as [H0 H1].
    destruct (IH _ H0) as [H2 H3]. destruct (IH _ H2) as [H4 H5].
    split; [exact H4|].
    replace (Zpos p~1) with (Zpos p + Zpos p + 1) by lia.
    rewrite !Z.pow_add_r by lia. change (2 ^ 1) with 2.
    assert (0 < 2 ^ Zpos p) by (apply Z.pow_pos_nonneg; lia). nia.
  - destruct (IH _ Hm) as [H2 H3]. destruct (IH _ H2) as [H4 H5].
    split; [exact H4|].
    replace (Zpos p~0) with (Zpos p + Zpos p) by lia.
    rewrite !Z.pow_add_r by lia.
    assert (0 < 2 ^ Zpos p) by (apply Z.pow_pos_nonneg; lia). nia.
  - destruct (shr_1_m mrs Hm) as [H0 H1]. split; [exact H0|]. change (2 ^ 1) with 2. lia.
Qed.

Lemma shr_record_of_loc_m (m : Z) (l : location) : shr_m (shr_record_of_loc m l) = m.
Proof. destruct l as [|[]]; reflexivity. Qed.

Lemma pow_split (a b : Z) : 0 <= a -> 0 <= b -> 2 ^ (a + b) = 2 ^ a * 2 ^ b.
Proof. intros; apply Z.pow_add_r; assumption. Qed.

(** Shifting to the canonical exponent keeps the bound. *)
Lemma shr_fexp_fits (K m e : Z) (l : location) :
  0 <= K -> fits K m e ->
  fits K (shr_m (fst (shr_fexp prec emax m e l))) (snd (shr_fexp prec emax m e l)).
Proof.
  intros HK (Hm & He & Hlt). unfold shr_fexp, shr.
  destruct (fexp prec emax (Zdigits2 m + e) - e) as [|p|p] eqn:Hn; cbn [fst snd];
    try (rewrite shr_record_of_loc_m; repeat split; assumption).
  assert (Hexp : e + Zpos p < K).
  { unfold fexp, SpecFloat.emin, prec, emax in Hn.
    destruct (Z.eq_dec m 0) as [->|Hnz].
    - cbn [Zdigits2] in Hn. lia.
    - pose proof (@digits_bound m K e ltac:(lia) Hlt). lia. }
  destruct (@iter_shr_1_m p (shr_record_of_loc m l)) as [H0 H1];
    [rewrite shr_record_of_loc_m; exact Hm|].
  rewrite shr_record_of_loc_m in H1.
  repeat split; [exact H0 | exact Hexp |].
  replace (K - e) with ((K - (e + Zpos p)) + Zpos p) in Hlt by lia.
  rewrite pow_split in Hlt by lia.
  assert (0 < 2 ^ Zpos p) by (apply Z.pow_pos_nonneg; lia).
  assert (0 < 2 ^ (K - (e + Zpos p))) by (apply Z.pow_pos_nonneg; lia).
  nia.
Qed.

Lemma round_nearest_even_range (m : Z) (l : location) :
  m <= round_nearest_even m l <= m + 1.
Proof. destruct l as [|[]]; cbn; try lia. destruct (Z.even m); lia. Qed.

Lemma fits_succ (K m e : Z) : fits K m e -> fits (K + 1) (m + 1) e.
Proof.
  intros (Hm & He & Hlt). repeat split; try lia.
  replace (K + 1 - e) with ((K - e) + 1) by lia.
  rewrite pow_split by lia. change (2 ^ 1) with 2. lia.
Qed.

Lemma fits_le (K m m' e : Z) : 0 <= m' <= m -> fits K m e -> fits K m' e.
Proof. intros H (Hm & He & Hlt). repeat split; lia. Qed.

(** Rounding to nearest at most doubles the bound, and with a bound this
    far from [2^emax] the result is never an infinity. *)
Lemma round_small (K m e : Z) (l : location) :
  0 <= K <= 970 -> fits K m e -> small (K + 1) (round false m e l).
Proof.
  intros HK Hfits. unfold round, binary_round_aux.
  pose proof (@shr_fexp_fits K m e l ltac:(lia) Hfits) as H1.
  destruct (shr_fexp prec emax m e l) as [mrs' e']. cbn [fst snd] in H1.
  pose proof (round_nearest_even_range (shr_m mrs') (loc_of_shr_record mrs')) as Hr.
  assert (H2 : fits (K + 1) (round_nearest_even (shr_m mrs') (loc_of_shr_record mrs')) e').
  { apply (@fits_le (K + 1) (shr_m mrs' + 1)); [destruct H1; lia|].
    apply fits_succ; exact H1. }
  pose proof (@shr_fexp_fits (K + 1) _ e' loc_Exact ltac:(lia) H2) as H3.
  destruct (shr_fexp prec emax _ e' loc_Exact) as [mrs'' e'']. cbn [fst snd] in H3.
  destruct (shr_m mrs'') as [|p|p] eqn:Hm''.
  - exact I.
  - assert (Hle : (e'' <=? emax - prec) = true).
    { apply Z.leb_le. unfold emax, prec. destruct H3 as (_ & He & _). lia. }
    rewrite Hle. exact H3.
  - destruct H3 as (Hneg & _). lia.
Qed.

Lemma small_zero_or_fits (K : Z) (x : spec_float) :
  small K x -> x = S754_zero false \/ exists m e, x = S754_finite false m e /\ fits K (Zpos m) e.
Proof.
  destruct x as [[|]|[|]| |[|] m e]; cbn; intros H; try contradiction.
  - left; reflexivity.
  - right; exists m, e; split; [reflexivity | exact H].
Qed.

(** *** The operations of the score *)

Lemma mul_small (K1 K2 : Z) (x y : spec_float) :
  0 <= K1 -> 0 <= K2 -> K1 + K2 <= 970 ->
  small K1 x -> small K2 y -> small (K1 + K2 + 1) (mul x y).
Proof.
  intros H1 H2 H12 Hx Hy.
  destruct (small_zero_or_fits _ _ Hx) as [-> | (mx & ex & -> & Hmx & Hex & Hltx)];
  destruct (small_zero_or_fits _ _ Hy) as [-> | (my & ey & -> & Hmy & Hey & Hlty)];
    try exact I.
  unfold mul, SFmul. cbn [xorb].
  apply round_small; [lia|].
  repeat split; try lia.
  rewrite Pos2Z.inj_mul.
  replace (K1 + K2 - (ex + ey)) with ((K1 - ex) + (K2 - ey)) by lia.
  rewrite pow_split by lia. nia.
Qed.

(** [Pos.iter xO m d] is the left shift of [m] by [d] bits. *)
Lemma iter_xO (d m : positive) : Zpos (Pos.iter xO m d) = Zpos m * 2 ^ Zpos d.
Proof.
  revert m. induction d as [|d IH] using Pos.peano_ind; intros m.
  - cbn [Pos.iter]. change (2 ^ 1) with 2. lia.
  - rewrite Pos.iter_succ, Pos2Z.inj_succ, Z.pow_succ_r by lia.
    rewrite Pos2Z.inj_xO, IH. lia.
Qed.

Lemma shl_align_value (m : positive) (e e' : Z) :
  let r := shl_align m e e' in
  snd r <= e /\ Zpos (fst r) = Zpos m * 2 ^ (e - snd r) /\ (snd r = e \/ snd r = e').
Proof.
  unfold shl_align. destruct (e' - e) as [|d|d] eqn:Hd; cbn [fst snd].
  - rewrite Z.sub_diag. cbn. lia.
  - rewrite Z.sub_diag. cbn. lia.
  - rewrite iter_xO. replace (e - e') with (Zpos d) by lia. lia.
Qed.

Lemma fits_shl (K : Z) (m : positive) (e e' : Z) :
  fits K (Zpos m) e ->
  fits K (Zpos (fst (shl_align m e e'))) (snd (shl_align m e e')).
Proof.
  intros (Hm & He & Hlt).
  destruct (shl_align_value m e e') as (Hle & Hval & _).
  repeat split; try lia.
  rewrite Hval.
  replace (K - snd (shl_align m e e')) with ((K - e) + (e - snd (shl_align m e e'))) by lia.
  rewrite pow_split by lia.
  assert (0 < 2 ^ (e - snd (shl_align m e e'))) by (apply Z.pow_pos_nonneg; lia).
  nia.
Qed.

Lemma binary_round_small (K : Z) (m : positive) (e : Z) :
  0 <= K <= 970 -> fits K (Zpos m) e ->
  small (K + 1) (binary_round prec emax false m e).
Proof.
  intros HK Hfits. unfold binary_round.
  pose proof (@fits_shl K m e (fexp prec emax (Zpos (digits2_pos m) + e)) Hfits) as H.
  destruct (shl_align m e _) as [mz ez]. cbn [fst snd] in H.
  apply (@round_small K (Zpos mz) ez loc_Exact HK H).
Qed.

Lemma add_small (K : Z) (x y : spec_float) :
  0 <= K <= 969 -> small K x -> small K y -> small (K + 2) (add x y).
Proof.
  intros HK Hx Hy.
  assert (Hweak : forall z, small K z -> small (K + 2) z).
  { intros z Hz. destruct (small_zero_or_fits _ _ Hz) as [-> | (m & e & -> & Hm & He & Hlt)];
      [exact I|].
    repeat split; try lia.
    replace (K + 2 - e) with ((K - e) + 2) by lia. rewrite pow_split by lia.
    change (2 ^ 2) with 4. lia. }
  destruct (small_zero_or_fits _ _ Hx) as [-> | (mx & ex & -> & Hfx)];
  destruct (small_zero_or_fits _ _ Hy) as [-> | (my & ey & -> & Hfy)].
  - exact I.
  - exact (Hweak _ Hy).
  - exact (Hweak _ Hx).
  - unfold add, SFadd. cbn [cond_Zopp].
    set (ez := Z.min ex ey).
    destruct (shl_align_value mx ex ez) as (Hlx & Hvx & Hsx).
    destruct (shl_align_value my ey ez) as (Hly & Hvy & Hsy).
    destruct Hfx as (_ & Hex & Hltx). destruct Hfy as (_ & Hey & Hlty).
    assert (Hsx' : snd (shl_align mx ex ez) = ez).
    { destruct Hsx as [E|E]; [|exact E]. unfold shl_align in *.
      destruct (ez - ex) as [|d|d] eqn:Hd; cbn [snd] in *; lia. }
    assert (Hsy' : snd (shl_align my ey ez) = ez).
    { destruct Hsy as [E|E]; [|exact E]. unfold shl_align in *.
      destruct (ez - ey) as [|d|d] eqn:Hd; cbn [snd] in *; lia. }
    rewrite Hsx' in Hvx. rewrite Hsy' in Hvy.
    assert (Hx2 : Zpos (fst (shl_align mx ex ez)) < 2 ^ (K - ez)).
    { rewrite Hvx. replace (K - ez) with ((K - ex) + (ex - ez)) by lia.
      rewrite pow_split by lia.
      assert (0 < 2 ^ (ex - ez)) by (apply Z.pow_pos_nonneg; lia). nia. }
    assert (Hy2 : Zpos (fst (shl_align my ey ez)) < 2 ^ (K - ez)).
    { rewrite Hvy. replace (K - ez) with ((K - ey) + (ey - ez)) by lia.
      rewrite pow_split by lia.
      assert (0 < 2 ^ (ey - ez)) by (apply Z.pow_pos_nonneg; lia). nia. }
    destruct (Zpos (fst (shl_align mx ex ez)) + Zpos (fst (shl_align my ey ez)))
      as [|s|s] eqn:Hs; try lia.
    unfold binary_normalize.
    replace (K + 2) with ((K + 1) + 1) by lia.
    apply binary_round_small; [lia|].
    repeat split; try lia.
    replace (K + 1 - ez) with ((K - ez) + 1) by lia. rewrite pow_split by lia.
    change (2 ^ 1) with 2. lia.
Qed.

(** A quotient of two positive integers [a <= b] is below 2. *)
Lemma nearest_quotient_small (a b : Z) :
  0 < a <= b -> small 2 (nearest_quotient false a b).
Proof.
  intros Hab. unfold nearest_quotient, SFdiv_core_binary.
  set (e' := Z.min (fexp prec emax (Zdigits2 a + 0 - (Zdigits2 b + 0))) (0 - 0)).
  assert (He' : e' <= 0) by (unfold e'; lia).
  set (m' := match 0 - 0 - e' with
             | Zpos _ => Z.shiftl a (0 - 0 - e')
             | Z0 => a
             | Zneg _ => 0
             end).
  assert (Hm' : m' = a * 2 ^ (- e')).
  { unfold m'. destruct (0 - 0 - e') as [|p|p] eqn:Hs; try lia.
    - replace (- e') with 0 by lia. cbn. lia.
    - rewrite Z.shiftl_mul_pow2 by lia. f_equal. f_equal. lia. }
  pose proof (Z_div_mod m' b ltac:(lia)) as Hdiv.
  destruct (Z.div_eucl m' b) as [q r]. destruct Hdiv as [Hq Hr].
  apply (@round_small 1 q e' (new_location b r)); [lia|].
  assert (Hpow : 0 < 2 ^ (- e')) by (apply Z.pow_pos_nonneg; lia).
  assert (Hq0 : 0 <= q) by nia.
  assert (Hq1 : q <= 2 ^ (- e')) by nia.
  repeat split; try lia.
  replace (1 - e') with ((- e') + 1) by lia. rewrite pow_split by lia.
  change (2 ^ 1) with 2. lia.
Qed.

Lemma truediv_small (a b : Z) :
  0 <= a <= b -> 0 < b -> exists x, truediv a b = Ok x /\ small 2 x.
Proof.
  intros Hab Hb. unfold truediv.
  replace (b =? 0) with false by (symmetry; apply Z.eqb_neq; lia).
  replace (a <? 0) with false by (symmetry; apply Z.ltb_ge; lia).
  replace (b <? 0) with false by (symmetry; apply Z.ltb_ge; lia).
  cbn [xorb]. destruct (a =? 0) eqn:Ha.
  - exists (S754_zero false). split; [reflexivity | exact I].
  - apply Z.eqb_neq in Ha.
    rewrite !Z.abs_eq by lia.
    pose proof (@nearest_quotient_small a b ltac:(lia)) as Hs.
    destruct (nearest_quotient false a b) as [[|]|[|]| |[|] m e] eqn:E;
      cbn in Hs; try contradiction.
    + exists (S754_zero false). split; [reflexivity | exact I].
    + exists (S754_finite false m e). split; [reflexivity | exact Hs].
Qed.

Lemma int_of_small (K : Z) (x : spec_float) :
  small K x -> exists n, int_of x = Ok n /\ 0 <= n.
Proof.
  intros Hx. destruct (small_zero_or_fits _ _ Hx) as [-> | (m & e & -> & _)].
  - exists 0. split; [reflexivity | lia].
  - exists (Z.shiftl (Zpos m) e). split; [reflexivity|].
    apply Z.shiftl_nonneg. lia.
Qed.

Lemma of_int_small : small 3 (of_int 6) /\ small 3 (of_int 4) /\ small 4 (of_int 10).
Proof. vm_compute. repeat split; discriminate || reflexivity. Qed.

Lemma weighted_small (c a : spec_float) :
  small 2 c -> small 2 a -> small 8 (Health.weighted c a).
Proof.
  intros Hc Ha. destruct of_int_small as (H6 & H4 & _).
  unfold Health.weighted.
  apply (@add_small 6); [lia | |].
  - apply (@mul_small 2 3); try lia; assumption.
  - apply (@mul_small 2 3); try lia; assumption.
Qed.

Lemma score_range (c a : spec_float) :
  small 2 c -> small 2 a -> exists n, Health.score c a = Ok n /\ 0 <= n <= 10.
Proof.
  intros Hc Ha. destruct of_int_small as (_ & _ & H10).
  pose proof (@mul_small 8 4 _ _ ltac:(lia) ltac:(lia) ltac:(lia)
                (weighted_small _ _ Hc Ha) H10) as Hs.
  destruct (int_of_small _ _ Hs) as (n & Hn & Hpos).
  exists (Z.min 10 n). unfold Health.score. rewrite Hn. split; [reflexivity | lia].
Qed.

(** *** Rounding errors

    To compare the score with the formula in exact arithmetic the value of
    a float is counted in units of [2^-1074], which makes it an integer,
    and every operation is followed by a bound on how far rounding moved
    it. *)












(** *** Values in units of [2^-1074] *)
















End FloatFacts.

Section CountFacts.

(** *** The counting loop *)

Lemma counter_bump (k k' : string) (c : counters) :
  counter k (bump k' c) = counter k c + (if (k' =? k)%string then 1 else 0).
Proof.
  induction c as [|[k0 n] rest IH]; cbn [bump counter].
  - reflexivity.
  - destruct (k0 =? k')%string eqn:E0; cbn [counter].
    + apply String.eqb_eq in E0. subst k0.
      destruct (k' =? k)%string; lia.
    + destruct (k0 =? k)%string eqn:E1.
      * apply String.eqb_eq in E1. subst k0. rewrite String.eqb_sym, E0. lia.
      * exact IH.
Qed.

Lemma count_hashable (key : json) (c : counters) :
  hashable key = true ->
  exists c', count key c = Ok c'
    /\ forall k, counter k c'
                 = counter k c + (match key with
                                  | JStr s => if (s =? k)%string then 1 else 0
                                  | _ => 0
                                  end).
Proof.
  intros Hh. destruct key; try discriminate; cbn [count];
    try (exists c; split; [reflexivity | intros k; lia]).
  exists (bump s c). split; [reflexivity | intros k; apply counter_bump].
Qed.

Lemma well_formed_task (task : json) :
  well_formed task = true ->
  exists status assignee,
    get task "status" (JStr "todo") = Ok status
    /\ get task "assignee" (JStr "User") = Ok assignee
    /\ hashable status = true /\ hashable assignee = true.
Proof.
  destruct task as [| | | | | |fields]; try discriminate. cbn [well_formed get].
  destruct (lookup "status" fields) as [s|], (lookup "assignee" fields) as [a|];
    intros H; eexists _, _; repeat split; try reflexivity;
    try (apply andb_prop in H; destruct H; assumption); assumption.
Qed.

Lemma has_status_get (k : string) (task status : json) :
  get task "status" (JStr "todo") = Ok status ->
  (match status with JStr s => if (s =? k)%string then 1 else 0 | _ => 0 end)
  = length (filter (has_status k) [task]).
Proof.
  intros E. cbn [filter]. unfold has_status. rewrite E.
  destruct status; try reflexivity. destruct (s =? k)%string; reflexivity.
Qed.


Lemma number_with_le (k : string) (tasks : list json) :
  number_with k tasks <= length tasks.
Proof. unfold number_with. apply filter_length_le. Qed.

Lemma number_with_disjoint (k1 k2 : string) (tasks : list json) :
  k1 <> k2 -> number_with k1 tasks + number_with k2 tasks <= length tasks.
Proof.
  intros Hne. unfold number_with.
  induction tasks as [|task rest IH]; cbn [filter length]; [lia|].
  assert (H : has_status k1 task && has_status k2 task = false).
  { unfold has_status. destruct (get task "status" (JStr "todo")) as [[| | | |s| |]|];
      try reflexivity.
    destruct (s =? k1)%string eqn:E1, (s =? k2)%string eqn:E2; try reflexivity.
    apply String.eqb_eq in E1, E2. congruence. }
  destruct (has_status k1 task), (has_status k2 task); cbn [length] in *;
    try discriminate; lia.
Qed.


Lemma number_with_three (k1 k2 k3 : string) (tasks : list json) :
  k1 <> k2 -> k1 <> k3 -> k2 <> k3 ->
  number_with k1 tasks + (number_with k2 tasks + number_with k3 tasks) <= length tasks.
Proof.
  intros H12 H13 H23. unfold number_with.
  induction tasks as [|task rest IH]; cbn [filter length]; [lia|].
  assert (H : (has_status k1 task && has_status k2 task = false)
              /\ (has_status k1 task && has_status k3 task = false)
              /\ (has_status k2 task && has_status k3 task = false)).
  { unfold has_status. destruct (get task "status" (JStr "todo")) as [[| | | |s| |]|];
      try (repeat split; reflexivity).
    destruct (s =? k1)%string eqn:E1, (s =? k2)%string eqn:E2, (s =? k3)%string eqn:E3;
      repeat split; try reflexivity;
      repeat match goal with
             | E : (_ =? _)%string = true |- _ => apply String.eqb_eq in E
             end; congruence. }
  destruct H as (Ha & Hb & Hc).
  destruct (has_status k1 task), (has_status k2 task), (has_status k3 task);
    cbn [length] in *; try discriminate; lia.
Qed.

End CountFacts.

Section HealthFacts.

(** The rates of a non-empty well-formed list are computed without error
    and are small. *)
Lemma rates_small (tasks : list json) :
  tasks <> [] ->
  exists c a,
    truediv (Z.of_nat (number_with "done" tasks)) (Z.of_nat (length tasks)) = Ok c
    /\ truediv (Z.of_nat (number_with "doing" tasks + number_with "review" tasks))
               (Z.of_nat (length tasks)) = Ok a
    /\ small 2 c /\ small 2 a.
Proof.
  intros Hne.
  assert (Hlen : 0 < length tasks) by (destruct tasks; [congruence | cbn; lia]).
  pose proof (number_with_le "done" tasks) as Hd.
  pose proof (@number_with_disjoint "doing" "review" tasks ltac:(discriminate)) as Ha.
  destruct (@truediv_small (Z.of_nat (number_with "done" tasks)) (Z.of_nat (length tasks))
              ltac:(lia) ltac:(lia)) as (c & Ec & Hc).
  destruct (@truediv_small
              (Z.of_nat (number_with "doing" tasks + number_with "review" tasks))
              (Z.of_nat (length tasks)) ltac:(lia) ltac:(lia)) as (a & Ea & Hsa).
  exists c, a. repeat split; assumption.
Qed.

End HealthFacts.





Section WeightedFacts.
Local Open Scope Z_scope.

(** A positive integer divided by itself is exactly 1.0. *)
Lemma truediv_self (n : Z) : 0 < n -> truediv n n = Ok (of_int 1).
Proof.
  intros Hn. unfold truediv.
  replace (n =? 0) with false by (symmetry; apply Z.eqb_neq; lia).
  replace (n <? 0) with false by (symmetry; apply Z.ltb_ge; lia).
  cbn [xorb]. rewrite Z.abs_eq by lia.
  unfold nearest_quotient, SFdiv_core_binary.
  replace (Zdigits2 n + 0 - (Zdigits2 n + 0)) with 0 by lia.
  change (Z.min (fexp prec emax 0) (0 - 0)) with (-53).
  change (0 - 0 - -53) with 53. cbv iota.
  rewrite Z.shiftl_mul_pow2 by lia.
  pose proof (Z_div_mod (n * 2 ^ 53) n ltac:(lia)) as Hdiv.
  destruct (Z.div_eucl (n * 2 ^ 53) n) as [q r]. destruct Hdiv as [Hq Hr].
  assert (Hq' : q = 2 ^ 53) by nia.
  assert (Hr' : r = 0) by nia.
  subst q r.
  replace (new_location n 0) with loc_Exact
    by (unfold new_location; destruct (Z.even n); reflexivity).
  vm_compute. reflexivity.
Qed.

End WeightedFacts.

(** C5, against the claim as stated.  For the four tasks with statuses done,
    doing, todo, todo both rates are 0.25 and the bracketed term is 2.5,
    which is not at most 1; ten times the term truncates to 25, so the
    clamp decides the score. *)
Lemma weighted_term_exceeds_one :
  exists c a,
    truediv (Z.of_nat (number_with "done" mix)) (Z.of_nat (length mix)) = Ok c
    /\ truediv (Z.of_nat (number_with "doing" mix + number_with "review" mix))
               (Z.of_nat (length mix)) = Ok a
    /\ weighted c a = literal 5 2
    /\ SFleb (weighted c a) (of_int 1) = false
    /\ int_of (mul (weighted c a) (of_int 10)) = Ok 25%Z.
Proof.
  exists (literal 25 100), (literal 25 100).
  repeat split; vm_compute; reflexivity.
Qed.

(** C5, amended.  For every non-empty task list both rates are computed
    without error and the bracketed term is a finite non-negative number
    (below 2^8); its exact value (6 done + 4 (doing + review)) / total is at
    most 6, not 1, and the term is exactly 6.0 when every task is done; so
    the clamp to 10 is what keeps the score on the 0-10 scale. *)
Theorem weighted_term_bounds :
  forall tasks : list json,
    tasks <> [] ->
    let done := number_with "done" tasks in
    let active := number_with "doing" tasks + number_with "review" tasks in
    let total := length tasks in
    exists c a,
      truediv (Z.of_nat done) (Z.of_nat total) = Ok c
      /\ truediv (Z.of_nat active) (Z.of_nat total) = Ok a
      /\ small 8 (weighted c a)
      /\ 6 * done + 4 * active <= 6 * total
      /\ (done = total ->
          weighted c a = of_int 6
          /\ int_of (mul (weighted c a) (of_int 10)) = Ok 60%Z).
Proof.
  intros tasks Hne done active total.
  destruct (rates_small Hne) as (c & a & Ec & Ea & Hc & Ha).
  exists c, a. fold done active total in Ec, Ea.
  assert (Hsum : done + active <= total)
    by (unfold done, active, total;
        apply number_with_three; discriminate).
  assert (Hlen : 0 < total) by (unfold total; destruct tasks; [congruence | cbn; lia]).
  split; [exact Ec|]. split; [exact Ea|].
  split; [apply weighted_small; assumption|].
  split; [lia|].
  intros Hall.
  assert (Hactive : active = 0) by lia.
  rewrite Hall, truediv_self in Ec by lia. rewrite Hactive in Ea.
  injection Ec as <-.
  unfold truediv in Ea.
  replace (Z.of_nat total =? 0)%Z with false in Ea by (symmetry; apply Z.eqb_neq; lia).
  replace (Z.of_nat total <? 0)%Z with false in Ea by (symmetry; apply Z.ltb_ge; lia).
  cbn in Ea. injection Ea as <-.
  split; vm_compute; reflexivity.
Qed.

Lemma weighted_term_bounds_witness :
  exists c a,
    truediv (Z.of_nat (number_with "done" mix)) (Z.of_nat (length mix)) = Ok c
    /\ truediv (Z.of_nat (number_with "doing" mix + number_with "review" mix))
               (Z.of_nat (length mix)) = Ok a
    /\ small 8 (weighted c a).
Proof.
  destruct (@weighted_term_bounds mix ltac:(discriminate)) as (c & a & Ec & Ea & Hs & _).
  exists c, a. repeat split; assumption.
Defined.

(** ** Further properties of the agent tools *)

Section ToolFacts.
Context {L : Lower} {R : Repr}.
Variable S : Type.
Variable serve : request -> S -> reply * S.

(** The unguarded loop in general: it stops at the first creation that
    raises, with the requests up to and including that one sent. *)
Lemma create_each_unguarded_general (pid : json) (tasks : list TaskSpec) :
  forall (n : nat) (w : world S),
    let requests := map (CreateTask pid) tasks in
    let replies := fst (answers serve requests (store w)) in
    create_each_unguarded serve pid tasks n w
    = match first_failure replies with
      | None =>
          (Ok (n + confirmed_count replies),
           World (snd (answers serve requests (store w)))
                 (sent w ++ requests) (logged w) (deps_project_id w))
      | Some (k, e) =>
          (Raise e,
           World (snd (answers serve (firstn (Datatypes.S k) requests) (store w)))
                 (sent w ++ firstn (Datatypes.S k) requests)
                 (logged w) (deps_project_id w))
      end.
Proof.
  induction tasks as [|task rest IH]; intros n w.
  - cbn. unfold ret, confirmed_count. cbn.
    rewrite Nat.add_0_r, app_nil_r. destruct w; reflexivity.
  - cbn [create_each_unguarded map answers]. unfold bind.
    destruct (serve (CreateTask pid task) (store w)) as [answer s'] eqn:Hserve.
    destruct (answers serve (map (CreateTask pid) rest) s') as [more s''] eqn:Hmore.
    cbn [fst snd first_failure].
    destruct (outcome answer) as [b|e] eqn:Hout.
    + assert (Hquiet : raising answer = false) by (unfold raising; rewrite Hout; reflexivity).
      rewrite (@create_unguarded_step S serve pid task n w answer s' Hserve Hquiet).
      rewrite IH. cbn [store sent logged deps_project_id]. rewrite Hmore. cbn [fst snd].
      destruct (first_failure more) as [[k e]|].
      * rewrite !firstn_cons. cbn [answers]. rewrite Hserve.
        destruct (answers serve (firstn (Datatypes.S k) (map (CreateTask pid) rest)) s')
          as [more' s3] eqn:Hm'. cbn [snd].
        rewrite <- app_assoc. reflexivity.
      * rewrite confirmed_count_cons, <- app_assoc. cbn [app].
        f_equal. f_equal. lia.
    + rewrite !firstn_cons. cbn [firstn answers]. rewrite Hserve. cbn [snd].
      unfold create_unguarded, bind, call, lift. rewrite Hserve.
      unfold outcome in Hout.
      destruct answer as [e0 | [e0 | data]]; cbn in *.
      * injection Hout as <-. reflexivity.
      * injection Hout as <-. reflexivity.
      * destruct (get data "success" (JBool false)) as [v|e0]; [discriminate|].
        injection Hout as <-. reflexivity.
Qed.

End ToolFacts.

(** X1. Without a project (no project id given and none in the context) the
    tools answer with the fixed message and do nothing else: no request is
    sent, nothing is logged, the context is unchanged. *)
Theorem tools_need_a_project :
  forall (L : Lower) (R : Repr) (S : Type) (serve : request -> S -> reply * S)
         (a b : string) (project_id : option string) (w : world S),
    truthy (or_else project_id (deps_project_id w)) = false ->
    break_down_task serve a b project_id w = (Ok no_project_specified, w)
    /\ update_task_status serve a b project_id w = (Ok no_project_specified, w).
Proof.
  intros L R S serve a b project_id w Hnone.
  unfold break_down_task, update_task_status, try_except, bind, get_deps_project_id.
  rewrite Hnone. split; reflexivity.
Qed.

Lemma tools_need_a_project_witness :
  update_task_status scripted "Design" "done" (Some "") (start [success_envelope] JNull)
  = (Ok no_project_specified, start [success_envelope] JNull).
Proof.
  exact (proj2 (@tools_need_a_project ascii_Lower plain_Repr (list reply) scripted
                  "Design" "done" (Some "") (start [success_envelope] JNull) eq_refl)).
Defined.

(** X2. With a project, a status outside todo, doing, review, done is
    rejected before any request: the message names the status and the four
    valid ones, and the world is unchanged. *)
Theorem update_task_status_rejects_status :
  forall (L : Lower) (R : Repr) (S : Type) (serve : request -> S -> reply * S)
         (t st : string) (project_id : option string) (w : world S),
    truthy (or_else project_id (deps_project_id w)) = true ->
    st <> "todo" -> st <> "doing" -> st <> "review" -> st <> "done" ->
    update_task_status serve t st project_id w
    = (Ok ("Invalid status '" ++ st
           ++ "'. Valid statuses are: todo, doing, review, done")%string, w).
Proof.
  intros L R S serve t st project_id w Hpid H1 H2 H3 H4.
  assert (Hinvalid : in_list st valid_statuses = false).
  { unfold in_list, valid_statuses. cbn [existsb].
    rewrite !(proj2 (String.eqb_neq _ _)) by (intros E; subst; congruence).
    reflexivity. }
  unfold update_task_status, try_except, bind, get_deps_project_id.
  rewrite Hpid, Hinvalid. reflexivity.
Qed.

Lemma update_task_status_rejects_status_witness :
  fst (update_task_status scripted "Design" "closed" (Some "p-1")
         (start [success_envelope] JNull))
  = Ok "Invalid status 'closed'. Valid statuses are: todo, doing, review, done".
Proof.
  rewrite (@update_task_status_rejects_status ascii_Lower plain_Repr (list reply) scripted
             "Design" "closed" (Some "p-1") (start [success_envelope] JNull) eq_refl);
    [reflexivity | discriminate | discriminate | discriminate | discriminate].
Defined.

(** X3. When a creation raises in [break_down_task], the batch stops there:
    the requests sent are the subtasks up to and including the one that
    raised, the later subtasks are never submitted, one record is logged
    and the answer is the error message with the exception text, not a
    count. *)
Theorem break_down_task_stops_at_first_exception :
  forall (L : Lower) (R : Repr) (S : Type) (serve : request -> S -> reply * S)
         (t d : string) (project_id : option string) (w : world S) (k : nat) (e : exn),
    let pid := or_else project_id (deps_project_id w) in
    let requests := map (CreateTask pid) (_analyze_and_break_down_task t d) in
    truthy pid = true ->
    first_failure (fst (answers serve requests (store w))) = Some (k, e) ->
    break_down_task serve t d project_id w
    = (Ok ("Error breaking down task: " ++ str_exn e)%string,
       World (snd (answers serve (firstn (Datatypes.S k) requests) (store w)))
             (sent w ++ firstn (Datatypes.S k) requests)
             (logged w ++ [("Error breaking down task: " ++ str_exn e)%string])
             (deps_project_id w)).
Proof.
  intros L R S serve t d project_id w k e pid requests Hpid Hfail.
  unfold break_down_task, try_except, bind, get_deps_project_id.
  fold pid. rewrite Hpid. cbn [negb].
  rewrite create_each_unguarded_general. fold requests. rewrite Hfail.
  reflexivity.
Qed.

Lemma break_down_task_stops_at_first_exception_witness :
  sent (snd (break_down_task scripted "Build user API endpoint" "" (Some "p-1")
               (start [success_envelope; Raises (Exn HTTPError "timeout");
                       success_envelope] JNull)))
  = firstn 2 (map (CreateTask (JStr "p-1"))
                (_analyze_and_break_down_task "Build user API endpoint" "")).
Proof.
  rewrite (@break_down_task_stops_at_first_exception ascii_Lower plain_Repr (list reply)
             scripted "Build user API endpoint" "" (Some "p-1")
             (start [success_envelope; Raises (Exn HTTPError "timeout");
                     success_envelope] JNull)
             1 (Exn HTTPError "timeout") eq_refl eq_refl).
  reflexivity.
Defined.

(** Case analysis on whatever the code inspects next. *)
Ltac next_case :=
  match goal with
  | |- context [match ?x with _ => _ end] =>
      lazymatch x with
      | context [match _ with _ => _ end] => fail
      | _ => destruct x eqn:?
      end
  end.

(** X4. [update_task_status] never raises: for every store and every input
    it answers with a message, leaves the project of the context as it
    was, and sends nothing, or the listing alone, or the listing followed
    by a single update of the given status. *)
Theorem update_task_status_always_answers :
  forall (L : Lower) (R : Repr) (S : Type) (serve : request -> S -> reply * S)
         (t st : string) (project_id : option string) (w : world S),
    let pid := or_else project_id (deps_project_id w) in
    exists message w',
      update_task_status serve t st project_id w = (Ok message, w')
      /\ deps_project_id w' = deps_project_id w
      /\ (sent w' = sent w
          \/ sent w' = sent w ++ [ListTasks "project" pid]
          \/ exists task_id,
               sent w' = sent w ++ [ListTasks "project" pid;
                                    UpdateTask task_id [("status", st)]]).
Proof.
  intros L R S serve t st project_id w pid.
  unfold update_task_status, update_first_match, update_task_status_failed,
         try_except, bind, get_deps_project_id, lift, ret, call, logger_error.
  fold pid.
  repeat (next_case; cbn [store sent logged deps_project_id fst snd]);
    eexists _, _; (split; [reflexivity|]); (split; [reflexivity|]);
    cbn [sent];
    first [ left; reflexivity
          | right; left; reflexivity
          | right; right; eexists; rewrite <- app_assoc; reflexivity ].
Qed.

(** X5. When the project creation succeeds (and the progress callback, if
    any, returns), [create_project_with_tasks] stores the new project id in
    the context, submits every task of the decomposition for that project
    in order after the project request, and reports the number of
    confirmed creations together with the project id. *)
Theorem create_project_with_tasks_success :
  forall (L : Lower) (R : Repr) (S : Type) (serve : request -> S -> reply * S)
         (progress_callback : option (string -> string -> result unit))
         (t d : string) (repo : option string) (w : world S)
         (data succ pid : json) (s1 : S),
    returns_for progress_callback "project_creation" ("🚀 Creating project: " ++ t) ->
    returns_for progress_callback "task_generation"
                "🧠 Analyzing requirements and generating tasks..." ->
    serve (CreateProject t d repo) (store w) = (Returns (Json data), s1) ->
    get data "success" (JBool false) = Ok succ ->
    truthy succ = true ->
    get data "project_id" JNull = Ok pid ->
    let requests := map (CreateTask pid) (project_tasks t d) in
    let replies := fst (answers serve requests s1) in
    create_project_with_tasks serve progress_callback t d repo w
    = (Ok (project_created t (confirmed_count replies) pid),
       World (snd (answers serve requests s1))
             (sent w ++ CreateProject t d repo :: requests)
             (logged w ++ error_records (project_tasks t d) replies)
             pid).
Proof.
  intros L R S serve cb t d repo w data succ pid s1 Hcb1 Hcb2 Hserve Hsucc Htruthy Hpid
         requests replies.
  assert (Hprogress : forall step log (w0 : world S),
             returns_for cb step log -> progress cb step log w0 = (Ok tt, w0)).
  { intros step log w0 H. unfold progress, returns_for in *. destruct cb as [f|].
    - unfold lift. rewrite H. reflexivity.
    - reflexivity. }
  unfold create_project_with_tasks, try_except.
  unfold bind at 1. rewrite (Hprogress _ _ w Hcb1).
  unfold bind at 1. unfold call. rewrite Hserve.
  unfold bind at 1. unfold lift at 1. cbn [json_loads].
  unfold bind at 1. unfold lift at 1. rewrite Hsucc, Htruthy. cbn [negb].
  unfold bind at 1. unfold lift at 1. rewrite Hpid.
  unfold bind at 1. unfold set_deps_project_id. cbn [store sent logged].
  unfold bind at 1. rewrite (Hprogress _ _ _ Hcb2).
  unfold bind at 1. unfold _generate_project_tasks.
  rewrite create_each_guarded_run. cbn [store sent logged deps_project_id].
  fold requests. fold replies. unfold ret, project_created.
  rewrite <- app_assoc. reflexivity.
Qed.

Lemma create_project_with_tasks_success_witness :
  fst (create_project_with_tasks scripted None "Custom Project" "Unique logic" None
         (start project_script JNull))
  = Ok "✅ Successfully created project 'Custom Project' with 3 initial tasks. Project ID: p-7".
Proof.
  rewrite (@create_project_with_tasks_success ascii_Lower plain_Repr (list reply) scripted
             None "Custom Project" "Unique logic" None (start project_script JNull)
             _ _ _ _ I I eq_refl eq_refl eq_refl eq_refl).
  vm_compute. reflexivity.
Defined.

(** X6. When the project creation is answered by an envelope without
    success, no task is submitted and the project of the context is left
    as it was; the message carries the error field, or "Unknown error"
    when the envelope has none. *)
Theorem create_project_with_tasks_failure :
  forall (L : Lower) (R : Repr) (S : Type) (serve : request -> S -> reply * S)
         (progress_callback : option (string -> string -> result unit))
         (t d : string) (repo : option string) (w : world S)
         (fields : list (string * json)) (succ : json) (s1 : S),
    returns_for progress_callback "project_creation" ("🚀 Creating project: " ++ t) ->
    serve (CreateProject t d repo) (store w) = (Returns (Json (JObj fields)), s1) ->
    get (JObj fields) "success" (JBool false) = Ok succ ->
    truthy succ = false ->
    create_project_with_tasks serve progress_callback t d repo w
    = (Ok ("Failed to create project: "
           ++ match lookup "error" fields with
              | Some error => py_str error
              | None => "Unknown error"
              end)%string,
       World s1 (sent w ++ [CreateProject t d repo]) (logged w) (deps_project_id w)).
Proof.
  intros L R S serve cb t d repo w fields succ s1 Hcb Hserve Hsucc Hfalse.
  assert (Hprogress : progress cb "project_creation" ("🚀 Creating project: " ++ t) w
                      = (Ok tt, w)).
  { unfold progress, returns_for in *. destruct cb as [f|].
    - unfold lift. rewrite Hcb. reflexivity.
    - reflexivity. }
  unfold create_project_with_tasks, try_except.
  unfold bind at 1. rewrite Hprogress.
  unfold bind at 1. unfold call. rewrite Hserve.
  unfold bind at 1. unfold lift at 1. cbn [json_loads].
  unfold bind at 1. unfold lift at 1. rewrite Hsucc, Hfalse. cbn [negb].
  unfold bind, lift, ret. cbn [get].
  destruct (lookup "error" fields); reflexivity.
Qed.

Lemma create_project_with_tasks_failure_witness :
  create_project_with_tasks scripted None "Shop" "Online shop" None
    (start [Returns (Json (JObj [("success", JBool false)])); success_envelope] (JStr "p-0"))
  = (Ok "Failed to create project: Unknown error",
     World [success_envelope] [CreateProject "Shop" "Online shop" None] [] (JStr "p-0")).
Proof.
  exact (@create_project_with_tasks_failure ascii_Lower plain_Repr (list reply) scripted
           None "Shop" "Online shop" None
           (start [Returns (Json (JObj [("success", JBool false)])); success_envelope]
                  (JStr "p-0"))
           _ _ _ I eq_refl eq_refl eq_refl).
Defined.

(** X7. [create_project_with_tasks] never raises, whatever the store and
    the progress callback do: it always answers with a message, and a
    request it sends is the project creation first and task creations
    after it. *)
Theorem create_project_with_tasks_always_answers :
  forall (L : Lower) (R : Repr) (S : Type) (serve : request -> S -> reply * S)
         (progress_callback : option (string -> string -> result unit))
         (t d : string) (repo : option string) (w : world S),
    exists message w',
      create_project_with_tasks serve progress_callback t d repo w = (Ok message, w')
      /\ (sent w' = sent w
          \/ exists creations,
               sent w' = sent w ++ CreateProject t d repo :: creations
               /\ forallb is_create_task creations = true).
Proof.
  intros L R S serve cb t d repo w.
  unfold create_project_with_tasks, try_except.
  unfold bind at 1.
  destruct (progress cb "project_creation" ("🚀 Creating project: " ++ t) w)
    as [[[]|e] w0] eqn:Hp0.
  2:{ assert (w0 = w) as ->.
      { unfold progress in Hp0. destruct cb; unfold lift, ret in Hp0; congruence. }
      unfold bind, logger_error, ret. eexists _, _. split; [reflexivity|].
      left. reflexivity. }
  assert (w0 = w) as ->.
  { unfold progress in Hp0. destruct cb; unfold lift, ret in Hp0; congruence. }
  unfold bind at 1. unfold call.
  destruct (serve (CreateProject t d repo) (store w)) as [[e | [e | data]] s1];
    try (unfold bind, logger_error, ret; cbn; eexists _, _; split; [reflexivity|];
         right; exists []; split; reflexivity).
  unfold bind at 1. unfold lift at 1. cbn [json_loads].
  unfold bind at 1. unfold lift at 1.
  destruct (get data "success" (JBool false)) as [succ|e] eqn:Hsucc;
    [| unfold bind, logger_error, ret; cbn; eexists _, _; split; [reflexivity|];
       right; exists []; split; reflexivity].
  destruct (truthy succ); cbn [negb].
  - unfold bind at 1. unfold lift at 1.
    destruct (get data "project_id" JNull) as [pid|e];
      [| unfold bind, logger_error, ret; cbn; eexists _, _; split; [reflexivity|];
         right; exists []; split; reflexivity].
    unfold bind at 1. unfold set_deps_project_id. cbn [store sent logged].
    unfold bind at 1.
    match goal with
    | |- context [progress cb ?step ?log ?w1] =>
        destruct (progress cb step log w1) as [[[]|e] w2] eqn:Hp1;
        assert (w2 = w1) as -> by
          (unfold progress in Hp1; destruct cb; unfold lift, ret in Hp1; congruence)
    end.
    + unfold bind at 1. unfold _generate_project_tasks.
      rewrite create_each_guarded_run. cbn [store sent logged deps_project_id].
      unfold ret. eexists _, _. split; [reflexivity|]. right.
      exists (map (CreateTask pid) (project_tasks t d)). cbn [sent].
      split; [rewrite <- app_assoc; reflexivity|].
      rewrite forallb_forall. intros r Hr. apply in_map_iff in Hr.
      destruct Hr as (task & <- & _). reflexivity.
    + unfold bind, logger_error, ret. cbn. eexists _, _. split; [reflexivity|].
      right. exists []. split; reflexivity.
  - unfold bind at 1. unfold lift at 1.
    destruct (get data "error" (JStr "Unknown error")) as [error|e];
      unfold bind, logger_error, ret; cbn; eexists _, _; (split; [reflexivity|]);
      right; exists []; split; reflexivity.
Qed.

(** X24. [break_down_task] never raises: it always answers with a message
    and leaves the project of the context as it was.  Without a project it
    sends and logs nothing.  With one, the requests it sends are the
    creations of the subtasks, in order, up to the first one that raises;
    the log grows by one record, the error message itself, exactly when a
    creation raised, and stays as it was when none did, in which case all
    creations are sent and the message reports the number confirmed. *)
Theorem break_down_task_always_answers :
  forall (L : Lower) (R : Repr) (S : Type) (serve : request -> S -> reply * S)
         (t d : string) (project_id : option string) (w : world S),
    let pid := or_else project_id (deps_project_id w) in
    let requests := map (CreateTask pid) (_analyze_and_break_down_task t d) in
    let replies := fst (answers serve requests (store w)) in
    exists message w',
      break_down_task serve t d project_id w = (Ok message, w')
      /\ deps_project_id w' = deps_project_id w
      /\ (if truthy pid then
            match first_failure replies with
            | Some (k, e) =>
                message = ("Error breaking down task: " ++ str_exn e)%string
                /\ sent w' = sent w ++ firstn (Datatypes.S k) requests
                /\ logged w' = logged w ++ [message]
            | None =>
                message = broke_down t (confirmed_count replies)
                /\ sent w' = sent w ++ requests
                /\ logged w' = logged w
            end
          else
            message = no_project_specified
            /\ sent w' = sent w
            /\ logged w' = logged w).
Proof.
  intros L R S serve t d project_id w pid requests replies.
  unfold break_down_task, try_except, bind, get_deps_project_id. fold pid.
  destruct (truthy pid); cbn [negb].
  - rewrite create_each_unguarded_general. fold requests. fold replies.
    destruct (first_failure replies) as [[k e]|].
    + unfold logger_error, ret. cbn [store sent logged deps_project_id].
      eexists _, _. split; [reflexivity|]. cbn [sent logged deps_project_id].
      repeat split; reflexivity.
    + unfold ret. eexists _, _. split; [reflexivity|]. cbn [sent logged deps_project_id].
      repeat split; reflexivity.
  - unfold ret. eexists _, _. split; [reflexivity|]. repeat split; reflexivity.
Qed.

(** ** The shape of the generated task lists *)

Section ShapeFacts.

Lemma prefix_app (t rest : string) : String.prefix t (t ++ rest) = true.
Proof.
  induction t as [|c t IH]; cbn.
  - destruct rest; reflexivity.
  - destruct (ascii_dec c c); [exact IH | congruence].
Qed.

Lemma contains_prefix (t hay : string) : String.prefix t hay = true -> contains t hay = true.
Proof. intros H. destruct hay; cbn [contains]; rewrite H; reflexivity. Qed.

(** A text occurs in whatever it is embedded in. *)
Lemma contains_embedded (t before after : string) :
  contains t (before ++ t ++ after) = true.
Proof.
  induction before as [|c before IH].
  - cbn [String.append]. apply contains_prefix. apply prefix_app.
  - cbn [String.append contains]. rewrite IH.
    destruct (String.prefix t (String c (before ++ t ++ after))); reflexivity.
Qed.

Lemma contains_suffix (t before : string) : contains t (before ++ t) = true.
Proof.
  pose proof (contains_embedded t before "") as H.
  replace (t ++ "")%string with t in H; [exact H|].
  clear H. induction t as [|c t IH]; cbn; [reflexivity | rewrite <- IH; reflexivity].
Qed.

End ShapeFacts.

(** X8. Whatever the title and description, project decomposition produces
    between 5 and 15 task specifications with pairwise distinct titles; the
    first one has priority 9, every priority lies between 6 and 9, and every
    assignee is one of the three roles User, AI IDE Agent and Archon. *)
Theorem project_tasks_shape :
  forall (L : Lower) (t d : string),
    5 <= length (project_tasks t d) <= 15
    /\ NoDup (map title (project_tasks t d))
    /\ (exists first rest, project_tasks t d = first :: rest /\ priority first = 9%Z)
    /\ Forall (fun task => (6 <= priority task <= 9)%Z /\ is_role (assignee task) = true)
              (project_tasks t d).
Proof.
  intros L t d. rewrite project_tasks_eq. unfold classify, domain_order. cbn [filter].
  destruct (any_in (keywords Authentication) (lower (joined t d))),
           (any_in (keywords Api) (lower (joined t d))),
           (any_in (keywords Frontend) (lower (joined t d))),
           (any_in (keywords Database) (lower (joined t d)));
    cbn; (split; [lia|]);
    (split; [repeat constructor; cbn; intuition discriminate|]);
    (split; [eexists _, _; split; reflexivity|]);
    repeat constructor; cbn; lia.
Qed.

(** X9. Whatever the title and description, task breakdown produces between
    3 and 5 subtasks with pairwise distinct titles; every subtask carries
    the title of the task it was derived from inside its own title; the
    first subtask is a design or planning step for the User with priority
    8, and every later one goes to the AI IDE Agent with a priority between
    6 and 9. *)
Theorem breakdown_shape :
  forall (L : Lower) (t d : string),
    let subtasks := _analyze_and_break_down_task t d in
    3 <= length subtasks <= 5
    /\ NoDup (map title subtasks)
    /\ Forall (fun subtask => contains t (title subtask) = true) subtasks
    /\ exists first rest,
         subtasks = first :: rest
         /\ assignee first = "User" /\ priority first = 8%Z
         /\ Forall (fun subtask => assignee subtask = "AI IDE Agent"
                                   /\ (6 <= priority subtask <= 9)%Z) rest.
Proof.
  intros L t d subtasks. unfold subtasks, _analyze_and_break_down_task.
  destruct (contains "api" (lower (joined t d)) && contains "endpoint" (lower (joined t d)));
    [|destruct (any_in ["component"; "ui"; "interface"; "form"] (lower (joined t d)))];
    cbn [app api_subtasks ui_subtasks generic_subtasks length];
    (split; [lia|]);
    (split; [repeat constructor; cbn; intuition discriminate|]);
    (split; [repeat constructor; cbn [title];
             first [apply contains_embedded | apply contains_suffix]|]);
    eexists _, _; (split; [reflexivity|]); cbn [assignee priority];
    (split; [reflexivity|]); (split; [reflexivity|]);
    repeat constructor; cbn; lia.
Qed.

(** ** Further properties of the agents service client *)

Module AgentsClientFacts.
Import AgentsServiceClient.

Section MergeFacts.

Lemma lookup_dict_set (k key : string) (value : json) (fields : list (string * json)) :
  lookup k (dict_set key value fields)
  = if (key =? k)%string then Some value else lookup k fields.
Proof.
  induction fields as [|[k0 v0] rest IH]; cbn [dict_set lookup].
  - reflexivity.
  - destruct (k0 =? key)%string eqn:E0; cbn [lookup].
    + apply String.eqb_eq in E0. subst k0. destruct (key =? k)%string; reflexivity.
    + rewrite IH. destruct (k0 =? k)%string eqn:E1; [|reflexivity].
      apply String.eqb_eq in E1. subst k0. rewrite String.eqb_sym, E0. reflexivity.
Qed.

Lemma keys_dict_set (key : string) (value : json) (fields : list (string * json)) (k : string) :
  In k (map fst (dict_set key value fields)) <-> k = key \/ In k (map fst fields).
Proof.
  induction fields as [|[k0 v0] rest IH]; cbn [dict_set].
  - cbn. intuition.
  - destruct (k0 =? key)%string eqn:E0; cbn [map fst In].
    + apply String.eqb_eq in E0. subst k0. intuition.
    + rewrite IH. intuition.
Qed.

Lemma dict_set_NoDup (key : string) (value : json) (fields : list (string * json)) :
  NoDup (map fst fields) -> NoDup (map fst (dict_set key value fields)).
Proof.
  induction fields as [|[k0 v0] rest IH]; cbn [dict_set]; intros Hnd.
  - cbn. constructor; [intros [] | constructor].
  - cbn [map fst] in Hnd. inversion Hnd as [|? ? Hnotin Hrest]; subst.
    destruct (k0 =? key)%string eqn:E0; cbn [map fst].
    + constructor; assumption.
    + constructor; [|apply IH; exact Hrest].
      rewrite keys_dict_set. intros [-> | Hin]; [|contradiction].
      rewrite String.eqb_refl in E0. discriminate.
Qed.

Lemma lookup_absent (k : string) (fields : list (string * json)) :
  ~ In k (map fst fields) -> lookup k fields = None.
Proof.
  induction fields as [|[k0 v0] rest IH]; cbn [map fst In lookup]; intros Hnotin.
  - reflexivity.
  - destruct (k0 =? k)%string eqn:E; [|apply IH; tauto].
    apply String.eqb_eq in E. tauto.
Qed.

(** [{**fields, **more}]: the keys stay distinct, and a key of [more] has
    the value [more] gives it. *)
Lemma dict_merge_lookup (more : list (string * json)) :
  forall fields : list (string * json),
    NoDup (map fst fields) -> NoDup (map fst more) ->
    NoDup (map fst (dict_merge fields more))
    /\ forall k, lookup k (dict_merge fields more)
                 = match lookup k more with
                   | Some v => Some v
                   | None => lookup k fields
                   end.
Proof.
  unfold dict_merge.
  induction more as [|[k1 v1] rest IH]; intros fields Hf Hm; cbn [fold_left fst snd].
  - split; [exact Hf | reflexivity].
  - cbn [map fst] in Hm. inversion Hm as [|? ? Hnotin Hrest]; subst.
    destruct (IH (dict_set k1 v1 fields) (@dict_set_NoDup k1 v1 fields Hf) Hrest) as [Hnd Hlook].
    split; [exact Hnd|]. intros k. rewrite Hlook, lookup_dict_set. cbn [lookup].
    destruct (k1 =? k)%string eqn:E; [|reflexivity].
    apply String.eqb_eq in E. subst k1. rewrite (@lookup_absent k rest Hnotin). reflexivity.
Qed.

End MergeFacts.

(** X10. The context sent with an agent request is the defaults of the call
    (project and user for the document agent; project, source filter and
    match count for the RAG agent) overridden by the caller's context: a key
    of the caller's context has the caller's value, also when it is one of
    the defaults; every other key has its default; the keys stay distinct.
    The agent type and the prompt lie outside the context and cannot be
    overridden. *)
Theorem caller_context_overrides_defaults :
  forall (prompt : string) (context : option (list (string * json))),
    NoDup (map fst (or_empty context)) ->
    (forall (project_id : string) (user_id : option string),
       exists fields,
         document_request prompt project_id user_id context
         = JObj [("agent_type", JStr "document"); ("prompt", JStr prompt);
                 ("context", JObj fields)]
         /\ NoDup (map fst fields)
         /\ forall k, lookup k fields
                      = match lookup k (or_empty context) with
                        | Some v => Some v
                        | None => lookup k [("project_id", JStr project_id);
                                            ("user_id", opt_str user_id)]
                        end)
    /\ (forall (project_id source_filter : option string) (match_count : Z),
          exists fields,
            rag_request prompt project_id source_filter match_count context
            = JObj [("agent_type", JStr "rag"); ("prompt", JStr prompt);
                    ("context", JObj fields)]
            /\ NoDup (map fst fields)
            /\ forall k, lookup k fields
                         = match lookup k (or_empty context) with
                           | Some v => Some v
                           | None => lookup k [("project_id", opt_str project_id);
                                               ("source_filter", opt_str source_filter);
                                               ("match_count", JInt match_count)]
                           end).
Proof.
  intros prompt context Hnd. split.
  - intros project_id user_id. eexists. split; [reflexivity|].
    apply dict_merge_lookup; [|exact Hnd].
    cbn. repeat constructor; cbn; intuition discriminate.
  - intros project_id source_filter match_count. eexists. split; [reflexivity|].
    apply dict_merge_lookup; [|exact Hnd].
    cbn. repeat constructor; cbn; intuition discriminate.
Qed.

Lemma caller_context_overrides_defaults_witness :
  exists fields,
    document_request "Summarise" "p-1" None (Some context_example)
    = JObj [("agent_type", JStr "document"); ("prompt", JStr "Summarise");
            ("context", JObj fields)]
    /\ lookup "project_id" fields = Some (JStr "other")
    /\ lookup "user_id" fields = Some JNull
    /\ lookup "depth" fields = Some (JInt 2).
Proof.
  assert (Hnd : NoDup (map fst (or_empty (Some context_example))))
    by (cbn; repeat constructor; cbn; intuition discriminate).
  destruct (proj1 (@caller_context_overrides_defaults "Summarise" (Some context_example) Hnd)
              "p-1" None) as (fields & E & _ & Hlook).
  exists fields. split; [exact E|].
  rewrite !Hlook. repeat split; reflexivity.
Defined.

(** X11. An agent call writes exactly one record to the error log when it
    fails, naming the agent and the exception, and none when the service
    answers with an object: the log afterwards is the log before followed
    by that record.  A failure is a request that raises, an error status, a
    body that is not JSON, or a JSON body that is not an object.  The
    health check logs one record for a request that raises, an error
    status or a body that is not JSON, and none for any JSON body. *)
Theorem agent_calls_log_failures :
  forall (H : Type) (transport : http_request -> H -> http_reply * H) (w : world H),
    (forall (prompt project_id : string) (user_id : option string)
            (context : option (list (string * json))),
       let r := Http "POST" "/agents/run"
                  (document_request prompt project_id user_id context) in
       errors (snd (call_document_agent transport prompt project_id user_id context w))
       = errors w ++ agent_records "document" (fst (transport r (service w))))
    /\ (forall (prompt : string) (project_id source_filter : option string)
               (match_count : Z) (context : option (list (string * json))),
          let r := Http "POST" "/agents/run"
                     (rag_request prompt project_id source_filter match_count context) in
          errors (snd (call_rag_agent transport prompt project_id source_filter
                         match_count context w))
          = errors w ++ agent_records "RAG" (fst (transport r (service w))))
    /\ (let r := Http "GET" "/health" JNull in
        errors (snd (health_check transport w))
        = errors w ++ match fst (transport r (service w)) with
                      | Fails e | Responds None (NotJson e) =>
                          [("Agents service health check failed: " ++ str_exn e)%string]
                      | Responds (Some status) _ =>
                          [("Agents service health check failed: " ++ status)%string]
                      | Responds None (Json _) => []
                      end)
    /\ (forall (name : string) (answer : http_reply),
          length (agent_records name answer) <= 1
          /\ (agent_records name answer = []
              <-> exists fields, answer = Responds None (Json (JObj fields)))).
Proof.
  intros H transport w.
  assert (Hrun : forall name request_data,
             errors (snd (try_except (run_agent transport request_data)
                            (agent_handlers (H := H) name) w))
             = errors w ++ agent_records name
                             (fst (transport (Http "POST" "/agents/run" request_data)
                                     (service w)))).
  { intros name request_data.
    unfold try_except, run_agent, bind, send, lift, ret.
    destruct (transport (Http "POST" "/agents/run" request_data) (service w))
      as [[e | [status|] content] h']; cbn [fst snd].
    - unfold agent_handlers, agent_records, failure_of, bind, logger_error, ret.
      destruct (is_http_error e); reflexivity.
    - reflexivity.
    - destruct content as [e | data]; cbn [json_loads].
      + unfold agent_handlers, agent_records, failure_of, bind, logger_error, ret.
        destruct (is_http_error e); reflexivity.
      + destruct data; cbn; rewrite ?app_nil_r; reflexivity. }
  split; [|split; [|split]].
  - intros prompt project_id user_id context r. apply Hrun.
  - intros prompt project_id source_filter match_count context r. apply Hrun.
  - intros r. unfold health_check, try_except, bind, send, lift, ret, logger_error. fold r.
    destruct (transport r (service w)) as [[e | [status|] content] h']; cbn [fst snd];
      try reflexivity.
    destruct content as [e | data]; cbn; rewrite ?app_nil_r; reflexivity.
  - intros name answer. unfold agent_records. split.
    + destruct (failure_of answer); cbn; lia.
    + split.
      * destruct answer as [e | [status|] [e | data]]; cbn; try discriminate.
        destruct data; cbn; try discriminate. intros _. eexists; reflexivity.
      * intros [fields ->]. reflexivity.
Qed.

End AgentsClientFacts.

(** ** Further properties of the project health analysis *)

Section HealthMore.

Lemma is_assigned_get (k : string) (task assignee : json) :
  get task "assignee" (JStr "User") = Ok assignee ->
  (match assignee with JStr s => if (s =? k)%string then 1 else 0 | _ => 0 end)
  = length (filter (is_assigned k) [task]).
Proof.
  intros E. cbn [filter]. unfold is_assigned. rewrite E.
  destruct assignee; try reflexivity. destruct (s =? k)%string; reflexivity.
Qed.

(** On well-formed tasks the loop does not raise, and the counters of both
    dictionaries grow by the numbers of tasks with that status and that
    assignee. *)
Lemma count_all_both (tasks : list json) :
  forallb well_formed tasks = true ->
  forall sc ac, exists sc' ac',
    count_all tasks sc ac = Ok (sc', ac')
    /\ (forall k, counter k sc' = counter k sc + number_with k tasks)
    /\ (forall k, counter k ac' = counter k ac + number_assigned k tasks).
Proof.
  induction tasks as [|task rest IH]; intros Hwf sc ac.
  - exists sc, ac. split; [reflexivity|].
    split; intros k; unfold number_with, number_assigned; cbn; lia.
  - cbn [forallb] in Hwf. apply andb_prop in Hwf. destruct Hwf as [Htask Hrest].
    destruct (well_formed_task _ Htask) as (status & assignee & Es & Ea & Hs & Ha).
    destruct (count_hashable status sc Hs) as (sc1 & Ec1 & Hsc1).
    destruct (count_hashable assignee ac Ha) as (ac1 & Ec2 & Hac1).
    destruct (IH Hrest sc1 ac1) as (sc' & ac' & Erest & Hsc' & Hac').
    exists sc', ac'. cbn [count_all]. rewrite Es, Ea, Ec1, Ec2. split; [exact Erest|].
    split; intros k.
    + rewrite Hsc', Hsc1, (has_status_get k _ Es).
      unfold number_with. cbn [filter]. destruct (has_status k task); cbn [length]; lia.
    + rewrite Hac', Hac1, (is_assigned_get k _ Ea).
      unfold number_assigned. cbn [filter]. destruct (is_assigned k task); cbn [length]; lia.
Qed.

(** The loop completes only on well-formed tasks. *)
Lemma count_all_ok (tasks : list json) :
  forall sc ac p, count_all tasks sc ac = Ok p -> forallb well_formed tasks = true.
Proof.
  induction tasks as [|task rest IH]; intros sc ac p; [reflexivity|].
  cbn [count_all forallb].
  destruct task as [| | | | | |fields]; cbn [get]; try discriminate.
  cbn [well_formed].
  destruct (lookup "status" fields) as [s|], (lookup "assignee" fields) as [a|];
    try destruct s; try destruct a; cbn [count hashable andb]; try discriminate;
    intros E; apply IH in E; exact E.
Qed.

(** The loop over well-formed tasks followed by others. *)
Lemma count_all_app (before : list json) :
  forallb well_formed before = true ->
  forall sc ac, exists sc' ac',
    forall rest, count_all (before ++ rest) sc ac = count_all rest sc' ac'.
Proof.
  induction before as [|task before IH]; intros Hwf sc ac.
  - exists sc, ac. reflexivity.
  - cbn [forallb] in Hwf. apply andb_prop in Hwf. destruct Hwf as [Htask Hrest].
    destruct (well_formed_task _ Htask) as (status & assignee & Es & Ea & Hs & Ha).
    destruct (count_hashable status sc Hs) as (sc1 & Ec1 & _).
    destruct (count_hashable assignee ac Ha) as (ac1 & Ec2 & _).
    destruct (IH Hrest sc1 ac1) as (sc' & ac' & E).
    exists sc', ac'. intros rest. cbn [app count_all]. rewrite Es, Ea, Ec1, Ec2. apply E.
Qed.

Lemma nonempty_length (A : Type) (l : list A) : l <> [] -> (length l =? 0)%nat = false.
Proof. destruct l; [congruence | reflexivity]. Qed.

(** The report of a non-empty well-formed list depends on the list only
    through its length and the numbers of tasks with each status and
    assignee. *)
Lemma health_by_counts (tasks : list json) :
  tasks <> [] ->
  forallb well_formed tasks = true ->
  _analyze_project_health tasks
  = report_from (length tasks)
      (number_with "done" tasks) (number_with "doing" tasks)
      (number_with "todo" tasks) (number_with "review" tasks)
      (number_assigned "AI IDE Agent" tasks) (number_assigned "User" tasks).
Proof.
  intros Hne Hwf.
  destruct (count_all_both tasks Hwf no_status_counts no_assignee_counts)
    as (sc & ac & Ecount & Hsc & Hac).
  unfold no_status_counts, no_assignee_counts in Ecount.
  unfold _analyze_project_health. rewrite (nonempty_length Hne), Ecount. cbv zeta.
  rewrite !Hsc, !Hac. cbn [counter no_status_counts no_assignee_counts String.eqb Ascii.eqb Bool.eqb].
  cbn [Nat.add]. unfold report_from.
  destruct (truediv (Z.of_nat (number_with "done" tasks)) (Z.of_nat (length tasks)));
    [|reflexivity].
  destruct (truediv (Z.of_nat (number_with "doing" tasks + number_with "review" tasks))
              (Z.of_nat (length tasks))); [|reflexivity].
  destruct (score a a0); reflexivity.
Qed.

Lemma truediv_zero (n : Z) : (0 < n)%Z -> truediv 0 n = Ok (S754_zero false).
Proof.
  intros Hn. unfold truediv.
  replace (n =? 0)%Z with false by (symmetry; apply Z.eqb_neq; lia).
  replace (n <? 0)%Z with false by (symmetry; apply Z.ltb_ge; lia).
  reflexivity.
Qed.

Lemma number_with_all (k : string) (tasks : list json) :
  forallb (has_status k) tasks = true -> number_with k tasks = length tasks.
Proof.
  unfold number_with. induction tasks as [|task rest IH]; cbn [forallb filter length].
  - reflexivity.
  - intros H. apply andb_prop in H. destruct H as [-> Hrest].
    cbn [length]. rewrite IH by exact Hrest. reflexivity.
Qed.

Lemma filter_length_perm (A : Type) (f : A -> bool) (l l' : list A) :
  Permutation l l' -> length (filter f l) = length (filter f l').
Proof.
  induction 1 as [|x l l' _ IH|x y l|l l' l'' _ IH1 _ IH2]; cbn [filter].
  - reflexivity.
  - destruct (f x); cbn [length]; congruence.
  - destruct (f x), (f y); reflexivity.
  - congruence.
Qed.

Lemma forallb_perm (A : Type) (f : A -> bool) (l l' : list A) :
  Permutation l l' -> forallb f l = true -> forallb f l' = true.
Proof.
  intros Hp. rewrite !forallb_forall. intros H x Hx.
  apply H. apply (Permutation_in x (Permutation_sym Hp) Hx).
Qed.

(** A well-formed list gets a report, with a score between 0 and 10. *)
Lemma health_well_formed_ok (tasks : list json) :
  forallb well_formed tasks = true ->
  exists report,
    _analyze_project_health tasks = Ok report /\ (0 <= health_score report <= 10)%Z.
Proof.
  intros Hwf. destruct tasks as [|task rest].
  - eexists. split; [reflexivity | cbn; lia].
  - assert (Hne : task :: rest <> []) by discriminate.
    rewrite (health_by_counts Hne Hwf). unfold report_from.
    destruct (rates_small Hne) as (c & a & Ec & Ea & Hc & Ha).
    destruct (score_range _ _ Hc Ha) as (n & En & Hn).
    rewrite Ec, Ea, En. eexists. split; [reflexivity | exact Hn].
Qed.

(** The four counts of the report are the numbers of tasks with each
    status. *)
Lemma health_report_counts (tasks : list json) :
  forallb well_formed tasks = true ->
  exists report,
    _analyze_project_health tasks = Ok report
    /\ completed report = number_with "done" tasks
    /\ in_progress report = number_with "doing" tasks
    /\ todo report = number_with "todo" tasks
    /\ review report = number_with "review" tasks.
Proof.
  intros Hwf. destruct tasks as [|task rest].
  - eexists. split; [reflexivity|]. repeat split; reflexivity.
  - assert (Hne : task :: rest <> []) by discriminate.
    rewrite (health_by_counts Hne Hwf). unfold report_from.
    destruct (rates_small Hne) as (c & a & Ec & Ea & Hc & Ha).
    destruct (score_range _ _ Hc Ha) as (n & En & Hn).
    rewrite Ec, Ea, En. eexists. split; [reflexivity|]. repeat split; reflexivity.
Qed.

End HealthMore.

(** X12. The health analysis returns a report exactly when every task is a
    dictionary whose status and assignee, when present, are hashable;
    otherwise it raises.  (The empty list gets the fixed report.) *)
Theorem health_report_iff_well_formed :
  forall tasks : list json,
    (exists report, _analyze_project_health tasks = Ok report)
    <-> forallb well_formed tasks = true.
Proof.
  intros tasks. split.
  - intros [report E]. destruct tasks as [|task rest]; [reflexivity|].
    unfold _analyze_project_health in E. cbn [length Nat.eqb] in E.
    destruct (count_all (task :: rest) [("done", 0); ("doing", 0); ("todo", 0); ("review", 0)]
                [("User", 0); ("AI IDE Agent", 0); ("Archon", 0)]) as [p|e] eqn:Ecount;
      [|discriminate].
    exact (count_all_ok _ _ _ Ecount).
  - intros Hwf. destruct (health_well_formed_ok tasks Hwf) as (report & E & _).
    exists report. exact E.
Qed.

(** X13. The first task that is not a dictionary makes the analysis raise
    the AttributeError of its missing [get] method, and the first
    dictionary with an unhashable status (a list or a dictionary) makes it
    raise the TypeError of the counting, whatever comes after. *)
Theorem health_rejects_malformed_task :
  forall (before after : list json) (task : json),
    forallb well_formed before = true ->
    (is_object task = false ->
     _analyze_project_health (before ++ task :: after) = Raise (no_attribute task "get"))
    /\ (forall fields status,
          task = JObj fields ->
          lookup "status" fields = Some status ->
          hashable status = false ->
          _analyze_project_health (before ++ task :: after)
          = Raise (Exn TypeError ("unhashable type: '" ++ type_name status ++ "'")%string)).
Proof.
  intros before after task Hwf.
  assert (Hlen : (length (before ++ task :: after) =? 0)%nat = false)
    by (apply nonempty_length; destruct before; discriminate).
  destruct (count_all_app before Hwf [("done", 0); ("doing", 0); ("todo", 0); ("review", 0)]
              [("User", 0); ("AI IDE Agent", 0); ("Archon", 0)]) as (sc & ac & E).
  split.
  - intros Hobj. unfold _analyze_project_health. rewrite Hlen, E. cbn [count_all].
    destruct task; try discriminate; reflexivity.
  - intros fields status -> Hstatus Hhash.
    unfold _analyze_project_health. rewrite Hlen, E. cbn [count_all get].
    rewrite Hstatus. destruct status; try discriminate; reflexivity.
Qed.

Lemma health_rejects_malformed_task_witness :
  _analyze_project_health broken_listing
  = Raise (Exn AttributeError "'str' object has no attribute 'get'").
Proof.
  exact (proj1 (@health_rejects_malformed_task
                  [a_task "done" "User"; a_task "doing" "Archon"] [a_task "todo" "User"]
                  (JStr "t-3") eq_refl) eq_refl).
Defined.

(** X14. A project all of whose tasks are done gets the score 10, the
    insight that it is near completion and the single next action to plan
    the release; the only recommendation it can get is the one about
    automation, when the User has more than twice the tasks of the AI IDE
    Agent. *)
Theorem health_of_finished_project :
  forall tasks : list json,
    tasks <> [] ->
    forallb well_formed tasks = true ->
    forallb (has_status "done") tasks = true ->
    _analyze_project_health tasks
    = Ok (Report 10 (length tasks) 0 0 0
            ["🎉 Project is near completion!"]
            (if (number_assigned "AI IDE Agent" tasks * 2 <? number_assigned "User" tasks)%nat
             then ["🤖 More tasks could be automated with AI IDE Agent"] else [])
            ["🚀 Plan project completion and release tasks"]).
Proof.
  intros tasks Hne Hwf Hdone.
  rewrite (health_by_counts Hne Hwf).
  pose proof (number_with_all _ _ Hdone) as Hall.
  pose proof (@number_with_disjoint "done" "doing" tasks ltac:(discriminate)) as H1.
  pose proof (@number_with_disjoint "done" "todo" tasks ltac:(discriminate)) as H2.
  pose proof (@number_with_disjoint "done" "review" tasks ltac:(discriminate)) as H3.
  replace (number_with "doing" tasks) with 0 by lia.
  replace (number_with "todo" tasks) with 0 by lia.
  replace (number_with "review" tasks) with 0 by lia.
  rewrite Hall.
  assert (Hlen : (0 < Z.of_nat (length tasks))%Z)
    by (destruct tasks; [congruence | cbn [length]; lia]).
  unfold report_from. rewrite (truediv_self Hlen).
  change (Z.of_nat (0 + 0)) with 0%Z. rewrite (truediv_zero Hlen).
  replace (score (of_int 1) (S754_zero false)) with (@Ok Z 10%Z)
    by (vm_compute; reflexivity).
  replace (first_insight (of_int 1) (S754_zero false)) with "🎉 Project is near completion!"
    by (vm_compute; reflexivity).
  replace (gt (of_int 1) (literal 8 10)) with true by (vm_compute; reflexivity).
  cbn [Nat.ltb Nat.leb Nat.mul append_if app].
  destruct (number_assigned "AI IDE Agent" tasks * 2 <? number_assigned "User" tasks)%nat;
    reflexivity.
Qed.

Lemma health_of_finished_project_witness :
  _analyze_project_health [a_task "done" "User"; a_task "done" "User"; a_task "done" "User"]
  = Ok (Report 10 3 0 0 0 ["🎉 Project is near completion!"]
          ["🤖 More tasks could be automated with AI IDE Agent"]
          ["🚀 Plan project completion and release tasks"]).
Proof.
  exact (@health_of_finished_project
           [a_task "done" "User"; a_task "done" "User"; a_task "done" "User"]
           ltac:(discriminate) eq_refl eq_refl).
Defined.

(** X15. A project with no task done, in progress or in review gets the
    score 0 and the single insight that it may need attention; its pending
    tasks, if any, are the one next action, and with them comes the
    recommendation to break tasks down or add capacity. *)
Theorem health_of_idle_project :
  forall tasks : list json,
    tasks <> [] ->
    forallb well_formed tasks = true ->
    number_with "done" tasks = 0 ->
    number_with "doing" tasks = 0 ->
    number_with "review" tasks = 0 ->
    exists report,
      _analyze_project_health tasks = Ok report
      /\ health_score report = 0%Z
      /\ completed report = 0 /\ in_progress report = 0 /\ review report = 0
      /\ todo report = number_with "todo" tasks
      /\ insights report = ["⚠️ Project may need attention - low activity"]
      /\ next_actions report
         = (if (0 <? todo report)%nat
            then [("⏳ Start working on " ++ of_nat (todo report) ++ " pending tasks")%string]
            else [])
      /\ (0 < todo report ->
          In "📋 Consider breaking down large tasks or increasing capacity"
             (recommendations report)).
Proof.
  intros tasks Hne Hwf Hdone Hdoing Hreview.
  rewrite (health_by_counts Hne Hwf), Hdone, Hdoing, Hreview.
  assert (Hlen : (0 < Z.of_nat (length tasks))%Z)
    by (destruct tasks; [congruence | cbn [length]; lia]).
  unfold report_from.
  change (Z.of_nat (0 + 0)) with 0%Z. change (Z.of_nat 0) with 0%Z.
  rewrite (truediv_zero Hlen).
  replace (score (S754_zero false) (S754_zero false)) with (@Ok Z 0%Z)
    by (vm_compute; reflexivity).
  replace (first_insight (S754_zero false) (S754_zero false))
    with "⚠️ Project may need attention - low activity" by (vm_compute; reflexivity).
  replace (gt (S754_zero false) (literal 8 10)) with false by (vm_compute; reflexivity).
  eexists. split; [reflexivity|].
  cbn [health_score completed in_progress review todo insights next_actions recommendations].
  cbn [Nat.ltb Nat.leb Nat.mul append_if app].
  repeat (split; [reflexivity|]).
  intros Hpos. destruct (number_with "todo" tasks) as [|n]; [lia|].
  cbn [Nat.ltb Nat.leb Nat.mul append_if app].
  unfold append_if.
  match goal with |- context [if ?c then _ else _] => destruct c end; left; reflexivity.
Qed.

Lemma health_of_idle_project_witness :
  exists report,
    _analyze_project_health [a_task "todo" "User"; a_task "blocked" "Archon"] = Ok report
    /\ health_score report = 0%Z
    /\ todo report = 1.
Proof.
  destruct (@health_of_idle_project [a_task "todo" "User"; a_task "blocked" "Archon"]
              ltac:(discriminate) eq_refl eq_refl eq_refl eq_refl)
    as (report & E & Hscore & _ & _ & _ & Htodo & _).
  exists report. repeat split; assumption.
Defined.

(** X16. The report does not depend on the order in which the tasks are
    listed: two listings of the same well-formed tasks, in any order, get
    the same report. *)
Theorem health_order_independent :
  forall tasks tasks' : list json,
    Permutation tasks tasks' ->
    forallb well_formed tasks = true ->
    _analyze_project_health tasks = _analyze_project_health tasks'.
Proof.
  intros tasks tasks' Hperm Hwf.
  destruct tasks as [|task rest].
  - apply Permutation_nil in Hperm. subst tasks'. reflexivity.
  - assert (Hne : task :: rest <> []) by discriminate.
    assert (Hne' : tasks' <> [])
      by (intros ->; apply Permutation_sym, Permutation_nil in Hperm; discriminate).
    rewrite (health_by_counts Hne Hwf).
    rewrite (health_by_counts Hne' (forallb_perm _ Hperm Hwf)).
    unfold number_with, number_assigned.
    rewrite (Permutation_length Hperm).
    rewrite !(filter_length_perm _ Hperm). reflexivity.
Qed.

Lemma health_order_independent_witness :
  _analyze_project_health mix = _analyze_project_health (rev mix).
Proof.
  exact (@health_order_independent mix (rev mix) (Permutation_rev mix) eq_refl).
Defined.

(** ** The listing tools *)

Module ListingFacts.
Import Listing.

Section ListingLemmas.
Context {R : Repr}.

(** A listable task gets a line, whatever the counters. *)
Lemma format_task_listable (task : json) (c : counters) :
  listable task = true ->
  exists line c',
    format_task task c = Ok (line, c')
    /\ forall k, counter k c' = counter k c + (if shows_status k task then 1 else 0).
Proof.
  destruct task as [| | | | | |fields]; try discriminate.
  cbn [listable]. intros H.
  apply andb_prop in H. destruct H as [H Horder].
  apply andb_prop in H. destruct H as [Hstatus Hassignee].
  unfold format_task, shows_status. cbn [get].
  set (status := match lookup "status" fields with Some v => v | None => JStr "unknown" end).
  set (assignee := match lookup "assignee" fields with
                   | Some v => v | None => JStr "unassigned" end).
  set (task_order := match lookup "task_order" fields with
                     | Some v => v | None => JInt 0 end).
  assert (Hs : hashable status = true)
    by (unfold status; destruct (lookup "status" fields); [exact Hstatus | reflexivity]).
  assert (Ha : hashable assignee = true)
    by (unfold assignee; destruct (lookup "assignee" fields); [exact Hassignee | reflexivity]).
  assert (Ho : is_number task_order = true)
    by (unfold task_order; destruct (lookup "task_order" fields);
        [exact Horder | reflexivity]).
  clearbody status assignee task_order.
  destruct (count_hashable status c Hs) as (c' & Ec & Hc). rewrite Ec.
  assert (Hp : exists p,
             (match ge_int task_order 8 with
              | Raise e => Raise e
              | Ok at_least_8 =>
                  match (if at_least_8 then Ok "🔥"
                         else match ge_int task_order 5 with
                              | Raise e => Raise e
                              | Ok at_least_5 => Ok (if at_least_5 then "⭐" else "📋")
                              end) with
                  | Raise e => Raise e
                  | Ok p => Ok p
                  end
              end) = Ok p).
  { destruct task_order; try discriminate; cbn [ge_int];
      match goal with |- context [if ?b then Ok "🔥" else _] => destruct b end;
      eexists; reflexivity. }
  assert (Hsi : exists si, indicator status_emoji status = Ok si)
    by (destruct status; try discriminate; eexists; reflexivity).
  assert (Hai : exists ai, indicator assignee_emoji assignee = Ok ai)
    by (destruct assignee; try discriminate; eexists; reflexivity).
  destruct Hp as (p & Ep), Hsi as (si & Esi), Hai as (ai & Eai).
  destruct (ge_int task_order 8) as [b8|e8]; [|discriminate].
  destruct (if b8 then Ok "🔥"
            else match ge_int task_order 5 with
                 | Raise e => Raise e
                 | Ok at_least_5 => Ok (if at_least_5 then "⭐" else "📋")
                 end) as [p'|e']; [|discriminate].
  rewrite Esi, Eai. eexists _, _. split; [reflexivity|].
  intros k. rewrite Hc. destruct status; reflexivity.
Qed.

(** The line does not depend on the counters. *)
Lemma format_task_line (task : json) (c c' : counters) (line : string) :
  format_task task c = Ok (line, c') -> line_of task = line.
Proof.
  unfold line_of, format_task.
  destruct (get task "status" (JStr "unknown")) as [status|]; [|discriminate].
  destruct (get task "assignee" (JStr "unassigned")) as [assignee|]; [|discriminate].
  destruct (get task "title" (JStr "Untitled")) as [title|]; [|discriminate].
  destruct (get task "task_order" (JInt 0)) as [task_order|]; [|discriminate].
  destruct (count status c) as [c1|] eqn:Ec; [|discriminate].
  assert (E0 : exists c0, count status [] = Ok c0)
    by (destruct status; try discriminate; eexists; reflexivity).
  destruct E0 as (c0 & ->).
  destruct (ge_int task_order 8) as [b8|]; [|discriminate].
  destruct (if b8 then Ok "🔥"
            else match ge_int task_order 5 with
                 | Raise e => Raise e
                 | Ok at_least_5 => Ok (if at_least_5 then "⭐" else "📋")
                 end) as [p|]; [|discriminate].
  destruct (indicator status_emoji status); [|discriminate].
  destruct (indicator assignee_emoji assignee); [|discriminate].
  intros E. injection E as <- _. reflexivity.
Qed.

(** The loop over listable tasks: one line per task, in order, and each
    counter grows by the number of tasks showing that status. *)
Lemma format_each_listable (tasks : list json) :
  forallb listable tasks = true ->
  forall lines c, exists c',
    format_each tasks lines c = Ok (lines ++ map line_of tasks, c')
    /\ forall k, counter k c' = counter k c + number_showing k tasks.
Proof.
  induction tasks as [|task rest IH]; intros Hl lines c.
  - exists c. cbn. rewrite app_nil_r. split; [reflexivity | intros k; cbn; lia].
  - cbn [forallb] in Hl. apply andb_prop in Hl. destruct Hl as [Htask Hrest].
    destruct (format_task_listable task c Htask) as (line & c1 & E & Hc1).
    destruct (IH Hrest (lines ++ [line]) c1) as (c' & Erest & Hc').
    exists c'. cbn [format_each map]. rewrite E, Erest.
    rewrite (format_task_line _ _ E), <- app_assoc. split; [reflexivity|].
    intros k. rewrite Hc', Hc1. unfold number_showing. cbn [filter].
    destruct (shows_status k task); cbn [length]; lia.
Qed.

(** A task shows at most one of four distinct statuses. *)
Lemma number_showing_four (tasks : list json) :
  number_showing "todo" tasks + number_showing "doing" tasks
  + number_showing "review" tasks + number_showing "done" tasks <= length tasks.
Proof.
  unfold number_showing.
  induction tasks as [|task rest IH]; cbn [filter length]; [lia|].
  assert (H : (if shows_status "todo" task then 1 else 0)
              + (if shows_status "doing" task then 1 else 0)
              + (if shows_status "review" task then 1 else 0)
              + (if shows_status "done" task then 1 else 0) <= 1).
  { unfold shows_status.
    destruct (get task "status" (JStr "unknown")) as [[| | | |s| |]|]; try (cbn; lia).
    destruct (s =? "todo")%string eqn:E1, (s =? "doing")%string eqn:E2,
             (s =? "review")%string eqn:E3, (s =? "done")%string eqn:E4;
      repeat match goal with
             | E : (_ =? _)%string = true |- _ => apply String.eqb_eq in E
             end; try congruence; cbn; lia. }
  destruct (shows_status "todo" task), (shows_status "doing" task),
           (shows_status "review" task), (shows_status "done" task);
    cbn [length] in *; lia.
Qed.

(** The loop over listable tasks followed by others. *)
Lemma format_each_app (before : list json) :
  forallb listable before = true ->
  forall lines c, exists lines' c',
    forall rest, format_each (before ++ rest) lines c = format_each rest lines' c'.
Proof.
  induction before as [|task before IH]; intros Hl lines c.
  - exists lines, c. reflexivity.
  - cbn [forallb] in Hl. apply andb_prop in Hl. destruct Hl as [Htask Hrest].
    destruct (format_task_listable task c Htask) as (line & c1 & E & _).
    destruct (IH Hrest (lines ++ [line]) c1) as (lines' & c' & Erest).
    exists lines', c'. intros rest. cbn [app format_each]. rewrite E. apply Erest.
Qed.

Lemma listable_well_formed (tasks : list json) :
  forallb listable tasks = true -> forallb well_formed tasks = true.
Proof.
  induction tasks as [|task rest IH]; cbn [forallb]; [reflexivity|].
  intros H. apply andb_prop in H. destruct H as [Htask Hrest].
  rewrite (IH Hrest), andb_true_r.
  destruct task as [| | | | | |fields]; try discriminate.
  cbn [listable well_formed] in *.
  apply andb_prop in Htask. destruct Htask as [Htask _].
  apply andb_prop in Htask. destruct Htask as [Hs Ha].
  destruct (lookup "status" fields), (lookup "assignee" fields);
    rewrite ?Hs, ?Ha; reflexivity.
Qed.

(** The two tools read the status with different defaults: a task without
    status is a todo for the analysis and unknown for the listing. *)
Lemma status_defaults (task : json) :
  has_status "done" task = shows_status "done" task
  /\ has_status "doing" task = shows_status "doing" task
  /\ has_status "review" task = shows_status "review" task
  /\ has_status "todo" task = shows_status "todo" task || lacks_status task
  /\ shows_status "todo" task && lacks_status task = false.
Proof.
  unfold has_status, shows_status, lacks_status.
  destruct task as [| | | | | |fields]; cbn [get]; try (repeat split; reflexivity).
  destruct (lookup "status" fields) as [status|]; [|repeat split; reflexivity].
  rewrite orb_false_r, andb_false_r. repeat split; reflexivity.
Qed.

Lemma number_defaults (tasks : list json) :
  number_with "done" tasks = number_showing "done" tasks
  /\ number_with "doing" tasks = number_showing "doing" tasks
  /\ number_with "review" tasks = number_showing "review" tasks
  /\ number_with "todo" tasks
     = number_showing "todo" tasks + length (filter lacks_status tasks).
Proof.
  unfold number_with, number_showing.
  induction tasks as [|task rest IH]; cbn [filter length]; [repeat split; reflexivity|].
  destruct IH as (IH1 & IH2 & IH3 & IH4).
  destruct (status_defaults task) as (H1 & H2 & H3 & H4 & H5).
  rewrite H1, H2, H3, H4.
  destruct (shows_status "done" task), (shows_status "doing" task),
           (shows_status "review" task), (shows_status "todo" task), (lacks_status task);
    cbn [orb andb length] in *; try discriminate; repeat split; lia.
Qed.

End ListingLemmas.

(** X17. For a listing of tasks that are dictionaries with hashable status
    and assignee and a numeric task order, [list_project_tasks] answers with
    the summary: the total, the numbers of tasks whose status is todo,
    doing, review and done (a task without a status counts for none of
    them, so the four add up to at most the total), and one line per task
    in the order of the listing.  It sends the one listing request and
    writes nothing to the log. *)
Theorem list_project_tasks_summary :
  forall (R : Repr) (S : Type) (serve : list_request -> S -> reply * S)
         (project_id status_filter : option string) (w : world S)
         (fields : list (string * json)) (succ : json) (tasks : list json) (s' : S),
    let pid := or_else project_id (deps_project_id w) in
    truthy pid = true ->
    serve (listing_request pid status_filter) (store w) = (Returns (Json (JObj fields)), s') ->
    lookup "success" fields = Some succ ->
    truthy succ = true ->
    lookup "tasks" fields = Some (JArr tasks) ->
    tasks <> [] ->
    forallb listable tasks = true ->
    list_project_tasks serve project_id status_filter w
    = (Ok (summary (length tasks)
             [("todo", number_showing "todo" tasks); ("doing", number_showing "doing" tasks);
              ("review", number_showing "review" tasks); ("done", number_showing "done" tasks)]
             (map line_of tasks)),
       World s' (sent w ++ [listing_request pid status_filter]) (logged w)
             (deps_project_id w))
    /\ number_showing "todo" tasks + number_showing "doing" tasks
       + number_showing "review" tasks + number_showing "done" tasks <= length tasks.
Proof.
  intros R S serve project_id status_filter w fields succ tasks s' pid
         Hpid Hserve Hsucc Htruthy Htasks Hne Hl.
  split; [|apply number_showing_four].
  destruct (format_each_listable tasks Hl []
              [("todo", 0); ("doing", 0); ("review", 0); ("done", 0)]) as (c' & E & Hc').
  unfold list_project_tasks, try_except.
  unfold bind at 1. unfold get_deps_project_id. fold pid. rewrite Hpid. cbn [negb].
  unfold bind at 1. unfold call. rewrite Hserve.
  unfold bind at 1. unfold lift at 1. cbn [json_loads].
  unfold bind at 1. unfold lift at 1. cbn [get]. rewrite Hsucc, Htruthy. cbn [negb].
  unfold bind at 1. unfold lift at 1. rewrite Htasks.
  replace (truthy (JArr tasks)) with true by (destruct tasks; [congruence | reflexivity]).
  cbn [negb].
  unfold bind at 1. unfold lift at 1. cbn [iterate].
  unfold bind at 1. unfold lift at 1. rewrite E.
  unfold bind, lift, ret. cbn [len fst snd app].
  unfold summary. rewrite !Hc'. reflexivity.
Qed.

Lemma list_project_tasks_summary_witness :
  exists message,
    list_project_tasks (R := plain_Repr) (always (listing three_tasks)) None (Some "doing")
      (start (JStr "p-1"))
    = (Ok message, World tt [ListByStatus "doing" (JStr "p-1")] [] (JStr "p-1"))
    /\ number_showing "todo" three_tasks = 0.
Proof.
  eexists. split; [|reflexivity].
  exact (proj1 (@list_project_tasks_summary plain_Repr unit (always (listing three_tasks))
                  None (Some "doing") (start (JStr "p-1")) _ _ _ tt
                  eq_refl eq_refl eq_refl eq_refl eq_refl ltac:(discriminate) eq_refl)).
Defined.

(** X18. [list_project_tasks] never raises: it always answers with a
    message and leaves the project of the context as it was.  Without a
    project it sends and logs nothing.  With one it sends the one listing
    request, which filters by status when a non-empty status filter is
    given and by project otherwise; the log grows by one record exactly
    when the listing met an exception (raised by the call, the decoding, a
    payload that is not an object, or the loop over the tasks), the answer
    is then the error message of that exception, and for every other reply
    the log stays as it was. *)
Theorem list_project_tasks_always_answers :
  forall (R : Repr) (S : Type) (serve : list_request -> S -> reply * S)
         (project_id status_filter : option string) (w : world S),
    let pid := or_else project_id (deps_project_id w) in
    let r := match status_filter with
             | Some wanted =>
                 if (wanted =? "")%string then ListByProject pid
                 else ListByStatus wanted pid
             | None => ListByProject pid
             end in
    exists message w',
      list_project_tasks serve project_id status_filter w = (Ok message, w')
      /\ deps_project_id w' = deps_project_id w
      /\ (if truthy pid then
            sent w' = sent w ++ [r]
            /\ match listing_exception (fst (serve r (store w))) with
               | Some e =>
                   message = ("Error retrieving tasks: " ++ str_exn e)%string
                   /\ logged w' = logged w
                                  ++ [("Error listing project tasks: " ++ str_exn e)%string]
               | None => logged w' = logged w
               end
          else
            message = no_project_specified
            /\ sent w' = sent w
            /\ logged w' = logged w).
Proof.
  intros R S serve project_id status_filter w pid r.
  unfold list_project_tasks, try_except.
  unfold bind at 1. unfold get_deps_project_id. fold pid.
  change (listing_request pid status_filter) with r.
  destruct (truthy pid); cbn [negb];
    [|unfold ret; eexists _, _; repeat split; reflexivity].
  unfold bind at 1. unfold call.
  destruct (serve r (store w)) as [answer s'] eqn:Hserve. cbn [fst].
  destruct answer as [e | [e | data]].
  - unfold bind, logger_error, ret. cbn. eexists _, _. repeat split; reflexivity.
  - unfold bind, lift, logger_error, ret. cbn. eexists _, _. repeat split; reflexivity.
  - unfold bind at 1. unfold lift at 1. cbn [json_loads].
    destruct data as [| | | | | |fields];
      try (unfold bind, lift, logger_error, ret; cbn; eexists _, _;
           repeat split; reflexivity).
    unfold bind at 1. unfold lift at 1. cbn [get listing_exception].
    set (success := match lookup "success" fields with
                    | Some v => v | None => JBool false end).
    set (tasks := match lookup "tasks" fields with Some v => v | None => JArr [] end).
    destruct (truthy success); cbn [negb andb].
    2:{ unfold bind, lift, ret. cbn. eexists _, _. repeat split; reflexivity. }
    unfold bind at 1. unfold lift at 1.
    destruct (truthy tasks); cbn [negb].
    2:{ unfold ret. eexists _, _. repeat split; reflexivity. }
    unfold bind at 1. unfold lift at 1.
    destruct (iterate tasks) as [elements|e] eqn:Hiter.
    2:{ unfold logger_error, bind, ret. cbn. eexists _, _. repeat split; reflexivity. }
    unfold bind at 1. unfold lift at 1.
    destruct (format_each elements [] [("todo", 0); ("doing", 0); ("review", 0); ("done", 0)])
      as [formatted|e].
    2:{ unfold logger_error, bind, ret. cbn. eexists _, _. repeat split; reflexivity. }
    assert (Hlen : exists total, len tasks = Ok total)
      by (destruct tasks; try discriminate; eexists; reflexivity).
    destruct Hlen as (total & Hlen).
    unfold bind, lift, ret. rewrite Hlen. eexists _, _. repeat split; reflexivity.
Qed.

(** X19. For a listing of task dictionaries with hashable status and
    assignee, [analyze_project_progress] answers with the progress report
    of [_analyze_project_health] on these tasks, whose score lies between 0
    and 10; it asks once for all tasks, closed ones included, and writes
    nothing to the log. *)
Theorem analyze_project_progress_reports_health :
  forall (S : Type) (serve : list_request -> S -> reply * S)
         (project_id : option string) (w : world S)
         (fields : list (string * json)) (succ : json) (tasks : list json) (s' : S),
    let pid := or_else project_id (deps_project_id w) in
    truthy pid = true ->
    serve (ListWithClosed pid) (store w) = (Returns (Json (JObj fields)), s') ->
    lookup "success" fields = Some succ ->
    truthy succ = true ->
    lookup "tasks" fields = Some (JArr tasks) ->
    tasks <> [] ->
    forallb well_formed tasks = true ->
    exists report,
      _analyze_project_health tasks = Ok report
      /\ (0 <= health_score report <= 10)%Z
      /\ analyze_project_progress serve project_id w
         = (Ok (progress_report report),
            World s' (sent w ++ [ListWithClosed pid]) (logged w) (deps_project_id w)).
Proof.
  intros S serve project_id w fields succ tasks s' pid
         Hpid Hserve Hsucc Htruthy Htasks Hne Hwf.
  destruct (health_well_formed_ok tasks Hwf) as (report & E & Hrange).
  exists report. split; [exact E|]. split; [exact Hrange|].
  unfold analyze_project_progress, try_except.
  unfold bind at 1. unfold get_deps_project_id. fold pid. rewrite Hpid. cbn [negb].
  unfold bind at 1. unfold call. rewrite Hserve.
  unfold bind at 1. unfold lift at 1. cbn [json_loads].
  unfold bind at 1. unfold lift at 1. cbn [get]. rewrite Hsucc, Htruthy. cbn [negb].
  unfold bind at 1. unfold lift at 1. rewrite Htasks.
  replace (truthy (JArr tasks)) with true by (destruct tasks; [congruence | reflexivity]).
  cbn [negb].
  unfold bind, lift, ret, analyze_health. cbn [len iterate]. rewrite E. reflexivity.
Qed.

Lemma analyze_project_progress_reports_health_witness :
  exists report,
    health_score report = 10%Z
    /\ fst (analyze_project_progress (always (listing mix)) (Some "p-1") (start JNull))
       = Ok (progress_report report).
Proof.
  destruct (@analyze_project_progress_reports_health unit (always (listing mix))
              (Some "p-1") (start JNull) _ _ _ tt
              eq_refl eq_refl eq_refl eq_refl eq_refl ltac:(discriminate) eq_refl)
    as (report & E & _ & Erun).
  exists report. split.
  - vm_compute in E. injection E as <-. reflexivity.
  - rewrite Erun. reflexivity.
Defined.

(** X20. [analyze_project_progress] never raises: it always answers with a
    message, leaves the project of the context as it was, and sends nothing
    or the one request for all tasks of the project.  A listing whose tasks
    are not a list of well-formed dictionaries is answered with the error
    message of the exception, which is also logged: a task that is not a
    dictionary gives the AttributeError of its missing [get], and a number
    in place of the list the TypeError of [len]. *)
Theorem analyze_project_progress_always_answers :
  forall (S : Type) (serve : list_request -> S -> reply * S)
         (project_id : option string) (w : world S),
    let pid := or_else project_id (deps_project_id w) in
    (exists message w',
       analyze_project_progress serve project_id w = (Ok message, w')
       /\ deps_project_id w' = deps_project_id w
       /\ (sent w' = sent w \/ sent w' = sent w ++ [ListWithClosed pid])
       /\ (logged w' = logged w
           \/ exists e,
                message = ("Error analyzing project progress: " ++ str_exn e)%string
                /\ logged w' = logged w
                               ++ [("Error analyzing project progress: " ++ str_exn e)%string]))
    /\ (forall (fields : list (string * json)) (succ tasks : json) (s' : S) (e : exn),
          truthy pid = true ->
          serve (ListWithClosed pid) (store w) = (Returns (Json (JObj fields)), s') ->
          lookup "success" fields = Some succ ->
          truthy succ = true ->
          lookup "tasks" fields = Some tasks ->
          truthy tasks = true ->
          analyze_health tasks = Raise e ->
          analyze_project_progress serve project_id w
          = (Ok ("Error analyzing project progress: " ++ str_exn e)%string,
             World s' (sent w ++ [ListWithClosed pid])
                   (logged w ++ [("Error analyzing project progress: " ++ str_exn e)%string])
                   (deps_project_id w)))
    /\ (forall (before after : list json) (task : json),
          forallb well_formed before = true ->
          is_object task = false ->
          analyze_health (JArr (before ++ task :: after)) = Raise (no_attribute task "get"))
    /\ (forall n : Z,
          analyze_health (JInt n)
          = Raise (Exn TypeError "object of type 'int' has no len()")).
Proof.
  intros S serve project_id w pid. split; [|split; [|split]].
  - unfold analyze_project_progress, try_except, bind, get_deps_project_id, lift, ret, call,
           logger_error.
    fold pid.
    repeat (next_case; cbn [store sent logged deps_project_id fst snd]);
      eexists _, _; (split; [reflexivity|]); (split; [reflexivity|]);
      cbn [sent logged];
      (split; [first [left; reflexivity | right; reflexivity]
              |first [left; reflexivity | right; eexists; split; reflexivity]]).
  - intros fields succ tasks s' e Hpid Hserve Hsucc Htruthy Htasks Htt Hraise.
    unfold analyze_project_progress, try_except.
    unfold bind at 1. unfold get_deps_project_id. fold pid. rewrite Hpid. cbn [negb].
    unfold bind at 1. unfold call. rewrite Hserve.
    unfold bind at 1. unfold lift at 1. cbn [json_loads].
    unfold bind at 1. unfold lift at 1. cbn [get]. rewrite Hsucc, Htruthy. cbn [negb].
    unfold bind at 1. unfold lift at 1. rewrite Htasks, Htt. cbn [negb].
    unfold bind, lift, ret, logger_error. rewrite Hraise. reflexivity.
  - intros before after task Hwf Hobj. unfold analyze_health. cbn [len iterate].
    unfold _analyze_project_health.
    rewrite (@nonempty_length _ (before ++ task :: after))
      by (destruct before; discriminate).
    destruct (count_all_app before Hwf [("done", 0); ("doing", 0); ("todo", 0); ("review", 0)]
                [("User", 0); ("AI IDE Agent", 0); ("Archon", 0)]) as (sc & ac & E).
    rewrite E. cbn [count_all]. destruct task; try discriminate; reflexivity.
  - intros n. reflexivity.
Qed.

(** X26. The other answers of the listing tools.  Without a project both
    tools answer with the fixed message and send nothing.  For an envelope
    without success [list_project_tasks] gives the error of the envelope
    ("Unknown error" when it has none) and logs nothing; for a successful
    envelope with no tasks it says that no tasks were found; and a listed
    task that is not a dictionary ends the listing with the error message of
    the AttributeError, which is also logged. *)
Theorem list_project_tasks_failures :
  forall (R : Repr) (S : Type) (serve : list_request -> S -> reply * S)
         (project_id status_filter : option string) (w : world S),
    let pid := or_else project_id (deps_project_id w) in
    let r := listing_request pid status_filter in
    (truthy pid = false ->
     list_project_tasks serve project_id status_filter w = (Ok no_project_specified, w)
     /\ analyze_project_progress serve project_id w = (Ok no_project_specified, w))
    /\ (forall (fields : list (string * json)) (succ : json) (s' : S),
          truthy pid = true ->
          serve r (store w) = (Returns (Json (JObj fields)), s') ->
          get (JObj fields) "success" (JBool false) = Ok succ ->
          truthy succ = false ->
          list_project_tasks serve project_id status_filter w
          = (Ok ("Error retrieving tasks: "
                 ++ match lookup "error" fields with
                    | Some error => py_str error
                    | None => "Unknown error"
                    end)%string,
             World s' (sent w ++ [r]) (logged w) (deps_project_id w)))
    /\ (forall (fields : list (string * json)) (succ : json) (s' : S),
          truthy pid = true ->
          serve r (store w) = (Returns (Json (JObj fields)), s') ->
          lookup "success" fields = Some succ ->
          truthy succ = true ->
          match lookup "tasks" fields with
          | Some tasks => truthy tasks = false
          | None => True
          end ->
          list_project_tasks serve project_id status_filter w
          = (Ok "No tasks found in this project.",
             World s' (sent w ++ [r]) (logged w) (deps_project_id w)))
    /\ (forall (fields : list (string * json)) (succ : json) (s' : S)
               (before after : list json) (task : json),
          truthy pid = true ->
          serve r (store w) = (Returns (Json (JObj fields)), s') ->
          lookup "success" fields = Some succ ->
          truthy succ = true ->
          lookup "tasks" fields = Some (JArr (before ++ task :: after)) ->
          forallb listable before = true ->
          is_object task = false ->
          list_project_tasks serve project_id status_filter w
          = (Ok ("Error retrieving tasks: " ++ str_exn (no_attribute task "get"))%string,
             World s' (sent w ++ [r])
                   (logged w ++ [("Error listing project tasks: "
                                  ++ str_exn (no_attribute task "get"))%string])
                   (deps_project_id w))).
Proof.
  intros R S serve project_id status_filter w pid r. split; [|split; [|split]].
  - intros Hpid. split.
    + unfold list_project_tasks, try_except, bind, get_deps_project_id, ret.
      fold pid. rewrite Hpid. reflexivity.
    + unfold analyze_project_progress, try_except, bind, get_deps_project_id, ret.
      fold pid. rewrite Hpid. reflexivity.
  - intros fields succ s' Hpid Hserve Hsucc Hfalse.
    unfold list_project_tasks, try_except.
    unfold bind at 1. unfold get_deps_project_id. fold pid. rewrite Hpid. cbn [negb].
    fold r. unfold bind at 1. unfold call. rewrite Hserve.
    unfold bind at 1. unfold lift at 1. cbn [json_loads].
    unfold bind at 1. unfold lift at 1. rewrite Hsucc, Hfalse. cbn [negb].
    unfold bind, lift, ret. cbn [get].
    destruct (lookup "error" fields); reflexivity.
  - intros fields succ s' Hpid Hserve Hsucc Htruthy Htasks.
    unfold list_project_tasks, try_except.
    unfold bind at 1. unfold get_deps_project_id. fold pid. rewrite Hpid. cbn [negb].
    fold r. unfold bind at 1. unfold call. rewrite Hserve.
    unfold bind at 1. unfold lift at 1. cbn [json_loads].
    unfold bind at 1. unfold lift at 1. cbn [get]. rewrite Hsucc, Htruthy. cbn [negb].
    unfold bind at 1. unfold lift at 1.
    destruct (lookup "tasks" fields) as [tasks|]; [rewrite Htasks|]; reflexivity.
  - intros fields succ s' before after task Hpid Hserve Hsucc Htruthy Htasks Hl Hobj.
    destruct (format_each_app before Hl []
                [("todo", 0); ("doing", 0); ("review", 0); ("done", 0)])
      as (lines & c & E).
    unfold list_project_tasks, try_except.
    unfold bind at 1. unfold get_deps_project_id. fold pid. rewrite Hpid. cbn [negb].
    fold r. unfold bind at 1. unfold call. rewrite Hserve.
    unfold bind at 1. unfold lift at 1. cbn [json_loads].
    unfold bind at 1. unfold lift at 1. cbn [get]. rewrite Hsucc, Htruthy. cbn [negb].
    unfold bind at 1. unfold lift at 1. rewrite Htasks.
    replace (truthy (JArr (before ++ task :: after))) with true
      by (destruct before; reflexivity).
    cbn [negb].
    unfold bind at 1. unfold lift at 1. cbn [iterate].
    unfold bind at 1. unfold lift at 1. rewrite E. cbn [format_each].
    replace (format_task task c) with (@Raise (string * counters) (no_attribute task "get"))
      by (destruct task; try discriminate; reflexivity).
    unfold bind, logger_error, ret. reflexivity.
Qed.

Lemma list_project_tasks_failures_witness :
  list_project_tasks (R := plain_Repr) (always (failure_envelope "store offline"))
    (Some "p-1") None (start JNull)
  = (Ok "Error retrieving tasks: store offline",
     World tt [ListByProject (JStr "p-1")] [] JNull).
Proof.
  exact (proj1 (proj2 (@list_project_tasks_failures plain_Repr unit
                         (always (failure_envelope "store offline"))
                         (Some "p-1") None (start JNull)))
           _ _ tt eq_refl eq_refl eq_refl eq_refl).
Defined.

(** X25. The listing and the analysis of the same tasks agree on the numbers
    of done, doing and review tasks, but not on the todo ones: a task
    without a status is a todo for the analysis and belongs to none of the
    four groups of the listing, so the analysis reports as many more todo
    tasks as there are tasks without a status. *)
Theorem listing_and_analysis_counts :
  forall (R : Repr) (tasks : list json),
    forallb listable tasks = true ->
    exists lines counts report,
      format_each tasks [] [("todo", 0); ("doing", 0); ("review", 0); ("done", 0)]
      = Ok (lines, counts)
      /\ _analyze_project_health tasks = Ok report
      /\ completed report = counter "done" counts
      /\ in_progress report = counter "doing" counts
      /\ review report = counter "review" counts
      /\ todo report = counter "todo" counts + length (filter lacks_status tasks).
Proof.
  intros R tasks Hl.
  destruct (format_each_listable tasks Hl []
              [("todo", 0); ("doing", 0); ("review", 0); ("done", 0)]) as (counts & E & Hc).
  destruct (health_report_counts tasks (listable_well_formed tasks Hl))
    as (report & Er & H1 & H2 & H3 & H4).
  destruct (number_defaults tasks) as (N1 & N2 & N3 & N4).
  exists (map line_of tasks), counts, report.
  split; [exact E|]. split; [exact Er|].
  rewrite H1, H2, H3, H4, !Hc, N1, N2, N3, N4. cbn [counter String.eqb Ascii.eqb Bool.eqb].
  repeat split; reflexivity.
Qed.

Lemma listing_and_analysis_counts_witness :
  exists lines counts report,
    format_each (R := plain_Repr) three_tasks []
      [("todo", 0); ("doing", 0); ("review", 0); ("done", 0)] = Ok (lines, counts)
    /\ _analyze_project_health three_tasks = Ok report
    /\ counter "todo" counts = 0
    /\ todo report = 1.
Proof.
  destruct (@listing_and_analysis_counts plain_Repr three_tasks eq_refl)
    as (lines & counts & report & E & Er & _ & _ & _ & Htodo).
  exists lines, counts, report. split; [exact E|]. split; [exact Er|].
  vm_compute in E. injection E as <- <-.
  split; [reflexivity|]. rewrite Htodo. reflexivity.
Defined.

Lemma analyze_project_progress_always_answers_witness :
  analyze_project_progress
    (always (Returns (Json (JObj [("success", JBool true); ("tasks", JInt 3)]))))
    (Some "p-1") (start JNull)
  = (Ok "Error analyzing project progress: object of type 'int' has no len()",
     World tt [ListWithClosed (JStr "p-1")]
           ["Error analyzing project progress: object of type 'int' has no len()"] JNull).
Proof.
  exact (proj1 (proj2 (@analyze_project_progress_always_answers unit
                         (always (Returns (Json (JObj [("success", JBool true);
                                                       ("tasks", JInt 3)]))))
                         (Some "p-1") (start JNull)))
           _ _ _ tt _ eq_refl eq_refl eq_refl eq_refl eq_refl eq_refl eq_refl).
Defined.

End ListingFacts.

(** ** The simulations of the test suite *)

Module SimulationFacts.
Import Simulation.

(** X21. The simulated domain detection answers "generic" exactly when the
    lower-cased text has no keyword of any of its four lists; the tasks
    generated for the detected domain then start with the three base tasks,
    number 7 when a keyword was found and 5 when none was, and are all
    assigned to the User or the AI IDE Agent.  A domain name that is none
    of the four, whatever its spelling, gets the generic list. *)
Theorem simulated_domain_tasks :
  forall (L : Lower) (t d : string),
    let text := lower (joined t d) in
    let found := any_in (auth_keywords ++ api_keywords ++ frontend_keywords
                         ++ database_keywords) text in
    let tasks := generate_tasks_for_domain (detect_project_domain t d) t d in
    (detect_project_domain t d = "generic" <-> found = false)
    /\ firstn 3 tasks = base_tasks
    /\ length tasks = (if found then 7 else 5)
    /\ Forall (fun task => exists title assignee,
                 task = task_dict title assignee
                 /\ (assignee = "User" \/ assignee = "AI IDE Agent")) tasks
    /\ (forall dom,
          dom <> "authentication" -> dom <> "api" -> dom <> "frontend" -> dom <> "database" ->
          generate_tasks_for_domain dom t d = generate_tasks_for_domain "generic" t d).
Proof.
  intros L t d text found tasks.
  assert (Hfound : found = any_in auth_keywords text || any_in api_keywords text
                           || any_in frontend_keywords text
                           || any_in database_keywords text).
  { unfold found, any_in. rewrite !existsb_app, !orb_assoc. reflexivity. }
  unfold tasks, detect_project_domain. fold text. rewrite Hfound. clear Hfound.
  split; [|split; [|split; [|split]]].
  - destruct (any_in auth_keywords text), (any_in api_keywords text),
             (any_in frontend_keywords text), (any_in database_keywords text);
      cbn; split; intros H; try discriminate; reflexivity.
  - destruct (any_in auth_keywords text), (any_in api_keywords text),
             (any_in frontend_keywords text), (any_in database_keywords text);
      reflexivity.
  - destruct (any_in auth_keywords text), (any_in api_keywords text),
             (any_in frontend_keywords text), (any_in database_keywords text);
      reflexivity.
  - destruct (any_in auth_keywords text), (any_in api_keywords text),
             (any_in frontend_keywords text), (any_in database_keywords text);
      cbn; repeat constructor; eexists _, _; (split; [reflexivity|]);
      first [left; reflexivity | right; reflexivity].
  - intros dom H1 H2 H3 H4. unfold generate_tasks_for_domain.
    apply String.eqb_neq in H1, H2, H3, H4. rewrite H1, H2, H3, H4. reflexivity.
Qed.

Lemma simulated_domain_tasks_witness :
  generate_tasks_for_domain "Authentication" "OAuth" "JWT system"
  = generate_tasks_for_domain "generic" "OAuth" "JWT system".
Proof.
  exact (proj2 (proj2 (proj2 (proj2 (@simulated_domain_tasks ascii_Lower "OAuth"
                                       "JWT system"))))
           "Authentication" ltac:(discriminate) ltac:(discriminate)
           ltac:(discriminate) ltac:(discriminate)).
Defined.

(** X22. The simulated response parsing never reaches its [except] clause,
    and it accepts a response only when it is a dictionary whose success
    field is the boolean True: the parsed success is then True with the
    data and message of the response (or their defaults); in every other
    case the parsed success is False and an error is given.  A success
    field that is merely truthy, such as 1, is a failure here, while the
    agent tools count such an envelope as a confirmed creation. *)
Theorem parse_mcp_response_strict :
  forall response : json,
    let accepted := match response with
                    | JObj fields => match lookup "success" fields with
                                     | Some (JBool true) => true
                                     | _ => false
                                     end
                    | _ => false
                    end in
    parse_body response = Ok (parse_mcp_response response)
    /\ get (parse_mcp_response response) "success" JNull = Ok (JBool accepted)
    /\ (accepted = true ->
        exists data message,
          get response "data" (JObj []) = Ok data
          /\ get response "message" (JStr "Operation successful") = Ok message
          /\ parse_mcp_response response
             = JObj [("success", JBool true); ("data", data); ("message", message)])
    /\ (accepted = false ->
        exists error,
          parse_mcp_response response = JObj [("success", JBool false); ("error", error)]
          /\ (is_object response = false -> error = JStr "Invalid response format"))
    /\ (parse_mcp_response (JObj [("success", JInt 1)])
        = JObj [("success", JBool false); ("error", JStr "Unknown error occurred")]
        /\ confirmed (Returns (Json (JObj [("success", JInt 1)]))) = true).
Proof.
  intros response accepted. unfold accepted, parse_mcp_response, parse_body.
  destruct response as [| | | | | |fields]; cbn [is_object negb get];
    try (repeat split; try reflexivity; try discriminate; intros _;
         eexists; (split; [reflexivity | intros _; reflexivity])).
  destruct (lookup "success" fields) as [[|[|]| | | | |]|]; cbn [is_True];
    repeat split; try reflexivity; try discriminate; intros _;
    first [ eexists _, _; repeat split; reflexivity
          | eexists; (split; [reflexivity | discriminate]) ].
Qed.

Lemma parse_mcp_response_strict_witness :
  exists data message,
    parse_mcp_response (JObj [("success", JBool true);
                              ("data", JObj [("project_id", JStr "123")])])
    = JObj [("success", JBool true); ("data", data); ("message", message)]
    /\ message = JStr "Operation successful".
Proof.
  destruct (proj1 (proj2 (proj2 (@parse_mcp_response_strict
                                   (JObj [("success", JBool true);
                                          ("data", JObj [("project_id", JStr "123")])]))))
              eq_refl) as (data & message & _ & Emessage & E).
  exists data, message. split; [exact E|].
  cbn in Emessage. injection Emessage as <-. reflexivity.
Defined.

(** X23. The payload [format_agent_response] serialises.  On success the
    data is merged over the envelope, so that a key of the data wins, also
    over the success flag and the timestamp; on failure the data is ignored
    and the error, when there is a non-empty one, is added.  The keys stay
    distinct. *)
Theorem format_agent_response_payload :
  forall (D : Dumps) (success : bool) (data : option (list (string * json)))
         (error : option string),
    NoDup (map fst (AgentsServiceClient.or_empty data)) ->
    let envelope := [("success", JBool success);
                     ("timestamp", JStr "2024-01-01T00:00:00Z")] in
    let added := if success then AgentsServiceClient.or_empty data
                 else match error with
                      | Some text => if (text =? "")%string then [] else [("error", JStr text)]
                      | None => []
                      end in
    exists fields,
      format_agent_response success data error = dumps (JObj fields)
      /\ NoDup (map fst fields)
      /\ forall k, lookup k fields
                   = match lookup k added with
                     | Some v => Some v
                     | None => lookup k envelope
                     end.
Proof.
  intros D success data error Hnd envelope added.
  unfold format_agent_response, response_fields. eexists. split; [reflexivity|].
  assert (Henv : NoDup (map fst envelope))
    by (cbn; repeat constructor; cbn; intuition discriminate).
  fold envelope. unfold added. destruct success; cbn [andb negb].
  - destruct (AgentsServiceClient.or_empty data) as [|kv rest] eqn:Edata; cbn [is_empty negb].
    + split; [exact Henv | intros k; reflexivity].
    + apply AgentsClientFacts.dict_merge_lookup; assumption.
  - destruct error as [text|]; cbn [AgentsServiceClient.opt_str truthy].
    + destruct (text =? "")%string; cbn [negb].
      * split; [exact Henv | intros k; reflexivity].
      * split.
        -- apply AgentsClientFacts.dict_set_NoDup. exact Henv.
        -- intros k. rewrite AgentsClientFacts.lookup_dict_set. cbn [lookup].
           destruct ("error" =? k)%string; reflexivity.
    + split; [exact Henv | intros k; reflexivity].
Qed.

Lemma format_agent_response_payload_witness :
  exists fields,
    format_agent_response (D := plain_Dumps) true
      (Some [("success", JBool false); ("tasks_created", JInt 5)]) (Some "ignored")
    = dumps (JObj fields)
    /\ lookup "success" fields = Some (JBool false)
    /\ lookup "tasks_created" fields = Some (JInt 5)
    /\ lookup "error" fields = None.
Proof.
  assert (Hnd : NoDup (map fst (AgentsServiceClient.or_empty
                                  (Some [("success", JBool false);
                                         ("tasks_created", JInt 5)]))))
    by (cbn; repeat constructor; cbn; intuition discriminate).
  destruct (@format_agent_response_payload plain_Dumps true
              (Some [("success", JBool false); ("tasks_created", JInt 5)])
              (Some "ignored") Hnd) as (fields & E & _ & Hlook).
  exists fields. split; [exact E|]. rewrite !Hlook. repeat split; reflexivity.
Defined.

End SimulationFacts.
